(** * rollup-plugin-esmwasm: a shallow embedding of [src/index.mjs]

    The plugin turns a [.wasm] file into an ES module.  Its build-time code
    is embedded here function by function: [createBase64UriForWasm],
    [parseWasm], [generateWasmInitCode], [wasmPlugin] and the two hooks
    [resolveId] and [load]; so is the loader [initWasm] that every
    generated module begins with.  What the source takes from its platform
    (the file system, [WebAssembly.compile], the bundler's plugin context)
    is a record of capabilities; the Node built-ins whose results the
    statements speak about (base64, md5, [path.basename]) are modelled by
    their standards.  What a generated module says is decided by reading
    its text back ([Reader]).

    Part I holds the definitions, Part II the theorems. *)

From Stdlib Require Import ZArith String Ascii List Lia Bool.
From Stdlib Require Import SpecFloat DecimalString.
From Stdlib Require DecimalNat DecimalFacts.
From stdpp Require Import base option list gmap strings.
Import ListNotations.
Local Open Scope string_scope.

(* ===================================================================== *)
(** * Part I. Definitions                                                 *)
(* ===================================================================== *)

(** ** Completion of a JavaScript computation

    A call either returns a value or throws an [Error] whose [message] is
    the payload of [Thrown]. *)

Inductive Outcome (A : Type) : Type :=
| Returned (a : A)
| Thrown (message : string).
Arguments Returned {A} a.
Arguments Thrown {A} message.

(** ** Strings

    JavaScript strings are kept as Rocq strings; the methods the source
    calls on them are below, under their JavaScript names. *)

Module JsString.

(** The one-character string holding a double quote. *)
Definition dquote : string := String (ascii_of_nat 34) EmptyString.

(** The one-character string holding a line feed. *)
Definition lf : string := String (ascii_of_nat 10) EmptyString.

(** [s.endsWith(suffix)]: the last [length suffix] characters of [s] are
    [suffix]. *)
Definition endsWith (s suffix : string) : bool :=
  let n := String.length s in
  let m := String.length suffix in
  (m <=? n)%nat && String.eqb (substring (n - m) m s) suffix.

(** [s.slice(0, n)]. *)
Definition slice0 (n : nat) (s : string) : string := substring 0 n s.

(** [parts.join(sep)]. *)
Definition join (sep : string) (parts : list string) : string :=
  String.concat sep parts.

(** [`${i}`] for an array index [i]: its decimal numeral. *)
Definition ofIndex (i : nat) : string :=
  NilZero.string_of_uint (Nat.to_uint i).

(** [xs.map((x, i) => f(x, i))], the index counted from [i0]. *)
Fixpoint mapi_from {A B : Type} (f : A -> nat -> B) (i0 : nat) (xs : list A)
  : list B :=
  match xs with
  | [] => []
  | x :: rest => f x i0 :: mapi_from f (S i0) rest
  end.

Definition mapi {A B : Type} (f : A -> nat -> B) (xs : list A) : list B :=
  mapi_from f 0 xs.

End JsString.

(** ** Numbers

    A JavaScript number is an IEEE 754 binary64 value; the Standard
    Library's [spec_float] is its specification-level carrier, with the
    IEEE comparisons ([NaN] compares false with everything, the two zeros
    are equal). *)

Module JsNumber.

Definition number : Type := spec_float.

Definition NaN : number := S754_nan.
Definition zero : number := S754_zero false.
Definition negZero : number := S754_zero true.

(** An integer literal, rounded to the nearest binary64. *)
Definition ofZ (z : Z) : number := binary_normalize 53 1024 z 0 false.

(** A count, such as a file's size in bytes, as a number. *)
Definition ofN (n : N) : number := ofZ (Z.of_N n).

(** [a < b], [a <= b], [a > b] and [a === b] on numbers. *)
Definition lt (a b : number) : bool := SFltb a b.
Definition le (a b : number) : bool := SFleb a b.
Definition gt (a b : number) : bool := SFltb b a.
Definition strictEq (a b : number) : bool := SFeqb a b.

End JsNumber.

(** ** Values an options object may carry *)

Inductive JsValue : Type :=
| JsUndefined
| JsNull
| JsBoolean (b : bool)
| JsNumber (x : JsNumber.number)
| JsString (s : string)
| JsObject.

(** [typeof v]. *)
Definition typeof (v : JsValue) : string :=
  match v with
  | JsUndefined => "undefined"
  | JsNull => "object"
  | JsBoolean _ => "boolean"
  | JsNumber _ => "number"
  | JsString _ => "string"
  | JsObject => "object"
  end.

(** [v !== 'literal']. *)
Definition strictNeString (v : JsValue) (literal : string) : bool :=
  match v with
  | JsString s => negb (String.eqb s literal)
  | _ => true
  end.

(** [v < 0], for a [v] whose [typeof] is ["number"]. *)
Definition numberLtZero (v : JsValue) : bool :=
  match v with
  | JsNumber x => JsNumber.lt x JsNumber.zero
  | _ => false
  end.

(** A destructuring default, [{ key = fallback } = options]: the fallback
    stands in for [undefined] only. *)
Definition withDefault (fallback v : JsValue) : JsValue :=
  match v with
  | JsUndefined => fallback
  | _ => v
  end.

(** ** Base64

    [fs.promises.readFile(path, 'base64')] returns the file's bytes in the
    base64 encoding of RFC 4648 section 4 (standard alphabet, [=] padding);
    the generated loader decodes it again with [Buffer.from(_, "base64")]
    or [atob].  A byte is a [Byte.byte]; a group of six bits is written
    most significant bit first. *)

Module Base64.

Definition sextet : Type := (bool * bool * bool * bool * bool * bool)%type.

Definition alphabet : string :=
  "ABCDEFGHIJKLMNOPQRSTUVWXYZabcdefghijklmnopqrstuvwxyz0123456789+/".

Definition pad : ascii := "="%char.

Definition bit (b : bool) : nat := if b then 1 else 0.

(** The value of a group of six bits, [0 .. 63]. *)
Definition sextetIndex (s : sextet) : nat :=
  let '(b5, b4, b3, b2, b1, b0) := s in
  32 * bit b5 + 16 * bit b4 + 8 * bit b3 + 4 * bit b2 + 2 * bit b1 + bit b0.

(** The group of six bits whose value is [n] (modulo 64). *)
Definition sextetOfIndex (n : nat) : sextet :=
  (Nat.testbit n 5, Nat.testbit n 4, Nat.testbit n 3,
   Nat.testbit n 2, Nat.testbit n 1, Nat.testbit n 0).

Definition encodeSextet (s : sextet) : ascii :=
  match String.get (sextetIndex s) alphabet with
  | Some c => c
  | None => pad
  end.

(** The position of [c] in [s], counted from [i]. *)
Fixpoint indexFrom (c : ascii) (s : string) (i : nat) : option nat :=
  match s with
  | EmptyString => None
  | String c' rest => if Ascii.eqb c c' then Some i else indexFrom c rest (S i)
  end.

Definition decodeSextet (c : ascii) : option sextet :=
  match indexFrom c alphabet 0 with
  | Some n => Some (sextetOfIndex n)
  | None => None
  end.

(** Three bytes are 24 bits, cut into four groups of six. *)
Definition split3 (a b c : Byte.byte) : sextet * sextet * sextet * sextet :=
  let '(a0, (a1, (a2, (a3, (a4, (a5, (a6, a7))))))) := Byte.to_bits a in
  let '(b0, (b1, (b2, (b3, (b4, (b5, (b6, b7))))))) := Byte.to_bits b in
  let '(c0, (c1, (c2, (c3, (c4, (c5, (c6, c7))))))) := Byte.to_bits c in
  ((a7, a6, a5, a4, a3, a2),
   (a1, a0, b7, b6, b5, b4),
   (b3, b2, b1, b0, c7, c6),
   (c5, c4, c3, c2, c1, c0)).

(** Four groups of six bits are put together again as three bytes. *)
Definition join4 (s0 s1 s2 s3 : sextet) : Byte.byte * Byte.byte * Byte.byte :=
  let '(a7, a6, a5, a4, a3, a2) := s0 in
  let '(a1, a0, b7, b6, b5, b4) := s1 in
  let '(b3, b2, b1, b0, c7, c6) := s2 in
  let '(c5, c4, c3, c2, c1, c0) := s3 in
  (Byte.of_bits (a0, (a1, (a2, (a3, (a4, (a5, (a6, a7))))))),
   Byte.of_bits (b0, (b1, (b2, (b3, (b4, (b5, (b6, b7))))))),
   Byte.of_bits (c0, (c1, (c2, (c3, (c4, (c5, (c6, c7)))))))).

(** [Buffer.prototype.toString('base64')]. *)
Fixpoint encode (bytes : list Byte.byte) : string :=
  match bytes with
  | [] => EmptyString
  | [a] =>
      let '(s0, s1, _, _) := split3 a Byte.x00 Byte.x00 in
      String (encodeSextet s0) (String (encodeSextet s1)
        (String pad (String pad EmptyString)))
  | [a; b] =>
      let '(s0, s1, s2, _) := split3 a b Byte.x00 in
      String (encodeSextet s0) (String (encodeSextet s1)
        (String (encodeSextet s2) (String pad EmptyString)))
  | a :: b :: c :: rest =>
      let '(s0, s1, s2, s3) := split3 a b c in
      String (encodeSextet s0) (String (encodeSextet s1)
        (String (encodeSextet s2) (String (encodeSextet s3) (encode rest))))
  end.

Definition zeroSextet : sextet := (false, false, false, false, false, false).

(** The decoder: four characters at a time, padding allowed in the last
    group only; [None] on anything that is not base64 text. *)
Fixpoint decode (text : string) : option (list Byte.byte) :=
  match text with
  | EmptyString => Some []
  | String c0 (String c1 (String c2 (String c3 rest))) =>
      match decodeSextet c0, decodeSextet c1 with
      | Some s0, Some s1 =>
          match decodeSextet c2, decodeSextet c3 with
          | Some s2, Some s3 =>
              let '(a, b, c) := join4 s0 s1 s2 s3 in
              match decode rest with
              | Some tail => Some (a :: b :: c :: tail)
              | None => None
              end
          | Some s2, None =>
              if Ascii.eqb c3 pad && String.eqb rest EmptyString
              then let '(a, b, _) := join4 s0 s1 s2 zeroSextet in Some [a; b]
              else None
          | None, _ =>
              if Ascii.eqb c2 pad && Ascii.eqb c3 pad && String.eqb rest EmptyString
              then let '(a, _, _) := join4 s0 s1 zeroSextet zeroSextet in Some [a]
              else None
          end
      | _, _ => None
      end
  | _ => None
  end.

End Base64.

(** ** MD5

    [crypto.createHash('md5').update(text).digest('hex')]: the MD5 digest
    of RFC 1321 over the bytes of [text], printed as 32 lower-case
    hexadecimal digits.  Words are 32-bit integers kept in [Z], every
    addition reduced modulo [2^32]. *)

Module Md5.

Definition sines : list Z :=
  [0xd76aa478; 0xe8c7b756; 0x242070db; 0xc1bdceee;
   0xf57c0faf; 0x4787c62a; 0xa8304613; 0xfd469501;
   0x698098d8; 0x8b44f7af; 0xffff5bb1; 0x895cd7be;
   0x6b901122; 0xfd987193; 0xa679438e; 0x49b40821;
   0xf61e2562; 0xc040b340; 0x265e5a51; 0xe9b6c7aa;
   0xd62f105d; 0x02441453; 0xd8a1e681; 0xe7d3fbc8;
   0x21e1cde6; 0xc33707d6; 0xf4d50d87; 0x455a14ed;
   0xa9e3e905; 0xfcefa3f8; 0x676f02d9; 0x8d2a4c8a;
   0xfffa3942; 0x8771f681; 0x6d9d6122; 0xfde5380c;
   0xa4beea44; 0x4bdecfa9; 0xf6bb4b60; 0xbebfbc70;
   0x289b7ec6; 0xeaa127fa; 0xd4ef3085; 0x04881d05;
   0xd9d4d039; 0xe6db99e5; 0x1fa27cf8; 0xc4ac5665;
   0xf4292244; 0x432aff97; 0xab9423a7; 0xfc93a039;
   0x655b59c3; 0x8f0ccc92; 0xffeff47d; 0x85845dd1;
   0x6fa87e4f; 0xfe2ce6e0; 0xa3014314; 0x4e0811a1;
   0xf7537e82; 0xbd3af235; 0x2ad7d2bb; 0xeb86d391]%Z.

Definition shifts : list Z :=
  [7; 12; 17; 22; 7; 12; 17; 22; 7; 12; 17; 22; 7; 12; 17; 22;
   5; 9; 14; 20; 5; 9; 14; 20; 5; 9; 14; 20; 5; 9; 14; 20;
   4; 11; 16; 23; 4; 11; 16; 23; 4; 11; 16; 23; 4; 11; 16; 23;
   6; 10; 15; 21; 6; 10; 15; 21; 6; 10; 15; 21; 6; 10; 15; 21]%Z.

Definition wrap32 (x : Z) : Z := (x mod 2 ^ 32)%Z.
Definition add32 (x y : Z) : Z := wrap32 (x + y).
Definition not32 (x : Z) : Z := Z.lxor x 0xffffffff.
Definition rotl32 (x c : Z) : Z :=
  Z.lor (wrap32 (Z.shiftl x c)) (Z.shiftr x (32 - c)).

(** The four round functions F, G, H and I. *)
Definition roundFn (i : nat) (b c d : Z) : Z :=
  if (i <? 16)%nat then Z.lor (Z.land b c) (Z.land (not32 b) d)
  else if (i <? 32)%nat then Z.lor (Z.land d b) (Z.land (not32 d) c)
  else if (i <? 48)%nat then Z.lxor b (Z.lxor c d)
  else Z.lxor c (Z.lor b (not32 d)).

(** Which message word operation [i] reads. *)
Definition wordIndex (i : nat) : nat :=
  if (i <? 16)%nat then i
  else if (i <? 32)%nat then (5 * i + 1) mod 16
  else if (i <? 48)%nat then (3 * i + 5) mod 16
  else (7 * i) mod 16.

Definition state : Type := (Z * Z * Z * Z)%type.

Definition initial : state :=
  (0x67452301, 0xefcdab89, 0x98badcfe, 0x10325476)%Z.

Definition operation (block : list Z) (st : state) (i : nat) : state :=
  let '(a, b, c, d) := st in
  let f := add32 (add32 (add32 (roundFn i b c d) a) (nth i sines 0%Z))
                 (nth (wordIndex i) block 0%Z) in
  (d, add32 b (rotl32 f (nth i shifts 0%Z)), b, c).

Definition processBlock (st : state) (block : list Z) : state :=
  let '(a0, b0, c0, d0) := st in
  let '(a, b, c, d) := fold_left (operation block) (seq 0 64) st in
  (add32 a0 a, add32 b0 b, add32 c0 c, add32 d0 d).

(** Little-endian bytes of a [width]-byte integer. *)
Fixpoint leBytes (width : nat) (x : Z) : list Z :=
  match width with
  | O => []
  | S w => (x mod 256)%Z :: leBytes w (x / 256)%Z
  end.

(** The message, a single one bit, zeros up to 56 modulo 64, and the
    length in bits as a 64-bit little-endian integer. *)
Definition padded (message : list Z) : list Z :=
  let n := List.length message in
  message ++ [0x80%Z] ++ repeat 0%Z ((119 - n mod 64) mod 64)
          ++ leBytes 8 ((8 * Z.of_nat n) mod 2 ^ 64)%Z.

(** 32-bit little-endian words of a byte sequence. *)
Fixpoint wordsOf (bytes : list Z) : list Z :=
  match bytes with
  | b0 :: b1 :: b2 :: b3 :: rest =>
      (b0 + 256 * b1 + 65536 * b2 + 16777216 * b3)%Z :: wordsOf rest
  | _ => []
  end.

(** Blocks of sixteen words. *)
Fixpoint blocksOf (count : nat) (words : list Z) : list (list Z) :=
  match count with
  | O => []
  | S k => firstn 16 words :: blocksOf k (skipn 16 words)
  end.

Definition digestWords (message : list Z) : state :=
  let words := wordsOf (padded message) in
  fold_left processBlock (blocksOf (List.length words / 16) words) initial.

Definition hexDigit (x : Z) : ascii :=
  match String.get (Z.to_nat (x mod 16)) "0123456789abcdef" with
  | Some c => c
  | None => "0"%char
  end.

Definition hexByte (x : Z) : string :=
  String (hexDigit (x / 16)) (String (hexDigit x) EmptyString).

Definition hexWord (x : Z) : string :=
  String.concat "" (map hexByte (leBytes 4 x)).

Definition bytesOfString (text : string) : list Z :=
  map (fun c => Z.of_N (N_of_ascii c)) (list_ascii_of_string text).

(** [crypto.createHash('md5').update(text).digest('hex')]. *)
Definition hexDigest (text : string) : string :=
  let '(a, b, c, d) := digestWords (bytesOfString text) in
  hexWord a +:+ hexWord b +:+ hexWord c +:+ hexWord d.

End Md5.

(** ** Paths

    [path.basename(p)] and [path.basename(p, suffix)] of Node's [path]
    module on a POSIX system: its backward scan over the characters of
    [p], loop variables under their names there, [-1] for "not seen
    yet". *)

Module Path.

Definition slash : ascii := "/"%char.

(** [s.slice(from, to)] for indices that are not negative. *)
Definition slice (s : string) (from to : Z) : string :=
  let len := Z.of_nat (String.length s) in
  let from' := Z.min from len in
  let to' := Z.min to len in
  substring (Z.to_nat from') (Z.to_nat (to' - from')) s.

Record Scan : Type := mkScan {
  start : Z;
  stop : Z;
  matchedSlash : bool;
  extIdx : Z;
  firstNonSlashEnd : Z
}.

(** The loop of the one-argument form, from index [k - 1] down to [0]. *)
Fixpoint scanPlain (p : string) (k : nat) (st : Scan) : Scan :=
  match k with
  | O => st
  | S i =>
      match String.get i p with
      | None => st
      | Some code =>
          if Ascii.eqb code slash then
            if negb (matchedSlash st)
            then mkScan (Z.of_nat i + 1) (stop st) (matchedSlash st)
                        (extIdx st) (firstNonSlashEnd st)
            else scanPlain p i st
          else if (stop st =? -1)%Z then
            scanPlain p i
              (mkScan (start st) (Z.of_nat i + 1) false
                      (extIdx st) (firstNonSlashEnd st))
          else scanPlain p i st
      end
  end.

(** The loop of the two-argument form, which also matches [suffix] from
    its last character backwards. *)
Fixpoint scanSuffix (p suffix : string) (k : nat) (st : Scan) : Scan :=
  match k with
  | O => st
  | S i =>
      match String.get i p with
      | None => st
      | Some code =>
          if Ascii.eqb code slash then
            if negb (matchedSlash st)
            then mkScan (Z.of_nat i + 1) (stop st) (matchedSlash st)
                        (extIdx st) (firstNonSlashEnd st)
            else scanSuffix p suffix i st
          else
            let st1 :=
              if (firstNonSlashEnd st =? -1)%Z
              then mkScan (start st) (stop st) false (extIdx st)
                          (Z.of_nat i + 1)
              else st in
            let st2 :=
              if (0 <=? extIdx st1)%Z then
                match String.get (Z.to_nat (extIdx st1)) suffix with
                | Some code' =>
                    if Ascii.eqb code code' then
                      if (extIdx st1 - 1 =? -1)%Z
                      then mkScan (start st1) (Z.of_nat i) (matchedSlash st1)
                                  (extIdx st1 - 1) (firstNonSlashEnd st1)
                      else mkScan (start st1) (stop st1) (matchedSlash st1)
                                  (extIdx st1 - 1) (firstNonSlashEnd st1)
                    else mkScan (start st1) (firstNonSlashEnd st1)
                                (matchedSlash st1) (-1) (firstNonSlashEnd st1)
                | None => mkScan (start st1) (firstNonSlashEnd st1)
                                 (matchedSlash st1) (-1) (firstNonSlashEnd st1)
                end
              else st1 in
            scanSuffix p suffix i st2
      end
  end.

Definition basenamePlain (p : string) : string :=
  let st := scanPlain p (String.length p) (mkScan 0 (-1) true (-1) (-1)) in
  if (stop st =? -1)%Z then EmptyString else slice p (start st) (stop st).

(** [path.basename(p, suffix)]; [suffix = None] is the one-argument call. *)
Definition basename (p : string) (suffix : option string) : string :=
  match suffix with
  | None => basenamePlain p
  | Some suffix =>
      let n := String.length suffix in
      if (0 <? n)%nat && (n <=? String.length p)%nat then
        if String.eqb suffix p then EmptyString
        else
          let st := scanSuffix p suffix (String.length p)
                      (mkScan 0 (-1) true (Z.of_nat n - 1) (-1)) in
          let stop' :=
            if (start st =? stop st)%Z then firstNonSlashEnd st
            else if (stop st =? -1)%Z then Z.of_nat (String.length p)
            else stop st in
          slice p (start st) stop'
      else basenamePlain p
  end.

End Path.

(** ** WebAssembly

    [WebAssembly.compile] belongs to the engine; what the plugin reads off
    a compiled module are the two descriptor arrays returned by
    [WebAssembly.Module.imports] and [WebAssembly.Module.exports], in the
    order of the binary's import and export sections. *)

Module WebAssembly.

Record ModuleImportDescriptor : Type := {
  module : string;
  name : string;
  kind : string
}.

Record ModuleExportDescriptor : Type := {
  exportName : string;
  exportKind : string
}.

Record CompiledModule : Type := {
  imports : list ModuleImportDescriptor;
  exports : list ModuleExportDescriptor
}.

End WebAssembly.

(** ** [Map]

    A JavaScript [Map] with string keys iterates in insertion order, and
    setting a key that is present keeps its place: an association list
    without repeated keys. *)

Module JsMap.

Definition t (V : Type) : Type := list (string * V).

Definition empty {V : Type} : t V := [].

Fixpoint has {V : Type} (m : t V) (key : string) : bool :=
  match m with
  | [] => false
  | (k, _) :: rest => String.eqb k key || has rest key
  end.

Fixpoint get {V : Type} (m : t V) (key : string) : option V :=
  match m with
  | [] => None
  | (k, v) :: rest => if String.eqb k key then Some v else get rest key
  end.

Fixpoint set {V : Type} (m : t V) (key : string) (value : V) : t V :=
  match m with
  | [] => [(key, value)]
  | (k, v) :: rest =>
      if String.eqb k key then (k, value) :: rest
      else (k, v) :: set rest key value
  end.

Definition entries {V : Type} (m : t V) : list (string * V) := m.

End JsMap.

(** ** The platform

    Everything the plugin asks of its surroundings: Node's [fs], the
    engine's [WebAssembly.compile], and the plugin context ([this]) that
    Rollup hands to the hooks. *)

Module Rollup.

(** A resolution result, the object [this.resolve] answers with.  [meta]
    is an object with string-valued properties, or absent. *)
Record ResolvedId : Type := {
  id : string;
  meta : option (gmap string string)
}.

(** What a hook did to its surroundings, in the order of the calls. *)
Inductive Event : Type :=
| StatSync (path : string)
| ReadFile (path : string) (encoding : option string)
| Compile (bytes : list Byte.byte)
| Resolve (source : string) (importer : option string) (skipSelf : option bool)
| EmitFile (fileName : string) (source : list Byte.byte)
| Error (message : string).

(** The capabilities.  [fs_statSync_size] is the size in bytes that
    [fs.statSync] reports.  A resolution result is an object with an identity:
    [this_resolve] answers with a reference into the heap of the [World]
    below ([None] is [null]), so that two calls may answer with one and
    the same object.  [parseSettlesFirst] tells which of two pending
    promises of one [Promise.all] is settled first when both reject. *)
Record Platform : Type := {
  fs_statSync_size : string -> Outcome N;
  fs_readFile : string -> Outcome (list Byte.byte);
  WebAssembly_compile : list Byte.byte -> Outcome WebAssembly.CompiledModule;
  this_resolve : string -> option string -> option bool -> Outcome (option nat);
  this_emitFile : string -> list Byte.byte -> Outcome unit;
  parseSettlesFirst : bool
}.

(** The mutable part: resolution objects by reference, and the log. *)
Record World : Type := {
  heap : gmap nat ResolvedId;
  events : list Event
}.

Definition record (e : Event) (w : World) : World :=
  {| heap := heap w; events := (events w ++ [e])%list |}.

(** The calls of [emitFile], of [error] and of [readFile] on [path] that
    the log holds, oldest first. *)
Definition emitted (w : World) : list (string * list Byte.byte) :=
  omap (fun e => match e with
                 | EmitFile fileName source => Some (fileName, source)
                 | _ => None
                 end) (events w).

Definition reported (w : World) : list string :=
  omap (fun e => match e with
                 | Error message => Some message
                 | _ => None
                 end) (events w).

Definition fileReads (path : string) (w : World) : list (option string) :=
  omap (fun e => match e with
                 | ReadFile p encoding =>
                     if String.eqb p path then Some encoding else None
                 | _ => None
                 end) (events w).

End Rollup.

(** ** Asynchronous computations

    An [async] function is a function of the world that returns an
    [Outcome] and the world it leaves; [await] is [bind], a rejected
    promise is [Thrown]. *)

Definition Async (A : Type) : Type :=
  Rollup.World -> Outcome A * Rollup.World.

Definition ret {A : Type} (a : A) : Async A := fun w => (Returned a, w).

Definition throw {A : Type} (message : string) : Async A :=
  fun w => (Thrown message, w).

Definition bind {A B : Type} (m : Async A) (k : A -> Async B) : Async B :=
  fun w =>
    match m w with
    | (Returned a, w') => k a w'
    | (Thrown message, w') => (Thrown message, w')
    end.

Notation "'let*' x ':=' m 'in' k" := (bind m (fun x => k))
  (at level 10, x pattern, m at level 100, k at level 200).

(** [try { m } catch (error) { handler(error.message) }]. *)
Definition tryCatch {A : Type} (m : Async A) (handler : string -> Async A)
  : Async A :=
  fun w =>
    match m w with
    | (Returned a, w') => (Returned a, w')
    | (Thrown message, w') => handler message w'
    end.

(** A call of a capability: it is logged and its outcome is the call's. *)
Definition perform {A : Type} (e : Rollup.Event) (o : Outcome A) : Async A :=
  fun w => (o, Rollup.record e w).

(** [Promise.all([a, b])]: both computations are started and each makes
    its calls whether or not the other rejects.  The log lists the calls
    of [a] and then those of [b]: between the two computations its order
    is not an order in time.  The result is the pair of results, or the
    rejection that comes first. *)
Definition promiseAll {A B : Type} (firstSettlesFirst : bool)
    (a : Async A) (b : Async B) : Async (A * B) :=
  fun w =>
    let '(ra, w1) := a w in
    let '(rb, w2) := b w1 in
    match ra, rb with
    | Returned x, Returned y => (Returned (x, y), w2)
    | Thrown message, Returned _ => (Thrown message, w2)
    | Returned _, Thrown message => (Thrown message, w2)
    | Thrown m1, Thrown m2 =>
        (Thrown (if firstSettlesFirst then m1 else m2), w2)
    end.

(** ** The plugin: [src/index.mjs] *)

(** One entry of [parseWasm]'s [imports]: [{ from, names }]. *)
Record ImportGroup : Type := {
  from : string;
  names : list string
}.

(** [parseWasm]'s result: [{ imports, exports }]. *)
Record WasmInfo : Type := {
  imports : list ImportGroup;
  exports : list string
}.

(** The body of the [forEach] callback in [parseWasm]:
    [if (!importMap.has(module)) importMap.set(module, []);
     importMap.get(module).push(name)].  The array stored under [module]
    is extended in place; calling [push] on [undefined] would throw. *)
Definition collectImport (importMap : JsMap.t (list string))
    (d : WebAssembly.ModuleImportDescriptor)
  : Outcome (JsMap.t (list string)) :=
  let module := WebAssembly.module d in
  let name := WebAssembly.name d in
  let importMap :=
    if negb (JsMap.has importMap module)
    then JsMap.set importMap module []
    else importMap in
  match JsMap.get importMap module with
  | Some array => Returned (JsMap.set importMap module (array ++ [name])%list)
  | None => Thrown "Cannot read properties of undefined (reading 'push')"
  end.

(** [descriptors.forEach(callback)], started from [importMap]. *)
Fixpoint forEachImport (descriptors : list WebAssembly.ModuleImportDescriptor)
    (importMap : JsMap.t (list string)) : Outcome (JsMap.t (list string)) :=
  match descriptors with
  | [] => Returned importMap
  | d :: rest =>
      match collectImport importMap d with
      | Returned importMap' => forEachImport rest importMap'
      | Thrown message => Thrown message
      end
  end.

(** [Array.from(importMap.entries()).map(([from, names]) => ({ from, names }))]. *)
Definition groupsOf (importMap : JsMap.t (list string)) : list ImportGroup :=
  map (fun '(from, names) => {| from := from; names := names |})
      (JsMap.entries importMap).

(** What [parseWasm] computes from a compiled module. *)
Definition introspect (wasmModule : WebAssembly.CompiledModule)
  : Outcome WasmInfo :=
  match forEachImport (WebAssembly.imports wasmModule) JsMap.empty with
  | Returned importMap =>
      Returned {| imports := groupsOf importMap;
                  exports := map WebAssembly.exportName
                                 (WebAssembly.exports wasmModule) |}
  | Thrown message => Thrown message
  end.

(** The fixed head of the template in [generateWasmInitCode]: the source
    of the loader [initWasm], line by line. *)
Definition initWasmSource : list string :=
  let dquote := JsString.dquote in
  ["  const initWasm = async (imports = {}, wasmUrl) => {";
   "    try {";
   "      const instance = await (async () => {";
   "        if (wasmUrl.startsWith('data:')) {";
   "          const base64Content = wasmUrl.replace(/^data:.*?base64,/, '');";
   EmptyString;
   "          // Decode base64";
   "          const bytes = (() => {";
   "            if (typeof Buffer === " +:+ dquote +:+ "function" +:+ dquote +:+ " && typeof Buffer.from === " +:+ dquote +:+ "function" +:+ dquote +:+ ") {";
   "              return Buffer.from(base64Content, " +:+ dquote +:+ "base64" +:+ dquote +:+ ");";
   "            }";
   "            if (typeof atob === " +:+ dquote +:+ "function" +:+ dquote +:+ ") {";
   "              const binaryString = atob(base64Content);";
   "              return Uint8Array.from(binaryString, char => char.charCodeAt(0));";
   "            }";
   "            throw new Error(" +:+ dquote +:+ "No available base64 decoder" +:+ dquote +:+ ");";
   "          })();";
   EmptyString;
   "          const result = await WebAssembly.instantiate(bytes, imports);";
   "          return result.instance;";
   "        }";
   EmptyString;
   "        // Load from URL";
   "        const response = await fetch(wasmUrl);";
   "        const contentType = response.headers.get(" +:+ dquote +:+ "Content-Type" +:+ dquote +:+ ") || " +:+ dquote +:+ dquote +:+ ";";
   EmptyString;
   "        if (" +:+ dquote +:+ "instantiateStreaming" +:+ dquote +:+ " in WebAssembly &&";
   "            contentType.startsWith(" +:+ dquote +:+ "application/wasm" +:+ dquote +:+ ")) {";
   "          const result = await WebAssembly.instantiateStreaming(response, imports);";
   "          return result.instance;";
   "        }";
   EmptyString;
   "        const buffer = await response.arrayBuffer();";
   "        const result = await WebAssembly.instantiate(buffer, imports);";
   "        return result.instance;";
   "      })();";
   EmptyString;
   "      return instance.exports;";
   "    } catch (error) {";
   "      throw new Error(`WASM initialization failed: ${error.message}`);";
   "    }";
   "  };";
   EmptyString].

(** [`import * as import${i} from '${imp.from}';`] *)
Definition importLine (imp : ImportGroup) (i : nat) : string :=
  "import * as import" +:+ JsString.ofIndex i +:+ " from '" +:+ from imp +:+ "';".

(** [`'${name}': import${i}.${name}`] *)
Definition importMember (i : nat) (name : string) : string :=
  "'" +:+ name +:+ "': import" +:+ JsString.ofIndex i +:+ "." +:+ name.

(** [`'${imp.from}': { ${imp.names.map(...).join(', ')} }`] *)
Definition importEntry (imp : ImportGroup) (i : nat) : string :=
  "'" +:+ from imp +:+ "': { "
      +:+ JsString.join ", " (map (importMember i) (names imp)) +:+ " }".

(** [`export const ${name} = wasmModule.${name};`] *)
Definition exportLine (name : string) : string :=
  "export const " +:+ name +:+ " = wasmModule." +:+ name +:+ ";".

(** [generateWasmInitCode(imports, exports, wasmUrl)]: the template
    literal, its three holes filled. *)
Definition generateWasmInitCode (imports : list ImportGroup)
    (exports : list string) (wasmUrl : string) : string :=
  let lf := JsString.lf in
  lf +:+ JsString.join lf initWasmSource +:+ lf
  +:+ "  // Import dependency modules" +:+ lf
  +:+ "  " +:+ JsString.join lf (JsString.mapi importLine imports) +:+ lf
  +:+ lf
  +:+ "  // Initialize WASM module, passing in external imports" +:+ lf
  +:+ "  const wasmModule = await initWasm({" +:+ lf
  +:+ "    " +:+ JsString.join ("," +:+ lf) (JsString.mapi importEntry imports) +:+ lf
  +:+ "  }, '" +:+ wasmUrl +:+ "');" +:+ lf
  +:+ lf
  +:+ "  // Export WASM functions" +:+ lf
  +:+ "  " +:+ JsString.join lf (map exportLine exports) +:+ lf.

(** The options object of [wasmPlugin]; an absent key is [JsUndefined]. *)
Record WasmPluginOptions : Type := {
  opt_maxFileSize : JsValue;
  opt_targetEnv : JsValue
}.

(** The plugin object: its [name] and the two variables its hooks close
    over. *)
Record Plugin : Type := {
  pluginName : string;
  maxFileSize : JsNumber.number;
  targetEnv : string
}.

(** [wasmPlugin(options)]. *)
Definition wasmPlugin (options : WasmPluginOptions) : Outcome Plugin :=
  let maxFileSize :=
    withDefault (JsNumber (JsNumber.ofZ 14336)) (opt_maxFileSize options) in
  let targetEnv := withDefault (JsString "node") (opt_targetEnv options) in
  if strictNeString targetEnv "node" && strictNeString targetEnv "browser"
  then Thrown "targetEnv must be node or browser"
  else if negb (String.eqb (typeof maxFileSize) "number")
          || numberLtZero maxFileSize
  then Thrown "maxFileSize must be a non-negative number"
  else
    match maxFileSize, targetEnv with
    | JsNumber size, JsString env =>
        Returned {| pluginName := "rollup-plugin-wasm";
                    maxFileSize := size;
                    targetEnv := env |}
    | _, _ => Thrown "maxFileSize must be a non-negative number"
    end.

(** [const shouldInline = (maxFileSize === 0 ? false
      : stats.size <= maxFileSize) || targetEnv === 'node'] in [load]. *)
Definition shouldInline (p : Plugin) (size : JsNumber.number) : bool :=
  (if JsNumber.strictEq (maxFileSize p) JsNumber.zero then false
   else JsNumber.le size (maxFileSize p))
  || String.eqb (targetEnv p) "node".

(** The condition under which [resolveId] derives a file name:
    [maxFileSize > 0 && stats.size > maxFileSize]. *)
Definition exceedsLimit (p : Plugin) (size : JsNumber.number) : bool :=
  JsNumber.gt (maxFileSize p) JsNumber.zero
  && JsNumber.gt size (maxFileSize p).

(** The name [resolveId] derives:
    [`${path.basename(id, '.wasm')}-${md5(id).slice(0, 8)}.wasm`]. *)
Definition hashedFileName (id : string) : string :=
  let hash := JsString.slice0 8 (Md5.hexDigest id) in
  Path.basename id (Some ".wasm") +:+ "-" +:+ hash +:+ ".wasm".

(** [resolved.meta?.wasmPath]: [None] is [undefined]. *)
Definition wasmPath (r : Rollup.ResolvedId) : option string :=
  match Rollup.meta r with
  | Some m => m !! "wasmPath"
  | None => None
  end.

(** [value || fallback] for a string or [undefined]: the empty string is
    falsy as well. *)
Definition orElse (value : option string) (fallback : string) : string :=
  match value with
  | Some s => if String.eqb s EmptyString then fallback else s
  | None => fallback
  end.

(** [resolved.meta = { ...resolved.meta, wasmPath: fileName }]. *)
Definition withWasmPath (r : Rollup.ResolvedId) (fileName : string)
  : Rollup.ResolvedId :=
  {| Rollup.id := Rollup.id r;
     Rollup.meta := Some (<["wasmPath" := fileName]>
                            (default ∅ (Rollup.meta r))) |}.

(** [`${value}`] for a string or [null]. *)
Definition templateString (value : option string) : string :=
  match value with
  | Some s => s
  | None => "null"
  end.

(** What [resolveId] returns: [null], [undefined] or an id. *)
Inductive ResolveIdResult : Type :=
| ResolveNull
| ResolveUndefined
| ResolveId (id : string).

Section Hooks.

Variable platform : Rollup.Platform.
Variable plugin : Plugin.

(** [fs.statSync(path).size]. *)
Definition statSync (path : string) : Async JsNumber.number :=
  perform (Rollup.StatSync path)
          (match Rollup.fs_statSync_size platform path with
           | Returned bytes => Returned (JsNumber.ofN bytes)
           | Thrown message => Thrown message
           end).

(** [fs.promises.readFile(path)]. *)
Definition readFile (path : string) : Async (list Byte.byte) :=
  perform (Rollup.ReadFile path None) (Rollup.fs_readFile platform path).

(** [fs.promises.readFile(path, 'base64')]. *)
Definition readFileBase64 (path : string) : Async string :=
  perform (Rollup.ReadFile path (Some "base64"))
          (match Rollup.fs_readFile platform path with
           | Returned bytes => Returned (Base64.encode bytes)
           | Thrown message => Thrown message
           end).

(** [WebAssembly.compile(bytes)]. *)
Definition compile (bytes : list Byte.byte)
  : Async WebAssembly.CompiledModule :=
  perform (Rollup.Compile bytes) (Rollup.WebAssembly_compile platform bytes).

(** [this.resolve(source, importer, { skipSelf })]: the reference the
    platform answers with, and the object it refers to. *)
Definition resolve (source : string) (importer : option string)
    (skipSelf : option bool) : Async (option (nat * Rollup.ResolvedId)) :=
  fun w =>
    let w' := Rollup.record (Rollup.Resolve source importer skipSelf) w in
    match Rollup.this_resolve platform source importer skipSelf with
    | Returned (Some ref) =>
        match Rollup.heap w !! ref with
        | Some r => (Returned (Some (ref, r)), w')
        | None => (Returned None, w')
        end
    | Returned None => (Returned None, w')
    | Thrown message => (Thrown message, w')
    end.

(** An assignment to a property of the object behind [ref]. *)
Definition assign (ref : nat) (r : Rollup.ResolvedId) : Async unit :=
  fun w =>
    (Returned tt,
     {| Rollup.heap := <[ref := r]> (Rollup.heap w);
        Rollup.events := Rollup.events w |}).

(** [this.emitFile({ type: 'asset', fileName, source })]. *)
Definition emitFile (fileName : string) (source : list Byte.byte)
  : Async unit :=
  perform (Rollup.EmitFile fileName source)
          (Rollup.this_emitFile platform fileName source).

(** [this.error(message)]: the error is reported and thrown. *)
Definition error {A : Type} (message : string) : Async A :=
  perform (Rollup.Error message) (Thrown message).

(** [createBase64UriForWasm(filePath)]. *)
Definition createBase64UriForWasm (filePath : string) : Async string :=
  tryCatch
    (let* base64 := readFileBase64 filePath in
     ret ("data:application/wasm;base64," +:+ base64))
    (fun message => throw ("Failed to read WASM file: " +:+ message)).

(** [parseWasm(wasmFilePath)]. *)
Definition parseWasm (wasmFilePath : string) : Async WasmInfo :=
  tryCatch
    (let* wasmBinary := readFile wasmFilePath in
     let* wasmModule := compile wasmBinary in
     fun w => (introspect wasmModule, w))
    (fun message => throw ("Failed to parse WASM file: " +:+ message)).

(** The [resolveId] hook. *)
Definition resolveId (source : string) (importer : option string)
  : Async ResolveIdResult :=
  if negb (JsString.endsWith source ".wasm") then ret ResolveNull
  else
    let* resolved := resolve source importer (Some true) in
    match resolved with
    | Some (ref, r) =>
        let* size := statSync (Rollup.id r) in
        let* _ :=
          if exceedsLimit plugin size
          then assign ref (withWasmPath r (hashedFileName (Rollup.id r)))
          else ret tt in
        ret (ResolveId (Rollup.id r))
    | None => ret ResolveUndefined
    end.

(** The [load] hook; [None] is [null]. *)
Definition load (id : string) : Async (option string) :=
  if negb (JsString.endsWith id ".wasm") then ret None
  else
    tryCatch
      (let* size := statSync id in
       let inline := shouldInline plugin size in
       let* settled :=
         promiseAll (Rollup.parseSettlesFirst platform)
           (parseWasm id)
           (if inline
            then let* uri := createBase64UriForWasm id in ret (Some uri)
            else ret None) in
       let info := fst settled in
       let wasmUrl := snd settled in
       if negb inline then
         let* resolved := resolve id None None in
         match resolved with
         | Some (_, r) =>
             let fileName := orElse (wasmPath r) (Path.basename id None) in
             let* source := readFile id in
             let* _ := emitFile fileName source in
             ret (Some (generateWasmInitCode (imports info) (exports info)
                                             fileName))
         | None => throw "Cannot read properties of null (reading 'meta')"
         end
       else
         ret (Some (generateWasmInitCode (imports info) (exports info)
                                         (templateString wasmUrl))))
      (fun message => error ("Failed to load WASM: " +:+ message)).

End Hooks.

(** ** Reading a shim

    The specification describes the generated source by the statements it
    holds: one namespace import per import group, an import object keyed
    by the groups' module names, and one re-export per export name.  What
    statements a text holds is decided here the way an engine decides it:
    the text behind the loader is cut into tokens and the tokens are taken
    as statements.  The reader knows the part of JavaScript that a shim is
    written in (names of ASCII letters, digits, [_] and [$]; string
    literals in single quotes without escapes; ten punctuators; line
    comments) and refuses every other text. *)

Module Reader.

Inductive Token : Type :=
| Name (text : string)
| Literal (value : string)
| Punctuator (c : ascii).

Definition tokenEqb (a b : Token) : bool :=
  match a, b with
  | Name x, Name y => String.eqb x y
  | Literal x, Literal y => String.eqb x y
  | Punctuator x, Punctuator y => Ascii.eqb x y
  | _, _ => false
  end.

(** *** Characters *)

Definition inRange (first last c : ascii) : bool :=
  (nat_of_ascii first <=? nat_of_ascii c)%nat
  && (nat_of_ascii c <=? nat_of_ascii last)%nat.

Definition isDigit (c : ascii) : bool := inRange "0" "9" c.

Definition isNameStart (c : ascii) : bool :=
  inRange "a" "z" c || inRange "A" "Z" c
  || Ascii.eqb c "_" || Ascii.eqb c "$".

Definition isNamePart (c : ascii) : bool := isNameStart c || isDigit c.

Definition isLineBreak (c : ascii) : bool :=
  Ascii.eqb c (ascii_of_nat 10) || Ascii.eqb c (ascii_of_nat 13).

Definition isSpace (c : ascii) : bool :=
  Ascii.eqb c " " || Ascii.eqb c (ascii_of_nat 9) || isLineBreak c.

Definition isPunctuator (c : ascii) : bool :=
  existsb (Ascii.eqb c) (list_ascii_of_string "*{}:,.;()=").

(** What may stand between the quotes of a string literal as it is:
    anything but the quote, the backslash and a line break. *)
Definition isLiteralChar (c : ascii) : bool :=
  negb (Ascii.eqb c "'" || Ascii.eqb c "\" || isLineBreak c).

(** In a comment every character but a line break is passed over; the
    reader refuses the ones outside ASCII, among which there are further
    line terminators. *)
Definition isCommentChar (c : ascii) : bool :=
  negb (isLineBreak c) && (nat_of_ascii c <? 128)%nat.

(** A name: a letter, [_] or [$], then letters, digits, [_] and [$]. *)
Definition isName (s : string) : bool :=
  match s with
  | EmptyString => false
  | String c rest =>
      isNameStart c && forallb isNamePart (list_ascii_of_string rest)
  end.

(** A string that a literal in single quotes holds as it is. *)
Definition isQuotable (s : string) : bool :=
  forallb isLiteralChar (list_ascii_of_string s).

(** The names that a module may not declare: the reserved words, those
    of strict mode and [await] among them, and [eval] and [arguments]. *)
Definition reservedWords : list string :=
  ["await"; "break"; "case"; "catch"; "class"; "const"; "continue";
   "debugger"; "default"; "delete"; "do"; "else"; "enum"; "export";
   "extends"; "false"; "finally"; "for"; "function"; "if"; "import"; "in";
   "instanceof"; "new"; "null"; "return"; "super"; "switch"; "this";
   "throw"; "true"; "try"; "typeof"; "var"; "void"; "while"; "with";
   "yield"; "let"; "static"; "implements"; "interface"; "package";
   "private"; "protected"; "public"; "eval"; "arguments"].

Definition isReserved (name : string) : bool :=
  existsb (String.eqb name) reservedWords.

(** A key under which an object literal defines a property: under
    ['__proto__'] it sets the prototype instead. *)
Definition isPropertyKey (key : string) : bool :=
  negb (String.eqb key "__proto__").

(** *** Tokens *)

(** Where the reader is in the text: between two tokens, inside a name,
    inside a string literal, behind one slash, or inside a comment. *)
Inductive Mode : Type :=
| Between
| InName (text : string)
| InLiteral (value : string)
| Slash
| InComment.

(** A character met between two tokens. *)
Definition start (c : ascii) : option (list Token * Mode) :=
  if isSpace c then Some ([], Between)
  else if isNameStart c then Some ([], InName (String c EmptyString))
  else if Ascii.eqb c "'" then Some ([], InLiteral EmptyString)
  else if Ascii.eqb c "/" then Some ([], Slash)
  else if isPunctuator c then Some ([Punctuator c], Between)
  else None.

(** One character: the tokens it completes and the mode it leaves. *)
Definition step (mode : Mode) (c : ascii) : option (list Token * Mode) :=
  match mode with
  | Between => start c
  | InName text =>
      if isNamePart c then Some ([], InName (text +:+ String c EmptyString))
      else
        match start c with
        | Some (ts, mode') => Some (Name text :: ts, mode')
        | None => None
        end
  | InLiteral value =>
      if Ascii.eqb c "'" then Some ([Literal value], Between)
      else if isLiteralChar c
      then Some ([], InLiteral (value +:+ String c EmptyString))
      else None
  | Slash => if Ascii.eqb c "/" then Some ([], InComment) else None
  | InComment =>
      if isLineBreak c then Some ([], Between)
      else if isCommentChar c then Some ([], InComment)
      else None
  end.

Fixpoint run (mode : Mode) (s : string) : option (list Token * Mode) :=
  match s with
  | EmptyString => Some ([], mode)
  | String c rest =>
      match step mode c with
      | Some (ts, mode') =>
          match run mode' rest with
          | Some (ts', mode'') => Some ((ts ++ ts')%list, mode'')
          | None => None
          end
      | None => None
      end
  end.

(** The end of the text. *)
Definition finish (mode : Mode) : option (list Token) :=
  match mode with
  | Between | InComment => Some []
  | InName text => Some [Name text]
  | InLiteral _ | Slash => None
  end.

Definition tokens (s : string) : option (list Token) :=
  match run Between s with
  | Some (ts, mode) =>
      match finish mode with
      | Some ts' => Some (ts ++ ts')%list
      | None => None
      end
  | None => None
  end.

(** *** Statements *)

(** [import * as <binding> from '<specifier>';] *)
Record Import : Type := {
  binding : string;
  specifier : string
}.

(** ['<key>': <value>], the value a name followed by member accesses:
    [a.b.c] is [[a; b; c]], the member [c] of the member [b] of [a]. *)
Record Property : Type := {
  key : string;
  value : list string
}.

(** ['<moduleKey>': { <properties> }] *)
Record Entry : Type := {
  moduleKey : string;
  properties : list Property
}.

(** [export const <exported> = <initializer>;], the initializer read as
    the value of a property is. *)
Record Export : Type := {
  exported : string;
  initializer : list string
}.

(** The statements behind the loader:
    the namespace imports, then
    [const wasmModule = await initWasm({ <importObject> }, '<url>');],
    then the exports. *)
Record Shim : Type := {
  namespaceImports : list Import;
  importObject : list Entry;
  url : string;
  reExports : list Export
}.

(** The tokens of [ts] behind the [expected] ones. *)
Fixpoint expect (expected ts : list Token) : option (list Token) :=
  match expected, ts with
  | [], _ => Some ts
  | e :: expected', t :: ts' =>
      if tokenEqb e t then expect expected' ts' else None
  | _ :: _, [] => None
  end.

(** [.b.c ...]: the member accesses at the head of [ts]. *)
Fixpoint memberAccesses (ts : list Token) : list string * list Token :=
  match ts with
  | Punctuator c :: Name member :: rest =>
      if Ascii.eqb c "."
      then let '(path, rest') := memberAccesses rest in
           (member :: path, rest')
      else ([], ts)
  | _ => ([], ts)
  end.

(** The import declarations at the head of [ts]. *)
Fixpoint importDeclarations (ts : list Token) : list Import * list Token :=
  match ts with
  | t1 :: t2 :: t3 :: Name b :: t5 :: Literal spec :: t7 :: rest =>
      if tokenEqb t1 (Name "import") && tokenEqb t2 (Punctuator "*")
         && tokenEqb t3 (Name "as") && negb (isReserved b)
         && tokenEqb t5 (Name "from") && tokenEqb t7 (Punctuator ";")
      then let '(found, rest') := importDeclarations rest in
           ({| binding := b; specifier := spec |} :: found, rest')
      else ([], ts)
  | _ => ([], ts)
  end.

(** The properties of an object literal, behind its opening brace and up
    to its closing one. *)
Fixpoint propertyList (fuel : nat) (ts : list Token)
  : option (list Property * list Token) :=
  match fuel with
  | O => None
  | S fuel' =>
      match ts with
      | Punctuator c :: rest =>
          if Ascii.eqb c "}" then Some ([], rest) else None
      | Literal k :: Punctuator colon :: Name object :: rest =>
          if Ascii.eqb colon ":" && isPropertyKey k then
            let '(path, rest') := memberAccesses rest in
            let property := {| key := k; value := object :: path |} in
            match rest' with
            | Punctuator c :: rest'' =>
                if Ascii.eqb c "}" then Some ([property], rest'')
                else if Ascii.eqb c "," then
                  match propertyList fuel' rest'' with
                  | Some (found, rest3) => Some (property :: found, rest3)
                  | None => None
                  end
                else None
            | _ => None
            end
          else None
      | _ => None
      end
  end.

(** The entries of the import object, behind its opening brace and up to
    its closing one. *)
Fixpoint entryList (fuel : nat) (ts : list Token)
  : option (list Entry * list Token) :=
  match fuel with
  | O => None
  | S fuel' =>
      match ts with
      | Punctuator c :: rest =>
          if Ascii.eqb c "}" then Some ([], rest) else None
      | Literal k :: Punctuator colon :: Punctuator open :: rest =>
          if Ascii.eqb colon ":" && Ascii.eqb open "{" && isPropertyKey k
          then
            match propertyList fuel rest with
            | Some (found, rest') =>
                let entry := {| moduleKey := k; properties := found |} in
                match rest' with
                | Punctuator c :: rest'' =>
                    if Ascii.eqb c "}" then Some ([entry], rest'')
                    else if Ascii.eqb c "," then
                      match entryList fuel' rest'' with
                      | Some (entries, rest3) =>
                          Some (entry :: entries, rest3)
                      | None => None
                      end
                    else None
                | _ => None
                end
            | None => None
            end
          else None
      | _ => None
      end
  end.

(** The export declarations that make up all of [ts]. *)
Fixpoint exportDeclarations (fuel : nat) (ts : list Token)
  : option (list Export) :=
  match fuel with
  | O => None
  | S fuel' =>
      match ts with
      | [] => Some []
      | t1 :: t2 :: Name x :: t4 :: Name object :: rest =>
          if tokenEqb t1 (Name "export") && tokenEqb t2 (Name "const")
             && negb (isReserved x) && tokenEqb t4 (Punctuator "=")
          then
            let '(path, rest') := memberAccesses rest in
            match rest' with
            | Punctuator c :: rest'' =>
                if Ascii.eqb c ";" then
                  match exportDeclarations fuel' rest'' with
                  | Some found =>
                      Some ({| exported := x; initializer := object :: path |}
                            :: found)
                  | None => None
                  end
                else None
            | _ => None
            end
          else None
      | _ => None
      end
  end.

(** No two of [names] are the same. *)
Fixpoint distinct (names : list string) : bool :=
  match names with
  | [] => true
  | name :: rest => negb (existsb (String.eqb name) rest) && distinct rest
  end.

(** The names that the module declares: the loader, the namespaces, the
    instance's exports and the exports. *)
Definition declared (s : Shim) : list string :=
  ("initWasm" :: map binding (namespaceImports s)
   ++ "wasmModule" :: map exported (reExports s))%list.

(** The statements that the tokens behind the loader make up; a module
    that declares a name twice is none. *)
Definition parse (ts : list Token) : option Shim :=
  let fuel := S (List.length ts) in
  let '(found, ts1) := importDeclarations ts in
  match expect [Name "const"; Name "wasmModule"; Punctuator "=";
                Name "await"; Name "initWasm"; Punctuator "(";
                Punctuator "{"] ts1 with
  | Some ts2 =>
      match entryList fuel ts2 with
      | Some (entries, Punctuator c :: Literal wasmUrl :: ts3) =>
          if Ascii.eqb c "," then
            match expect [Punctuator ")"; Punctuator ";"] ts3 with
            | Some ts4 =>
                match exportDeclarations fuel ts4 with
                | Some exports =>
                    let s := {| namespaceImports := found;
                                importObject := entries;
                                url := wasmUrl;
                                reExports := exports |} in
                    if distinct (declared s) then Some s else None
                | None => None
                end
            | None => None
            end
          else None
      | _ => None
      end
  | None => None
  end.

(** The loader, as every shim begins with it. *)
Definition loader : string :=
  JsString.lf +:+ String.concat JsString.lf initWasmSource +:+ JsString.lf.

(** [s] without the [prefix] it begins with. *)
Fixpoint behind (prefix s : string) : option string :=
  match prefix, s with
  | EmptyString, _ => Some s
  | String a prefix', String b s' =>
      if Ascii.eqb a b then behind prefix' s' else None
  | String _ _, EmptyString => None
  end.

(** The statements that a generated module holds behind its loader. *)
Definition read (source : string) : option Shim :=
  match behind loader source with
  | Some body =>
      match tokens body with
      | Some ts => parse ts
      | None => None
      end
  | None => None
  end.

End Reader.

(** ** Grouping, as the specification words it

    "First occurrence of a module name creates the group; subsequent
    imports from the same module append to it." *)

(** The distinct keys of a list, each at its first occurrence. *)
Fixpoint firstSeen (keys : list string) : list string :=
  match keys with
  | [] => []
  | k :: rest =>
      k :: List.filter (fun k' => negb (String.eqb k' k)) (firstSeen rest)
  end.

(** The names imported from [module], in declaration order, repetitions
    kept. *)
Definition namesFrom (module : string)
    (descriptors : list WebAssembly.ModuleImportDescriptor) : list string :=
  map WebAssembly.name
      (List.filter (fun d => String.eqb (WebAssembly.module d) module)
                   descriptors).

Definition groupByModule
    (descriptors : list WebAssembly.ModuleImportDescriptor)
  : list ImportGroup :=
  map (fun module => {| from := module;
                        names := namesFrom module descriptors |})
      (firstSeen (map WebAssembly.module descriptors)).

(** The table the [forEach] loop of [parseWasm] has built once it has
    seen [descriptors]: the keys in first-seen order, under each the names
    imported from it. *)
Definition tabulate (f : string -> list string) (keys : list string)
  : JsMap.t (list string) :=
  map (fun k => (k, f k)) keys.

Definition tableOf (descriptors : list WebAssembly.ModuleImportDescriptor)
  : JsMap.t (list string) :=
  tabulate (fun k => namesFrom k descriptors)
           (firstSeen (map WebAssembly.module descriptors)).

(** The statements the specification asks of a shim for [imports],
    [exports] and [wasmUrl]: the group at index [i] is bound to
    [import<i>]; every declared name is mapped to the member of that name
    of its group's binding; every export is the member of that name of
    the instance's exports. *)
Definition bindingOf (i : nat) : string := "import" +:+ JsString.ofIndex i.

Definition namespaceImportOf (g : ImportGroup) (i : nat) : Reader.Import :=
  {| Reader.binding := bindingOf i; Reader.specifier := from g |}.

Definition propertyOf (i : nat) (name : string) : Reader.Property :=
  {| Reader.key := name; Reader.value := [bindingOf i; name] |}.

Definition entryOf (g : ImportGroup) (i : nat) : Reader.Entry :=
  {| Reader.moduleKey := from g;
     Reader.properties := map (propertyOf i) (names g) |}.

Definition reExportOf (name : string) : Reader.Export :=
  {| Reader.exported := name;
     Reader.initializer := ["wasmModule"; name] |}.

Definition shimOf (imports : list ImportGroup) (exports : list string)
    (wasmUrl : string) : Reader.Shim :=
  {| Reader.namespaceImports := JsString.mapi namespaceImportOf imports;
     Reader.importObject := JsString.mapi entryOf imports;
     Reader.url := wasmUrl;
     Reader.reExports := map reExportOf exports |}.

(** The names that the generator can write as they are: module names and
    the URL go between single quotes; an imported name is written as a
    member access; neither is [__proto__], which is no key of a property;
    an export name is declared, so it is no reserved word, and no two
    declarations of the module bear the same name. *)
Definition wellFormed (imports : list ImportGroup) (exports : list string)
    (wasmUrl : string) : bool :=
  forallb (fun g => Reader.isQuotable (from g)
                    && Reader.isPropertyKey (from g)
                    && forallb (fun name => Reader.isName name
                                            && Reader.isPropertyKey name)
                               (names g)) imports
  && Reader.isQuotable wasmUrl
  && forallb (fun name => Reader.isName name
                          && negb (Reader.isReserved name)) exports
  && Reader.distinct
       ("initWasm" :: map bindingOf (seq 0 (List.length imports))
        ++ "wasmModule" :: exports)%list.

(** The tokens that a shim's statements are written with; the proofs
    about the reader go through them. *)
Module Written.
Import Reader.

Definition path (value : list string) : list Token :=
  match value with
  | [] => []
  | object :: members =>
      Name object
      :: flat_map (fun member => [Punctuator "."; Name member]) members
  end.

(** Items with a comma between each two. *)
Fixpoint separated (items : list (list Token)) : list Token :=
  match items with
  | [] => []
  | [item] => item
  | item :: rest => (item ++ Punctuator "," :: separated rest)%list
  end.

Definition property (p : Property) : list Token :=
  Literal (key p) :: Punctuator ":" :: path (value p).

Definition entry (e : Entry) : list Token :=
  (Literal (moduleKey e) :: Punctuator ":" :: Punctuator "{"
   :: separated (map property (properties e)) ++ [Punctuator "}"])%list.

Definition import (i : Import) : list Token :=
  [Name "import"; Punctuator "*"; Name "as"; Name (binding i); Name "from";
   Literal (specifier i); Punctuator ";"].

Definition export (x : Export) : list Token :=
  (Name "export" :: Name "const" :: Name (exported x) :: Punctuator "="
   :: path (initializer x) ++ [Punctuator ";"])%list.

Definition call : list Token :=
  [Name "const"; Name "wasmModule"; Punctuator "="; Name "await";
   Name "initWasm"; Punctuator "("; Punctuator "{"].

Definition shim (s : Shim) : list Token :=
  (flat_map import (namespaceImports s)
   ++ call
   ++ separated (map entry (importObject s))
   ++ [Punctuator "}"; Punctuator ","; Literal (url s); Punctuator ")";
       Punctuator ";"]
   ++ flat_map export (reExports s))%list.

End Written.

(** [lexes mode s ts mode']: read in [mode], the text [s] completes the
    tokens [ts] and leaves the reader in [mode']. *)
Definition lexes (mode : Reader.Mode) (s : string) (ts : list Reader.Token)
    (mode' : Reader.Mode) : Prop :=
  Reader.run mode s = Some (ts, mode').

(** A text without names of its own is read by running the reader. *)
Ltac lex_text := unfold lexes; simpl; reflexivity.

(** Lower-case hexadecimal digits. *)
Definition isHexDigit (c : ascii) : bool :=
  existsb (Ascii.eqb c) (list_ascii_of_string "0123456789abcdef").

Definition isHex (s : string) : bool :=
  forallb isHexDigit (list_ascii_of_string s).

(** What the configuration check is meant to enforce: [targetEnv] is one
    of the two names, [maxFileSize] is a number that is at least zero. *)
Definition validTargetEnv (v : JsValue) : Prop :=
  v = JsString "node" \/ v = JsString "browser".

Definition nonNegativeNumber (v : JsValue) : Prop :=
  exists x, v = JsNumber x /\ JsNumber.le JsNumber.zero x = true.

(** ** A sample build

    One module, [/project/pkg/sample.wasm], of 47 bytes: a type section
    with the function type [() -> ()], three function imports [m1.a],
    [m1.b] and [m2.c], and the export [add] of function 0. *)

Module Sample.

Import Byte.

Definition id : string := "/project/pkg/sample.wasm".
Definition source : string := "./pkg/sample.wasm".
Definition importer : option string := Some "/project/index.js".

Definition bytes : list byte :=
  [x00; x61; x73; x6d; x01; x00; x00; x00;
   x01; x04; x01; x60; x00; x00;
   x02; x16; x03;
     x02; x6d; x31; x01; x61; x00; x00;
     x02; x6d; x31; x01; x62; x00; x00;
     x02; x6d; x32; x01; x63; x00; x00;
   x07; x07; x01; x03; x61; x64; x64; x00; x00].

Definition descriptor (module name : string)
  : WebAssembly.ModuleImportDescriptor :=
  {| WebAssembly.module := module;
     WebAssembly.name := name;
     WebAssembly.kind := "function" |}.

Definition compiled : WebAssembly.CompiledModule :=
  {| WebAssembly.imports :=
       [descriptor "m1" "a"; descriptor "m1" "b"; descriptor "m2" "c"];
     WebAssembly.exports :=
       [{| WebAssembly.exportName := "add";
           WebAssembly.exportKind := "function" |}] |}.

Definition bytesEqb (a b : list byte) : bool :=
  (List.length a =? List.length b)%nat
  && forallb (fun xy => Byte.eqb (fst xy) (snd xy)) (combine a b).

(** A platform whose file system holds the sample and nothing else, whose
    engine compiles the sample's bytes and rejects all others, and whose
    resolver answers with the one resolution object (reference 0) for the
    sample, under its specifier and under its id. *)
Definition platform : Rollup.Platform :=
  {| Rollup.fs_statSync_size := fun path =>
       if String.eqb path id then Returned (N.of_nat (List.length bytes))
       else Thrown "ENOENT: no such file or directory";
     Rollup.fs_readFile := fun path =>
       if String.eqb path id then Returned bytes
       else Thrown "ENOENT: no such file or directory";
     Rollup.WebAssembly_compile := fun binary =>
       if bytesEqb binary bytes then Returned compiled
       else Thrown "WebAssembly.compile(): expected magic word 00 61 73 6d";
     Rollup.this_resolve := fun specifier _ _ =>
       if String.eqb specifier source || String.eqb specifier id
       then Returned (Some 0%nat) else Returned None;
     Rollup.this_emitFile := fun _ _ => Returned tt;
     Rollup.parseSettlesFirst := true |}.

(** The same file system with a file that is no WebAssembly module. *)
Definition brokenId : string := "/project/pkg/broken.wasm".

Definition brokenPlatform : Rollup.Platform :=
  {| Rollup.fs_statSync_size := fun path =>
       if String.eqb path brokenId then Returned 4%N
       else Thrown "ENOENT: no such file or directory";
     Rollup.fs_readFile := fun path =>
       if String.eqb path brokenId then Returned [x00; x61; x73; x6d]
       else Thrown "ENOENT: no such file or directory";
     Rollup.WebAssembly_compile := fun _ =>
       Thrown "WebAssembly.compile(): expected 4 bytes, fell off end";
     Rollup.this_resolve := fun _ _ _ => Returned None;
     Rollup.this_emitFile := fun _ _ => Returned tt;
     Rollup.parseSettlesFirst := true |}.

(** Before the build: the resolution object of the sample, no events. *)
Definition world : Rollup.World :=
  {| Rollup.heap := {[ 0%nat := {| Rollup.id := id; Rollup.meta := None |} ]};
     Rollup.events := [] |}.

Definition plugin (limit : Z) (env : string) : Plugin :=
  {| pluginName := "rollup-plugin-wasm";
     maxFileSize := JsNumber.ofZ limit;
     targetEnv := env |}.

(** [wasmPlugin()], [wasmPlugin({ targetEnv: 'browser' })], and plugins
    whose limit the sample exceeds or that never inline. *)
Definition nodeDefault : Plugin := plugin 14336 "node".
Definition browserDefault : Plugin := plugin 14336 "browser".
Definition nodeSmallLimit : Plugin := plugin 16 "node".
Definition browserSmallLimit : Plugin := plugin 16 "browser".
Definition browserNeverInline : Plugin := plugin 0 "browser".

End Sample.

(** ** The specification's names

    The specification calls the two values of [shouldInline] a placement
    decision, and one [resolveId] followed by the [load] of the id it
    returned a resolve+load cycle. *)

Inductive PlacementDecision : Type :=
| Inline
| External.

Definition placement (p : Plugin) (size : JsNumber.number)
  : PlacementDecision :=
  if shouldInline p size then Inline else External.

Definition resolveThenLoad (platform : Rollup.Platform) (p : Plugin)
    (source : string) (importer : option string) : Async (option string) :=
  let* resolved := resolveId platform p source importer in
  match resolved with
  | ResolveId id => load platform p id
  | ResolveNull | ResolveUndefined => ret None
  end.

(** ** Proof tactics *)

(** Opens three bytes into their bits, keeping for each the equation that
    puts it together again. *)
Ltac open_bytes a b c :=
  generalize (Byte.of_bits_to_bits a) (Byte.of_bits_to_bits b)
             (Byte.of_bits_to_bits c);
  unfold Base64.split3;
  destruct (Byte.to_bits a) as (?a0 & ?a1 & ?a2 & ?a3 & ?a4 & ?a5 & ?a6 & ?a7);
  destruct (Byte.to_bits b) as (?b0 & ?b1 & ?b2 & ?b3 & ?b4 & ?b5 & ?b6 & ?b7);
  destruct (Byte.to_bits c) as (?c0 & ?c1 & ?c2 & ?c3 & ?c4 & ?c5 & ?c6 & ?c7);
  intros Ha Hb Hc.

(** Brings a log built by [Rollup.record] into the form
    [events w ++ [e1; e2; ...]]. *)
Ltac log_normal :=
  unfold Rollup.record; simpl; rewrite <- ?app_assoc; simpl.

(** Unfolds a hook down to the calls of the platform's capabilities. *)
Ltac run_hook :=
  unfold load, resolveId, parseWasm, createBase64UriForWasm, tryCatch, bind,
    promiseAll, statSync, readFile, readFileBase64, compile, resolve, assign,
    emitFile, error, perform, ret, throw.

(** ** The loader of a generated module

    Every shim begins with the source of [initWasm] ([initWasmSource]
    above, lines 62 to 103 of [src/index.mjs]); the shim calls it with the
    import object and the URL that [load] wrote into the template.  It
    runs where the bundle runs, so what it takes from its surroundings is
    again a record of capabilities: the two base64 decoders it looks for,
    [fetch], and the two ways of instantiating a module.  The loader leaves
    the import object and the instance's exports alone: both are
    parameters. *)

Module Loader.

(** [s.startsWith(prefix)]. *)
Definition startsWith (s prefix : string) : bool := String.prefix prefix s.

(** [s] without the [prefix] it begins with. *)
Fixpoint skipPrefix (prefix s : string) : option string :=
  match prefix, s with
  | EmptyString, _ => Some s
  | String a prefix', String b s' =>
      if Ascii.eqb a b then skipPrefix prefix' s' else None
  | String _ _, EmptyString => None
  end.

(** The line terminators, which [.] of a regular expression does not
    match: LF, CR, U+2028 and U+2029 (the last two as the three bytes of
    their UTF-8 form). *)
Definition lineTerminators : list string :=
  [String (ascii_of_nat 10) EmptyString;
   String (ascii_of_nat 13) EmptyString;
   String (ascii_of_nat 226) (String (ascii_of_nat 128)
     (String (ascii_of_nat 168) EmptyString));
   String (ascii_of_nat 226) (String (ascii_of_nat 128)
     (String (ascii_of_nat 169) EmptyString))].

Definition lineTerminatorAhead (s : string) : bool :=
  existsb (startsWith s) lineTerminators.

(** [.*?base64,] matched at the head of [s]: the lazy [.*?] takes one more
    character, never a line terminator, until [base64,] follows.  The
    result is what is left of [s] behind the match. *)
Fixpoint lazyBase64Marker (s : string) : option string :=
  match skipPrefix "base64," s with
  | Some rest => Some rest
  | None =>
      match s with
      | EmptyString => None
      | String _ rest =>
          if lineTerminatorAhead s then None else lazyBase64Marker rest
      end
  end.

(** [wasmUrl.replace(/^data:.*?base64,/, '')]: a string that the
    expression does not match is returned as it is. *)
Definition base64Content (wasmUrl : string) : string :=
  match skipPrefix "data:" wasmUrl with
  | Some rest =>
      match lazyBase64Marker rest with
      | Some content => content
      | None => wasmUrl
      end
  | None => wasmUrl
  end.

(** A binary string, as [atob] returns it, has one character per byte;
    [Uint8Array.from(binaryString, char => char.charCodeAt(0))] reads the
    bytes off it. *)
Definition binaryString (bytes : list Byte.byte) : string :=
  string_of_list_ascii (map ascii_of_byte bytes).

Definition charCodes (binaryString : string) : list Byte.byte :=
  map byte_of_ascii (list_ascii_of_string binaryString).

(** What [fetch] resolves to: the [Content-Type] header ([None] is the
    [null] of [headers.get]) and the outcome of [arrayBuffer()]. *)
Record Response : Type := {
  contentType : option string;
  arrayBuffer : Outcome (list Byte.byte)
}.

Section Environment.

Variables ImportObject Exports : Type.

(** The capabilities.  [Buffer_from] is [Buffer.from(_, "base64")] where
    [typeof Buffer === "function" && typeof Buffer.from === "function"],
    [atob] is there where [typeof atob === "function"], and
    [WebAssembly_instantiateStreaming] where
    ["instantiateStreaming" in WebAssembly].  The instantiating calls
    answer with [result.instance.exports]. *)
Record Environment : Type := {
  Buffer_from : option (string -> list Byte.byte);
  atob : option (string -> Outcome string);
  fetch : string -> Outcome Response;
  WebAssembly_instantiate : list Byte.byte -> ImportObject -> Outcome Exports;
  WebAssembly_instantiateStreaming :
    option (Response -> ImportObject -> Outcome Exports)
}.

Variable env : Environment.

(** The inner function that decodes [base64Content]. *)
Definition bytes (base64Content : string) : Outcome (list Byte.byte) :=
  match Buffer_from env with
  | Some from => Returned (from base64Content)
  | None =>
      match atob env with
      | Some atob =>
          match atob base64Content with
          | Returned binaryString => Returned (charCodes binaryString)
          | Thrown message => Thrown message
          end
      | None => Thrown "No available base64 decoder"
      end
  end.

(** The inner [async] function, which answers with the instance. *)
Definition instantiate (imports : ImportObject) (wasmUrl : string)
  : Outcome Exports :=
  if startsWith wasmUrl "data:" then
    match bytes (base64Content wasmUrl) with
    | Returned bytes => WebAssembly_instantiate env bytes imports
    | Thrown message => Thrown message
    end
  else
    match fetch env wasmUrl with
    | Returned response =>
        let contentType := orElse (contentType response) EmptyString in
        match WebAssembly_instantiateStreaming env with
        | Some instantiateStreaming =>
            if startsWith contentType "application/wasm"
            then instantiateStreaming response imports
            else
              match arrayBuffer response with
              | Returned buffer => WebAssembly_instantiate env buffer imports
              | Thrown message => Thrown message
              end
        | None =>
            match arrayBuffer response with
            | Returned buffer => WebAssembly_instantiate env buffer imports
            | Thrown message => Thrown message
            end
        end
    | Thrown message => Thrown message
    end.

(** [catch (error) { throw new Error(`WASM initialization failed:
    ${error.message}`) }]. *)
Definition rethrow {A : Type} (o : Outcome A) : Outcome A :=
  match o with
  | Returned a => Returned a
  | Thrown message => Thrown ("WASM initialization failed: " +:+ message)
  end.

(** [initWasm(imports, wasmUrl)]. *)
Definition initWasm (imports : ImportObject) (wasmUrl : string)
  : Outcome Exports :=
  rethrow (instantiate imports wasmUrl).

(** The decoders an environment has decode the base64 text of [content]
    to [content], as RFC 4648 asks. *)
Definition decodes (content : list Byte.byte) : Prop :=
  (forall from, Buffer_from env = Some from ->
                from (Base64.encode content) = content)
  /\ (forall atob', atob env = Some atob' ->
                    atob' (Base64.encode content)
                    = Returned (binaryString content)).

End Environment.

Arguments Buffer_from {ImportObject Exports} _.
Arguments atob {ImportObject Exports} _.
Arguments fetch {ImportObject Exports} _ _.
Arguments WebAssembly_instantiate {ImportObject Exports} _ _ _.
Arguments WebAssembly_instantiateStreaming {ImportObject Exports} _.
Arguments bytes {ImportObject Exports} env base64Content.
Arguments instantiate {ImportObject Exports} env imports wasmUrl.
Arguments rethrow {A} o.
Arguments initWasm {ImportObject Exports} env imports wasmUrl.
Arguments decodes {ImportObject Exports} env content.

End Loader.

(** ** Words for the statements of Part II *)

(** [resolved.meta?.[key]]. *)
Definition metaProperty (r : Rollup.ResolvedId) (key : string)
  : option string :=
  match Rollup.meta r with
  | Some m => m !! key
  | None => None
  end.

(** The imports of a binary and of [parseWasm]'s groups as pairs of a
    module name and an imported name. *)
Definition importPairs (descriptors : list WebAssembly.ModuleImportDescriptor)
  : list (string * string) :=
  map (fun d => (WebAssembly.module d, WebAssembly.name d)) descriptors.

Definition groupPairs (groups : list ImportGroup) : list (string * string) :=
  concat (map (fun g => map (fun name => (from g, name)) (names g)) groups).

(** The characters of a data URI that [createBase64UriForWasm] builds:
    those of the base64 alphabet, its padding, and the punctuation of the
    prefix. *)
Definition isDataUriChar (c : ascii) : bool :=
  existsb (Ascii.eqb c)
          (list_ascii_of_string (Base64.alphabet +:+ "=:;,")).

(** ** A sample environment

    Node: [Buffer] decodes, there is no [atob], and the engine
    instantiates the sample and nothing else.  The exports are kept as
    their names. *)

Module SampleLoader.

Definition node : Loader.Environment unit (list string) :=
  {| Loader.Buffer_from := Some (fun text => default [] (Base64.decode text));
     Loader.atob := None;
     Loader.fetch := fun _ => Thrown "fetch failed";
     Loader.WebAssembly_instantiate := fun binary _ =>
       if Sample.bytesEqb binary Sample.bytes then Returned ["add"]
       else Thrown "WebAssembly.instantiate(): expected magic word 00 61 73 6d";
     Loader.WebAssembly_instantiateStreaming := None |}.

(** An environment with neither decoder. *)
Definition bare : Loader.Environment unit (list string) :=
  {| Loader.Buffer_from := None;
     Loader.atob := None;
     Loader.fetch := fun _ => Thrown "fetch failed";
     Loader.WebAssembly_instantiate := fun _ _ =>
       Thrown "WebAssembly.instantiate(): not reached";
     Loader.WebAssembly_instantiateStreaming := None |}.

(** Node again, with a [fetch] that answers and an engine that streams. *)
Definition nodeWithFetch : Loader.Environment unit (list string) :=
  {| Loader.Buffer_from := Loader.Buffer_from node;
     Loader.atob := Loader.atob node;
     Loader.fetch := fun _ =>
       Returned {| Loader.contentType := Some "application/wasm";
                   Loader.arrayBuffer := Returned [] |};
     Loader.WebAssembly_instantiate := Loader.WebAssembly_instantiate node;
     Loader.WebAssembly_instantiateStreaming :=
       Some (fun _ _ => Thrown "WebAssembly.instantiateStreaming(): rejected") |}.

End SampleLoader.

(** A file system whose sample is listed but cannot be read. *)
Definition unreadablePlatform : Rollup.Platform :=
  {| Rollup.fs_statSync_size := Rollup.fs_statSync_size Sample.platform;
     Rollup.fs_readFile := fun _ => Thrown "EACCES: permission denied";
     Rollup.WebAssembly_compile := Rollup.WebAssembly_compile Sample.platform;
     Rollup.this_resolve := Rollup.this_resolve Sample.platform;
     Rollup.this_emitFile := Rollup.this_emitFile Sample.platform;
     Rollup.parseSettlesFirst := true |}.

(** A world in which the sample's resolution object names a file that is
    not there. *)
Definition staleWorld : Rollup.World :=
  {| Rollup.heap :=
       {[ 0%nat := {| Rollup.id := "/project/pkg/gone.wasm";
                      Rollup.meta := None |} ]};
     Rollup.events := [] |}.

(** A bundler that answers every call of [this.resolve] with an object of
    its own: [resolveId] is handed object 0 for the sample's specifier,
    [load] object 1 for the sample's id. *)
Definition separateObjectsPlatform : Rollup.Platform :=
  {| Rollup.fs_statSync_size := Rollup.fs_statSync_size Sample.platform;
     Rollup.fs_readFile := Rollup.fs_readFile Sample.platform;
     Rollup.WebAssembly_compile := Rollup.WebAssembly_compile Sample.platform;
     Rollup.this_resolve := fun specifier _ _ =>
       if String.eqb specifier Sample.source then Returned (Some 0%nat)
       else if String.eqb specifier Sample.id then Returned (Some 1%nat)
       else Returned None;
     Rollup.this_emitFile := Rollup.this_emitFile Sample.platform;
     Rollup.parseSettlesFirst := true |}.

Definition separateObjectsWorld : Rollup.World :=
  {| Rollup.heap :=
       <[ 1%nat := {| Rollup.id := Sample.id; Rollup.meta := None |} ]>
         {[ 0%nat := {| Rollup.id := Sample.id; Rollup.meta := None |} ]};
     Rollup.events := [] |}.

(** ** A file system that changes under the build

    [Rollup.fs_readFile] answers every read of one path alike.  The reads
    of one [load] are separate calls of [fs.promises.readFile] (lines 10,
    23 and 180 of [src/index.mjs]), and the file may change or vanish
    between them.  Here the file system answers the reads of a build one
    by one: [reads n path] is the answer to a read of [path] that [n]
    reads have gone before.  The functions below are those of
    [src/index.mjs] once more, over such a file system; over one that
    never changes they are the functions above. *)

Module Unstable.

(** The number of reads that a log holds. *)
Definition readsSoFar (w : Rollup.World) : nat :=
  List.length
    (List.filter (fun e => match e with
                           | Rollup.ReadFile _ _ => true
                           | _ => false
                           end)
                 (Rollup.events w)).

Section Hooks.

Variable platform : Rollup.Platform.
Variable reads : nat -> string -> Outcome (list Byte.byte).
Variable plugin : Plugin.

(** [fs.promises.readFile(path)]. *)
Definition readFile (path : string) : Async (list Byte.byte) :=
  fun w => perform (Rollup.ReadFile path None) (reads (readsSoFar w) path) w.

(** [fs.promises.readFile(path, 'base64')]. *)
Definition readFileBase64 (path : string) : Async string :=
  fun w =>
    perform (Rollup.ReadFile path (Some "base64"))
            (match reads (readsSoFar w) path with
             | Returned bytes => Returned (Base64.encode bytes)
             | Thrown message => Thrown message
             end) w.

(** [createBase64UriForWasm(filePath)]. *)
Definition createBase64UriForWasm (filePath : string) : Async string :=
  tryCatch
    (let* base64 := readFileBase64 filePath in
     ret ("data:application/wasm;base64," +:+ base64))
    (fun message => throw ("Failed to read WASM file: " +:+ message)).

(** [parseWasm(wasmFilePath)]. *)
Definition parseWasm (wasmFilePath : string) : Async WasmInfo :=
  tryCatch
    (let* wasmBinary := readFile wasmFilePath in
     let* wasmModule := compile platform wasmBinary in
     fun w => (introspect wasmModule, w))
    (fun message => throw ("Failed to parse WASM file: " +:+ message)).

(** The [load] hook.  Of the two reads of an inlined file the one of
    [parseWasm] is called first, the one of [createBase64UriForWasm]
    second. *)
Definition load (id : string) : Async (option string) :=
  if negb (JsString.endsWith id ".wasm") then ret None
  else
    tryCatch
      (let* size := statSync platform id in
       let inline := shouldInline plugin size in
       let* settled :=
         promiseAll (Rollup.parseSettlesFirst platform)
           (parseWasm id)
           (if inline
            then let* uri := createBase64UriForWasm id in ret (Some uri)
            else ret None) in
       let info := fst settled in
       let wasmUrl := snd settled in
       if negb inline then
         let* resolved := resolve platform id None None in
         match resolved with
         | Some (_, r) =>
             let fileName := orElse (wasmPath r) (Path.basename id None) in
             let* source := readFile id in
             let* _ := emitFile platform fileName source in
             ret (Some (generateWasmInitCode (imports info) (exports info)
                                             fileName))
         | None => throw "Cannot read properties of null (reading 'meta')"
         end
       else
         ret (Some (generateWasmInitCode (imports info) (exports info)
                                         (templateString wasmUrl))))
      (fun message => error ("Failed to load WASM: " +:+ message)).

End Hooks.

(** A file that is there for the first read of a build and gone for
    every later one. *)
Definition vanishing (n : nat) (path : string)
  : Outcome (list Byte.byte) :=
  match n with
  | O => Rollup.fs_readFile Sample.platform path
  | S _ => Thrown "ENOENT: no such file or directory"
  end.

End Unstable.

(** Unfolds a hook over a changing file system down to the calls. *)
Ltac run_unstable :=
  unfold Unstable.load, Unstable.parseWasm, Unstable.createBase64UriForWasm,
    Unstable.readFile, Unstable.readFileBase64, tryCatch, bind, promiseAll,
    statSync, compile, resolve, emitFile, error, perform, ret, throw.

(* ===================================================================== *)
(** * Part II. Theorems                                                   *)
(* ===================================================================== *)

(** ** Numbers: the comparisons of [spec_float] *)

Module JsNumberFacts.
Import JsNumber.

Lemma compare_cont_swap (p q : positive) :
  Pos.compare_cont Eq q p = CompOpp (Pos.compare_cont Eq p q).
Proof. rewrite Pos.compare_cont_antisym. reflexivity. Qed.

(** Swapping the arguments of a comparison flips its result. *)
Lemma compare_antisym (x y : number) :
  SFcompare y x = option_map CompOpp (SFcompare x y).
Proof.
  destruct x as [sx | sx | | sx mx ex], y as [sy | sy | | sy my ey];
    simpl; try reflexivity;
    try (destruct sx; reflexivity); try (destruct sy; reflexivity);
    try (destruct sx, sy; reflexivity).
  f_equal.
  destruct sx, sy; simpl; try reflexivity;
    rewrite (Z.compare_antisym ex ey);
    destruct (ex ?= ey)%Z; simpl; try reflexivity;
    rewrite (compare_cont_swap mx my);
    try rewrite CompOpp_involutive; reflexivity.
Qed.

Lemma gt_zero_strictEq (x : number) :
  gt x zero = true -> strictEq x zero = false.
Proof.
  unfold gt, strictEq, SFltb, SFeqb.
  rewrite (compare_antisym x zero).
  destruct (SFcompare x zero) as [[]|]; simpl; intros; congruence.
Qed.

Lemma gt_zero_not_NaN (x : number) : gt x zero = true -> x <> NaN.
Proof. intros H ->. discriminate H. Qed.

(** Away from [NaN] the order is total: not [x <= y] means [x > y]. *)
Lemma le_false_gt (x y : number) :
  x <> NaN -> y <> NaN -> le x y = false -> gt x y = true.
Proof.
  unfold le, gt, SFleb, SFltb, NaN. intros Hx Hy.
  rewrite (compare_antisym x y).
  destruct (SFcompare x y) as [[]|] eqn:E; simpl; try congruence.
  destruct x, y; simpl in E; congruence.
Qed.

Lemma negZero_strictEq_zero : strictEq negZero zero = true.
Proof. reflexivity. Qed.

Lemma le_zero_negb_lt (x : number) :
  x <> NaN -> le zero x = negb (lt x zero).
Proof.
  unfold le, lt, SFleb, SFltb, NaN. intros Hx.
  rewrite (compare_antisym x zero).
  destruct (SFcompare x zero) as [[]|] eqn:E; simpl; try reflexivity.
  destruct x; simpl in E; congruence.
Qed.

(** Rounding an integer never produces [NaN]: the mantissa stays
    non-negative through the shifts of [binary_round_aux]. *)
Lemma shr_1_nonneg (mrs : shr_record) :
  (0 <= shr_m mrs)%Z -> (0 <= shr_m (shr_1 mrs))%Z.
Proof.
  destruct mrs as [m r s]; simpl.
  destruct m as [|[p|p|]|[p|p|]]; simpl; lia.
Qed.

Lemma iter_shr_1_nonneg (n : positive) (mrs : shr_record) :
  (0 <= shr_m mrs)%Z -> (0 <= shr_m (@SpecFloat.iter_pos shr_record shr_1 n mrs))%Z.
Proof.
  revert mrs.
  induction n as [n IH | n IH |]; intros mrs H; simpl;
    auto using shr_1_nonneg.
Qed.

Lemma shr_fexp_nonneg (prec emax m e : Z) (l : location) :
  (0 <= m)%Z -> (0 <= shr_m (fst (shr_fexp prec emax m e l)))%Z.
Proof.
  intros H. unfold shr_fexp, shr.
  assert (H0 : (0 <= shr_m (shr_record_of_loc m l))%Z)
    by (destruct l as [|[]]; exact H).
  destruct (fexp prec emax (Zdigits2 m + e) - e)%Z; simpl;
    auto using iter_shr_1_nonneg.
Qed.

Lemma round_nearest_even_nonneg (m : Z) (l : location) :
  (0 <= m)%Z -> (0 <= round_nearest_even m l)%Z.
Proof.
  intros H. destruct l as [|[]]; simpl; try lia.
  destruct (Z.even m); lia.
Qed.

Lemma binary_round_aux_not_NaN (prec emax : Z) (sx : bool) (mx ex : Z)
    (lx : location) :
  (0 <= mx)%Z -> binary_round_aux prec emax sx mx ex lx <> S754_nan.
Proof.
  intros H. unfold binary_round_aux.
  pose proof (shr_fexp_nonneg prec emax mx ex lx H) as H1.
  destruct (shr_fexp prec emax mx ex lx) as [mrs' e']; simpl in H1.
  pose proof (shr_fexp_nonneg prec emax _ e' loc_Exact
                (round_nearest_even_nonneg _ (loc_of_shr_record mrs') H1)) as H2.
  destruct (shr_fexp prec emax _ e' loc_Exact) as [mrs'' e'']; simpl in H2.
  destruct (shr_m mrs'') as [|m|m]; try discriminate; try lia.
  destruct (e'' <=? emax - prec)%Z; discriminate.
Qed.

Lemma ofZ_not_NaN (z : Z) : ofZ z <> NaN.
Proof.
  unfold ofZ, binary_normalize, binary_round.
  destruct z as [|m|m]; try discriminate;
    destruct (shl_align _ _ _) as [mz ez];
    apply binary_round_aux_not_NaN; lia.
Qed.

Lemma ofN_not_NaN (n : N) : ofN n <> NaN.
Proof. apply ofZ_not_NaN. Qed.

End JsNumberFacts.

(** ** The log *)

Section LogFacts.
Import Rollup.

Lemma emitted_record (e : Event) (w : World) :
  emitted (record e w)
  = (emitted w ++ match e with
                  | EmitFile fileName source => [(fileName, source)]
                  | _ => []
                  end)%list.
Proof.
  unfold emitted, record; simpl. rewrite omap_app. destruct e; reflexivity.
Qed.

Lemma reported_record (e : Event) (w : World) :
  reported (record e w)
  = (reported w ++ match e with
                   | Error message => [message]
                   | _ => []
                   end)%list.
Proof.
  unfold reported, record; simpl. rewrite omap_app. destruct e; reflexivity.
Qed.

Lemma fileReads_record (path : string) (e : Event) (w : World) :
  fileReads path (record e w)
  = (fileReads path w ++ match e with
                         | ReadFile p encoding =>
                             if String.eqb p path then [encoding] else []
                         | _ => []
                         end)%list.
Proof.
  unfold fileReads, record; simpl. rewrite omap_app.
  destruct e; try reflexivity. simpl. destruct (String.eqb path0 path); reflexivity.
Qed.

End LogFacts.

(** ** Base64: decoding undoes encoding *)

Module Base64Facts.
Import Base64.

Lemma decodeSextet_encodeSextet (s : sextet) :
  decodeSextet (encodeSextet s) = Some s.
Proof.
  destruct s as [[[[[b5 b4] b3] b2] b1] b0].
  destruct b5, b4, b3, b2, b1, b0; vm_compute; reflexivity.
Qed.

Lemma decodeSextet_pad : decodeSextet pad = None.
Proof. vm_compute. reflexivity. Qed.

Lemma join4_split3 (a b c : Byte.byte) :
  let '(s0, s1, s2, s3) := split3 a b c in join4 s0 s1 s2 s3 = (a, b, c).
Proof. open_bytes a b c. subst a b c. reflexivity. Qed.

Lemma join4_first (a b c : Byte.byte) (t2 t3 : sextet) :
  let '(s0, s1, _, _) := split3 a b c in
  fst (fst (join4 s0 s1 t2 t3)) = a.
Proof.
  open_bytes a b c.
  destruct t2 as [[[[[? ?] ?] ?] ?] ?], t3 as [[[[[? ?] ?] ?] ?] ?].
  subst a b c. reflexivity.
Qed.

Lemma join4_first_two (a b c : Byte.byte) (t3 : sextet) :
  let '(s0, s1, s2, _) := split3 a b c in
  fst (join4 s0 s1 s2 t3) = (a, b).
Proof.
  open_bytes a b c. destruct t3 as [[[[[? ?] ?] ?] ?] ?].
  subst a b c. reflexivity.
Qed.

(** The round trip, three bytes at a time. *)
Lemma decode_encode (bytes : list Byte.byte) :
  decode (encode bytes) = Some bytes.
Proof.
  enough (H : forall n bs, (List.length bs < n)%nat ->
                           decode (encode bs) = Some bs)
    by (apply (H (S (List.length bytes))); lia).
  induction n as [|n IH]; intros bs Hn; [lia|].
  destruct bs as [|a [|b [|c rest]]].
  - reflexivity.
  - pose proof (join4_first a Byte.x00 Byte.x00 zeroSextet zeroSextet) as J.
    cbn [encode]. destruct (split3 a Byte.x00 Byte.x00) as [[[s0 s1] s2] s3].
    cbn [decode]. rewrite !decodeSextet_encodeSextet, decodeSextet_pad.
    rewrite Ascii.eqb_refl. cbn.
    destruct (join4 s0 s1 zeroSextet zeroSextet) as [[x y] z].
    simpl in J. congruence.
  - pose proof (join4_first_two a b Byte.x00 zeroSextet) as J.
    cbn [encode]. destruct (split3 a b Byte.x00) as [[[s0 s1] s2] s3].
    cbn [decode]. rewrite !decodeSextet_encodeSextet, decodeSextet_pad.
    rewrite Ascii.eqb_refl. cbn.
    destruct (join4 s0 s1 s2 zeroSextet) as [[x y] z].
    simpl in J. congruence.
  - pose proof (join4_split3 a b c) as J.
    cbn [encode]. destruct (split3 a b c) as [[[s0 s1] s2] s3].
    cbn [decode]. rewrite !decodeSextet_encodeSextet, J.
    rewrite IH by (simpl in Hn; lia). reflexivity.
Qed.

End Base64Facts.

(** ** MD5: the shape of a digest *)

Module Md5Facts.
Import Md5.

Lemma hexDigit_isHexDigit (x : Z) : isHexDigit (hexDigit x) = true.
Proof.
  unfold hexDigit.
  assert (H : (Z.to_nat (x mod 16) < 16)%nat)
    by (pose proof (Z.mod_pos_bound x 16); lia).
  revert H. generalize (Z.to_nat (x mod 16)). intros n H.
  do 16 (destruct n as [|n]; [reflexivity|]). lia.
Qed.

Lemma hexWord_shape (x : Z) :
  String.length (hexWord x) = 8%nat /\ isHex (hexWord x) = true.
Proof.
  unfold hexWord, hexByte, isHex.
  cbv -[hexDigit isHexDigit Z.div Z.modulo].
  rewrite !hexDigit_isHexDigit. split; reflexivity.
Qed.

Lemma substring_append_exact (s t : string) :
  substring 0 (String.length s) (s +:+ t) = s.
Proof.
  induction s as [|c s IH]; simpl.
  - destruct t; reflexivity.
  - rewrite IH. reflexivity.
Qed.

(** The first eight characters of a digest are the first word, printed
    as eight hexadecimal digits. *)
Lemma hexDigest_prefix (text : string) :
  String.length (JsString.slice0 8 (hexDigest text)) = 8%nat
  /\ isHex (JsString.slice0 8 (hexDigest text)) = true.
Proof.
  unfold hexDigest, JsString.slice0.
  destruct (digestWords (bytesOfString text)) as [[[a b] c] d].
  destruct (hexWord_shape a) as [Hlen Hhex].
  rewrite <- Hlen at 1 3. rewrite substring_append_exact. auto.
Qed.

End Md5Facts.

Lemma append_nonempty_r (s t : string) :
  t <> EmptyString -> s +:+ t <> EmptyString.
Proof. destruct s; simpl; [tauto|discriminate]. Qed.

(** The name [resolveId] derives is never the empty string, so
    [wasmPath || basename] keeps it. *)
Lemma hashedFileName_truthy (id : string) (fallback : string) :
  orElse (Some (hashedFileName id)) fallback = hashedFileName id.
Proof.
  unfold orElse.
  destruct (String.eqb_spec (hashedFileName id) EmptyString) as [E|]; [|reflexivity].
  exfalso. revert E. unfold hashedFileName. apply append_nonempty_r. discriminate.
Qed.

(** ** Grouping imports by module *)

Section Grouping.

Lemma filter_ne_snoc (a k : string) (l : list string) :
  List.filter (fun k' => negb (String.eqb k' a)) (l ++ [k])
  = (List.filter (fun k' => negb (String.eqb k' a)) l
     ++ if String.eqb k a then [] else [k])%list.
Proof.
  rewrite List.filter_app. simpl. destruct (String.eqb k a); reflexivity.
Qed.

Lemma In_firstSeen (k : string) (l : list string) :
  In k (firstSeen l) <-> In k l.
Proof.
  induction l as [|a l IH]; simpl; [tauto|].
  rewrite List.filter_In, IH, negb_true_iff, String.eqb_neq.
  destruct (String.eqb_spec a k) as [->|Hne]; [tauto|].
  split; [tauto|]. intros [?|?]; [tauto|]. right. split; [assumption|congruence].
Qed.

Lemma NoDup_firstSeen (l : list string) : List.NoDup (firstSeen l).
Proof.
  induction l as [|a l IH]; simpl; constructor.
  - rewrite List.filter_In, negb_true_iff, String.eqb_neq. tauto.
  - apply List.NoDup_filter, IH.
Qed.

Lemma firstSeen_snoc (l : list string) (k : string) :
  firstSeen (l ++ [k])
  = if existsb (String.eqb k) l then firstSeen l
    else (firstSeen l ++ [k])%list.
Proof.
  induction l as [|a l IH]; simpl; [reflexivity|].
  rewrite IH. destruct (String.eqb_spec k a) as [->|Hne]; simpl.
  - destruct (existsb (String.eqb a) l); [reflexivity|].
    rewrite filter_ne_snoc, String.eqb_refl, app_nil_r. reflexivity.
  - destruct (existsb (String.eqb k) l); [reflexivity|].
    rewrite filter_ne_snoc.
    destruct (String.eqb_spec k a); [contradiction|reflexivity].
Qed.

Lemma existsb_eqb_In (k : string) (l : list string) :
  existsb (String.eqb k) l = true <-> In k l.
Proof.
  rewrite existsb_exists. split.
  - intros (x & Hx & E). apply String.eqb_eq in E. congruence.
  - intros H. exists k. split; [assumption|apply String.eqb_refl].
Qed.

Lemma namesFrom_snoc (k : string)
    (ds : list WebAssembly.ModuleImportDescriptor)
    (d : WebAssembly.ModuleImportDescriptor) :
  namesFrom k (ds ++ [d])
  = (namesFrom k ds
     ++ if String.eqb (WebAssembly.module d) k then [WebAssembly.name d]
        else [])%list.
Proof.
  unfold namesFrom. rewrite List.filter_app, List.map_app. simpl.
  destruct (String.eqb (WebAssembly.module d) k); reflexivity.
Qed.

Lemma namesFrom_absent (k : string)
    (ds : list WebAssembly.ModuleImportDescriptor) :
  ~ In k (map WebAssembly.module ds) -> namesFrom k ds = [].
Proof.
  unfold namesFrom. induction ds as [|d ds IH]; simpl; [reflexivity|].
  intros H. destruct (String.eqb_spec (WebAssembly.module d) k); [tauto|].
  apply IH. tauto.
Qed.

Lemma has_tabulate f keys k :
  JsMap.has (tabulate f keys) k = existsb (String.eqb k) keys.
Proof.
  induction keys as [|a keys IH]; simpl; [reflexivity|].
  rewrite IH, (String.eqb_sym a k). reflexivity.
Qed.

Lemma get_tabulate f keys k :
  In k keys -> JsMap.get (tabulate f keys) k = Some (f k).
Proof.
  induction keys as [|a keys IH]; simpl; [tauto|].
  destruct (String.eqb_spec a k) as [->|Hne]; [reflexivity|].
  intros [?|?]; [contradiction|auto].
Qed.

Lemma set_tabulate_present f keys k v :
  In k keys -> List.NoDup keys ->
  JsMap.set (tabulate f keys) k v
  = tabulate (fun k' => if String.eqb k' k then v else f k') keys.
Proof.
  induction keys as [|a keys IH]; simpl; [tauto|].
  intros Hin Hnd. inversion Hnd as [|? ? Ha Hnd']; subst.
  destruct (String.eqb_spec a k) as [->|Hne].
  - f_equal. unfold tabulate. apply map_ext_in. intros k' Hk'.
    destruct (String.eqb_spec k' k) as [->|]; [contradiction|reflexivity].
  - f_equal. apply IH; [|assumption]. destruct Hin; [contradiction|assumption].
Qed.

Lemma set_tabulate_absent f keys k v :
  ~ In k keys ->
  JsMap.set (tabulate f keys) k v = (tabulate f keys ++ [(k, v)])%list.
Proof.
  induction keys as [|a keys IH]; simpl; [reflexivity|].
  intros H. destruct (String.eqb_spec a k) as [->|Hne]; [tauto|].
  f_equal. apply IH. tauto.
Qed.

Lemma tabulate_snoc f keys k :
  tabulate f (keys ++ [k]) = (tabulate f keys ++ [(k, f k)])%list.
Proof. unfold tabulate. rewrite List.map_app. reflexivity. Qed.

Lemma tabulate_ext f g keys :
  (forall k, In k keys -> f k = g k) -> tabulate f keys = tabulate g keys.
Proof.
  intros H. unfold tabulate. apply map_ext_in. intros k Hk. rewrite H; auto.
Qed.

(** One step of the loop takes the table of [ds] to the table of
    [ds ++ [d]]; in particular [push] never meets [undefined]. *)
Lemma collectImport_tableOf (ds : list WebAssembly.ModuleImportDescriptor)
    (d : WebAssembly.ModuleImportDescriptor) :
  collectImport (tableOf ds) d = Returned (tableOf (ds ++ [d])).
Proof.
  unfold collectImport, tableOf.
  set (k := WebAssembly.module d).
  set (keys := firstSeen (map WebAssembly.module ds)).
  rewrite List.map_app; simpl. fold k. rewrite firstSeen_snoc. fold keys.
  rewrite has_tabulate.
  assert (Hkeys : forall x, In x keys <-> In x (map WebAssembly.module ds))
    by (intros x; apply In_firstSeen).
  assert (Hex : existsb (String.eqb k) keys
                = existsb (String.eqb k) (map WebAssembly.module ds)).
  { apply eq_true_iff_eq. rewrite !existsb_eqb_In. apply Hkeys. }
  rewrite <- Hex.
  destruct (existsb (String.eqb k) keys) eqn:E; simpl.
  - apply existsb_eqb_In in E.
    rewrite (get_tabulate _ _ _ E).
    rewrite (set_tabulate_present _ _ _ _ E (NoDup_firstSeen _)).
    f_equal. apply tabulate_ext. intros k' _.
    rewrite namesFrom_snoc. fold k. rewrite (String.eqb_sym k' k).
    destruct (String.eqb_spec k k') as [->|]; [reflexivity|].
    rewrite app_nil_r. reflexivity.
  - assert (Hnot : ~ In k keys).
    { intros Hin. apply existsb_eqb_In in Hin. congruence. }
    rewrite (set_tabulate_absent _ _ _ _ Hnot).
    assert (Hget : JsMap.get (tabulate (fun k0 => namesFrom k0 ds) keys
                               ++ [(k, [])])%list k = Some []).
    { clear -Hnot. induction keys as [|a keys IH]; simpl.
      - rewrite String.eqb_refl. reflexivity.
      - destruct (String.eqb_spec a k) as [->|]; [simpl in Hnot; tauto|].
        apply IH. simpl in Hnot. tauto. }
    rewrite Hget. f_equal.
    rewrite tabulate_snoc, namesFrom_snoc. fold k.
    rewrite String.eqb_refl.
    rewrite (namesFrom_absent k ds) by (rewrite <- Hkeys; exact Hnot).
    simpl.
    assert (Hset : forall (m : JsMap.t (list string)) v,
               ~ In k (map fst m) ->
               JsMap.set (m ++ [(k, [])])%list k v = (m ++ [(k, v)])%list).
    { clear. induction m as [|[a x] m IH]; simpl; intros v H.
      - rewrite String.eqb_refl. reflexivity.
      - destruct (String.eqb_spec a k) as [->|]; [tauto|].
        f_equal. apply IH. tauto. }
    rewrite Hset.
    + f_equal. apply tabulate_ext. intros k' Hk'.
      rewrite namesFrom_snoc. fold k.
      destruct (String.eqb_spec k k') as [->|]; [contradiction|].
      rewrite app_nil_r. reflexivity.
    + unfold tabulate. rewrite List.map_map. simpl. rewrite List.map_id.
      exact Hnot.
Qed.

Lemma forEachImport_snoc (ds : list WebAssembly.ModuleImportDescriptor)
    (d : WebAssembly.ModuleImportDescriptor)
    (m : JsMap.t (list string)) :
  forEachImport (ds ++ [d]) m
  = match forEachImport ds m with
    | Returned m' => collectImport m' d
    | Thrown message => Thrown message
    end.
Proof.
  revert m. induction ds as [|d0 ds IH]; intros m; simpl.
  - destruct (collectImport m d); reflexivity.
  - destruct (collectImport m d0); [apply IH|reflexivity].
Qed.

Lemma forEachImport_tableOf
    (ds : list WebAssembly.ModuleImportDescriptor) :
  forEachImport ds JsMap.empty = Returned (tableOf ds).
Proof.
  induction ds as [|d ds IH] using rev_ind; [reflexivity|].
  rewrite forEachImport_snoc, IH. apply collectImport_tableOf.
Qed.

Lemma groupsOf_tableOf (ds : list WebAssembly.ModuleImportDescriptor) :
  groupsOf (tableOf ds) = groupByModule ds.
Proof.
  unfold groupsOf, tableOf, tabulate, groupByModule, JsMap.entries.
  rewrite List.map_map. reflexivity.
Qed.

(** [parseWasm]'s loop over a [Map] computes the grouping of the
    specification, and never throws. *)
Lemma introspect_groups (m : WebAssembly.CompiledModule) :
  introspect m
  = Returned {| imports := groupByModule (WebAssembly.imports m);
                exports := map WebAssembly.exportName (WebAssembly.exports m) |}.
Proof.
  unfold introspect. rewrite forEachImport_tableOf, groupsOf_tableOf.
  reflexivity.
Qed.

End Grouping.

(** ** The shim and its statements *)

Lemma map_mapi_from {A B C : Type} (g : B -> C) (f : A -> nat -> B)
    (i0 : nat) (xs : list A) :
  map g (JsString.mapi_from f i0 xs)
  = JsString.mapi_from (fun x i => g (f x i)) i0 xs.
Proof.
  revert i0. induction xs as [|x xs IH]; intros i0; simpl;
    [reflexivity|]. rewrite IH. reflexivity.
Qed.

Lemma mapi_from_ext {A B : Type} (f g : A -> nat -> B) (i0 : nat)
    (xs : list A) :
  (forall x i, f x i = g x i) ->
  JsString.mapi_from f i0 xs = JsString.mapi_from g i0 xs.
Proof.
  intros H. revert i0. induction xs as [|x xs IH]; intros i0; simpl;
    [reflexivity|]. rewrite H, IH. reflexivity.
Qed.

Lemma map_mapi_from_const {A B C : Type} (g : B -> C) (f : A -> nat -> B)
    (h : A -> C) (i0 : nat) (xs : list A) :
  (forall x i, g (f x i) = h x) ->
  map g (JsString.mapi_from f i0 xs) = map h xs.
Proof.
  intros H. revert i0. induction xs as [|x xs IH]; intros i0; simpl;
    [reflexivity|]. rewrite H, IH. reflexivity.
Qed.
Lemma to_uint_not_Nil (n : nat) : Nat.to_uint n <> Decimal.Nil.
Proof.
  rewrite <- (DecimalNat.Unsigned.of_to n) at 1.
  rewrite DecimalNat.Unsigned.to_of.
  apply DecimalFacts.unorm_nonnil.
Qed.

Lemma ofIndex_inj (i j : nat) :
  JsString.ofIndex i = JsString.ofIndex j -> i = j.
Proof.
  unfold JsString.ofIndex. intros H.
  apply DecimalNat.Unsigned.to_uint_inj.
  assert (E : NilZero.uint_of_string (NilZero.string_of_uint (Nat.to_uint i))
              = NilZero.uint_of_string (NilZero.string_of_uint (Nat.to_uint j)))
    by (rewrite H; reflexivity).
  rewrite !NilZero.usu in E by apply to_uint_not_Nil.
  congruence.
Qed.

Lemma append_inj_r (s a b : string) : s +:+ a = s +:+ b -> a = b.
Proof.
  induction s as [|c s IH]; intros H; [exact H|].
  apply IH. injection H as H. exact H.
Qed.

Lemma bindingOf_inj (i j : nat) :
  bindingOf i = bindingOf j -> i = j.
Proof.
  unfold bindingOf. intros H. apply ofIndex_inj.
  exact (append_inj_r _ _ _ H).
Qed.

Lemma bindings_mapi_from (i0 : nat) (imports : list ImportGroup) :
  map Reader.binding (JsString.mapi_from namespaceImportOf i0 imports)
  = map bindingOf (seq i0 (List.length imports)).
Proof.
  revert i0. induction imports as [|g imports IH]; intros i0; simpl;
    [reflexivity|]. rewrite IH. reflexivity.
Qed.

(** No two groups share a namespace binding. *)
Lemma NoDup_bindings (imports : list ImportGroup) :
  List.NoDup (map Reader.binding (JsString.mapi namespaceImportOf imports)).
Proof.
  unfold JsString.mapi. rewrite bindings_mapi_from.
  apply Finite.Injective_map_NoDup; [|apply List.seq_NoDup].
  intros i j. apply bindingOf_inj.
Qed.

(** ** The hooks *)

Lemma shouldInline_node (p : Plugin) (size : JsNumber.number) :
  targetEnv p = "node" -> shouldInline p size = true.
Proof.
  intros H. unfold shouldInline. rewrite H. apply orb_true_r.
Qed.


(** ** The reader *)

Section Lexing.
Import Reader.

Lemma append_assoc (a b c : string) : (a +:+ b) +:+ c = a +:+ (b +:+ c).
Proof.
  induction a as [|x a IH]; [reflexivity|].
  change (String x a +:+ b) with (String x (a +:+ b)).
  change (String x (a +:+ b) +:+ c) with (String x ((a +:+ b) +:+ c)).
  rewrite IH. reflexivity.
Qed.

Lemma append_empty_r (a : string) : a +:+ EmptyString = a.
Proof.
  induction a as [|x a IH]; [reflexivity|].
  change (String x a +:+ EmptyString) with (String x (a +:+ EmptyString)).
  rewrite IH. reflexivity.
Qed.

(** Reading two texts one after the other. *)
Lemma lexes_app (m m1 m2 : Mode) (s1 s2 : string) (ts1 ts2 : list Token) :
  lexes m s1 ts1 m1 -> lexes m1 s2 ts2 m2 ->
  lexes m (s1 +:+ s2) (ts1 ++ ts2)%list m2.
Proof.
  unfold lexes. revert m ts1.
  induction s1 as [|c s1 IH]; intros m ts1 H1 H2.
  - injection H1 as <- <-. exact H2.
  - change (String c s1 +:+ s2) with (String c (s1 +:+ s2)).
    simpl in *.
    destruct (step m c) as [[ts mode']|]; [|discriminate].
    destruct (run mode' s1) as [[ts' mode'']|] eqn:Hrun; [|discriminate].
    injection H1 as <- <-.
    rewrite (IH mode' ts' Hrun H2), <- app_assoc. reflexivity.
Qed.

Lemma lexes_nil (m : Mode) : lexes m EmptyString [] m.
Proof. reflexivity. Qed.

(** The classes of characters exclude each other as the reader needs. *)
Lemma isNameStart_start (c : ascii) :
  isNameStart c = true ->
  start c = Some ([], InName (String c EmptyString)).
Proof.
  destruct c as [b0 b1 b2 b3 b4 b5 b6 b7].
  destruct b0, b1, b2, b3, b4, b5, b6, b7; vm_compute;
    intros H; first [discriminate H | reflexivity].
Qed.

Lemma isNamePart_isLiteralChar (c : ascii) :
  isNamePart c = true -> isLiteralChar c = true.
Proof.
  destruct c as [b0 b1 b2 b3 b4 b5 b6 b7].
  destruct b0, b1, b2, b3, b4, b5, b6, b7; vm_compute;
    intros H; first [discriminate H | reflexivity].
Qed.

Lemma isLiteralChar_not_quote (c : ascii) :
  isLiteralChar c = true -> Ascii.eqb c "'" = false.
Proof.
  unfold isLiteralChar. destruct (Ascii.eqb c "'"); [discriminate|reflexivity].
Qed.

(** Inside a name, the characters of a name are taken into it. *)
Lemma lexes_InName (text w : string) :
  forallb isNamePart (list_ascii_of_string w) = true ->
  lexes (InName text) w [] (InName (text +:+ w)).
Proof.
  unfold lexes. revert text.
  induction w as [|c w IH]; intros text H; simpl in *.
  - rewrite append_empty_r. reflexivity.
  - apply andb_true_iff in H. destruct H as [Hc Hw].
    rewrite Hc, (IH _ Hw), append_assoc. reflexivity.
Qed.

(** Between two tokens, a name is begun and taken whole. *)
Lemma lexes_name (name : string) :
  isName name = true -> lexes Between name [] (InName name).
Proof.
  destruct name as [|c rest]; [discriminate|]. simpl.
  intros H. apply andb_true_iff in H. destruct H as [Hc Hrest].
  unfold lexes. simpl. rewrite (isNameStart_start c Hc).
  pose proof (lexes_InName (String c EmptyString) rest Hrest) as Hrun.
  unfold lexes in Hrun. rewrite Hrun. reflexivity.
Qed.

(** Inside a string literal, the characters that may stand there are
    taken into it. *)
Lemma lexes_InLiteral (value w : string) :
  isQuotable w = true ->
  lexes (InLiteral value) w [] (InLiteral (value +:+ w)).
Proof.
  unfold lexes, isQuotable. revert value.
  induction w as [|c w IH]; intros value H; simpl in *.
  - rewrite append_empty_r. reflexivity.
  - apply andb_true_iff in H. destruct H as [Hc Hw].
    rewrite (isLiteralChar_not_quote c Hc), Hc, (IH _ Hw), append_assoc.
    reflexivity.
Qed.

Lemma isName_isQuotable (name : string) :
  isName name = true -> isQuotable name = true.
Proof.
  destruct name as [|c rest]; [discriminate|]. unfold isQuotable; simpl.
  intros H. apply andb_true_iff in H. destruct H as [Hc Hrest].
  apply andb_true_iff. split.
  - apply isNamePart_isLiteralChar. unfold isNamePart. rewrite Hc.
    reflexivity.
  - rewrite forallb_forall in *. intros x Hx.
    apply isNamePart_isLiteralChar, Hrest, Hx.
Qed.

(** The decimal numeral of an index is made of digits. *)
Lemma string_of_uint_digits (d : Decimal.uint) :
  forallb isNamePart (list_ascii_of_string (NilEmpty.string_of_uint d))
  = true.
Proof.
  induction d as [|d IH|d IH|d IH|d IH|d IH|d IH|d IH|d IH|d IH|d IH];
    cbn [NilEmpty.string_of_uint list_ascii_of_string forallb];
    try reflexivity; rewrite IH; reflexivity.
Qed.

Lemma ofIndex_digits (i : nat) :
  forallb isNamePart (list_ascii_of_string (JsString.ofIndex i)) = true.
Proof.
  unfold JsString.ofIndex, NilZero.string_of_uint.
  destruct (Nat.to_uint i); first [reflexivity | apply string_of_uint_digits].
Qed.

(** No namespace binding is a reserved word. *)
Lemma bindingOf_not_reserved (i : nat) : isReserved (bindingOf i) = false.
Proof.
  unfold bindingOf, JsString.ofIndex, NilZero.string_of_uint.
  destruct (Nat.to_uint i); reflexivity.
Qed.

Lemma lexes_eq (m m' : Mode) (s : string) (ts ts' : list Token) :
  lexes m s ts m' -> ts = ts' -> lexes m s ts' m'.
Proof. intros H <-. exact H. Qed.

(** [import * as import<i> from '<from>';] *)
Lemma lexes_importLine (g : ImportGroup) (i : nat) :
  isQuotable (from g) = true ->
  lexes Between (importLine g i) (Written.import (namespaceImportOf g i))
        Between.
Proof.
  intros Hfrom. unfold importLine.
  eapply lexes_eq.
  - eapply lexes_app; [lex_text|].
    eapply lexes_app; [apply lexes_InName, ofIndex_digits|].
    eapply lexes_app; [lex_text|].
    eapply lexes_app; [apply lexes_InLiteral, Hfrom|].
    lex_text.
  - reflexivity.
Qed.

(** The import lines, one to a line. *)
Lemma lexes_importLines (imports : list ImportGroup) (i0 : nat) :
  forallb (fun g => isQuotable (from g)) imports = true ->
  lexes Between
    (JsString.join JsString.lf (JsString.mapi_from importLine i0 imports))
    (flat_map Written.import
              (JsString.mapi_from namespaceImportOf i0 imports))
    Between.
Proof.
  revert i0. induction imports as [|g rest IH]; intros i0 H.
  - apply lexes_nil.
  - simpl in H. apply andb_true_iff in H. destruct H as [Hg Hrest].
    destruct rest as [|g' rest'].
    + exact (lexes_eq _ _ _ _ _ (lexes_importLine g i0 Hg) eq_refl).
    + specialize (IH (S i0) Hrest).
      change (lexes Between
                (importLine g i0 +:+ JsString.lf
                 +:+ JsString.join JsString.lf
                       (JsString.mapi_from importLine (S i0) (g' :: rest')))
                (Written.import (namespaceImportOf g i0)
                 ++ flat_map Written.import
                      (JsString.mapi_from namespaceImportOf (S i0)
                                          (g' :: rest')))%list
                Between).
      eapply lexes_app; [apply lexes_importLine, Hg|].
      eapply lexes_eq; [eapply lexes_app; [lex_text | exact IH]|].
      reflexivity.
Qed.

(** ['<name>': import<i>.<name>], up to the name at its end. *)
Lemma lexes_importMember (i : nat) (name : string) :
  isName name = true ->
  lexes Between (importMember i name)
        [Literal name; Punctuator ":"; Name (bindingOf i); Punctuator "."]
        (InName name).
Proof.
  intros Hname. unfold importMember.
  eapply lexes_eq.
  - eapply lexes_app; [lex_text|].
    eapply lexes_app;
      [apply lexes_InLiteral, isName_isQuotable, Hname|].
    eapply lexes_app; [lex_text|].
    eapply lexes_app; [apply lexes_InName, ofIndex_digits|].
    eapply lexes_app; [lex_text|].
    apply lexes_name, Hname.
  - reflexivity.
Qed.

(** The members of a group and the brace behind them. *)
Lemma lexes_members (i : nat) (names : list string) :
  forallb isName names = true ->
  lexes Between
    (JsString.join ", " (map (importMember i) names) +:+ " }")
    (Written.separated (map Written.property (map (propertyOf i) names))
     ++ [Punctuator "}"])%list
    Between.
Proof.
  induction names as [|name rest IH]; intros H.
  - lex_text.
  - simpl in H. apply andb_true_iff in H. destruct H as [Hname Hrest].
    destruct rest as [|name' rest'].
    + change (lexes Between (importMember i name +:+ " }")
                ([Literal name; Punctuator ":"; Name (bindingOf i);
                  Punctuator "."]
                 ++ [Name name; Punctuator "}"])%list
                Between).
      eapply lexes_app; [apply lexes_importMember, Hname|]. lex_text.
    + specialize (IH Hrest).
      change (lexes Between
                ((importMember i name +:+ ", "
                  +:+ JsString.join ", "
                        (map (importMember i) (name' :: rest')))
                 +:+ " }")
                ([Literal name; Punctuator ":"; Name (bindingOf i);
                  Punctuator "."]
                 ++ [Name name; Punctuator ","]
                 ++ (Written.separated
                       (map Written.property
                            (map (propertyOf i) (name' :: rest')))
                     ++ [Punctuator "}"]))%list
                Between).
      rewrite !append_assoc.
      eapply lexes_app; [apply lexes_importMember, Hname|].
      eapply lexes_app; [lex_text|]. exact IH.
Qed.

(** ['<from>': { <members> }] *)
Lemma lexes_importEntry (g : ImportGroup) (i : nat) :
  isQuotable (from g) = true ->
  forallb isName (names g) = true ->
  lexes Between (importEntry g i) (Written.entry (entryOf g i)) Between.
Proof.
  intros Hfrom Hnames. unfold importEntry.
  eapply lexes_eq.
  - eapply lexes_app; [lex_text|].
    eapply lexes_app; [apply lexes_InLiteral, Hfrom|].
    eapply lexes_app; [lex_text|].
    apply lexes_members, Hnames.
  - reflexivity.
Qed.

(** The entries of the import object, a comma between each two. *)
Lemma lexes_importEntries (imports : list ImportGroup) (i0 : nat) :
  forallb (fun g => isQuotable (from g) && forallb isName (names g)) imports
  = true ->
  lexes Between
    (JsString.join ("," +:+ JsString.lf)
                   (JsString.mapi_from importEntry i0 imports))
    (Written.separated
       (map Written.entry (JsString.mapi_from entryOf i0 imports)))
    Between.
Proof.
  revert i0. induction imports as [|g rest IH]; intros i0 H.
  - apply lexes_nil.
  - simpl in H. apply andb_true_iff in H. destruct H as [Hg Hrest].
    apply andb_true_iff in Hg. destruct Hg as [Hfrom Hnames].
    destruct rest as [|g' rest'].
    + apply lexes_importEntry; assumption.
    + specialize (IH (S i0) Hrest).
      change (lexes Between
                (importEntry g i0 +:+ ("," +:+ JsString.lf)
                 +:+ JsString.join ("," +:+ JsString.lf)
                       (JsString.mapi_from importEntry (S i0) (g' :: rest')))
                (Written.entry (entryOf g i0)
                 ++ [Punctuator ","]
                 ++ Written.separated
                      (map Written.entry
                           (JsString.mapi_from entryOf (S i0) (g' :: rest'))))%list
                Between).
      eapply lexes_app; [apply lexes_importEntry; assumption|].
      eapply lexes_app; [lex_text | exact IH].
Qed.

(** [export const <name> = wasmModule.<name>;] *)
Lemma lexes_exportLine (name : string) :
  isName name = true ->
  lexes Between (exportLine name) (Written.export (reExportOf name)) Between.
Proof.
  intros Hname. unfold exportLine.
  eapply lexes_eq.
  - eapply lexes_app; [lex_text|].
    eapply lexes_app; [apply lexes_name, Hname|].
    eapply lexes_app; [lex_text|].
    eapply lexes_app; [apply lexes_name, Hname|].
    lex_text.
  - reflexivity.
Qed.

(** The export lines, one to a line. *)
Lemma lexes_exportLines (exports : list string) :
  forallb isName exports = true ->
  lexes Between (JsString.join JsString.lf (map exportLine exports))
        (flat_map Written.export (map reExportOf exports)) Between.
Proof.
  induction exports as [|name rest IH]; intros H.
  - apply lexes_nil.
  - simpl in H. apply andb_true_iff in H. destruct H as [Hname Hrest].
    destruct rest as [|name' rest'].
    + exact (lexes_eq _ _ _ _ _ (lexes_exportLine name Hname) eq_refl).
    + specialize (IH Hrest).
      change (lexes Between
                (exportLine name +:+ JsString.lf
                 +:+ JsString.join JsString.lf
                       (map exportLine (name' :: rest')))
                (Written.export (reExportOf name)
                 ++ flat_map Written.export
                      (map reExportOf (name' :: rest')))%list
                Between).
      eapply lexes_app; [apply lexes_exportLine, Hname|].
      eapply lexes_eq; [eapply lexes_app; [lex_text | exact IH]|].
      reflexivity.
Qed.

End Lexing.

Section Parsing.
Import Reader.

Lemma tokenEqb_refl (t : Token) : tokenEqb t t = true.
Proof.
  destruct t; simpl; first [apply String.eqb_refl | apply Ascii.eqb_refl].
Qed.

Lemma expect_app (expected rest : list Token) :
  expect expected (expected ++ rest) = Some rest.
Proof.
  induction expected as [|e expected IH]; simpl; [reflexivity|].
  rewrite tokenEqb_refl. exact IH.
Qed.

(** Member accesses are read up to the punctuator that is no dot. *)
Lemma memberAccesses_written (members : list string) (c : ascii)
    (rest : list Token) :
  Ascii.eqb c "." = false ->
  memberAccesses
    (flat_map (fun member => [Punctuator "."; Name member]) members
     ++ Punctuator c :: rest)
  = (members, Punctuator c :: rest).
Proof.
  intros Hc. induction members as [|member members IH]; simpl.
  - destruct rest as [|[text|value|c'] rest]; try reflexivity.
    rewrite Hc. reflexivity.
  - rewrite IH. reflexivity.
Qed.

Lemma separated_cons (item : list Token) (items : list (list Token)) :
  items <> [] ->
  Written.separated (item :: items)
  = (item ++ Punctuator "," :: Written.separated items)%list.
Proof. destruct items; [contradiction|reflexivity]. Qed.

(** The properties of an object are read back from their tokens. *)
Lemma propertyList_written (ps : list Property) :
  forall (fuel : nat) (rest : list Token),
    Forall (fun p => value p <> [] /\ isPropertyKey (key p) = true) ps ->
    (List.length (Written.separated (map Written.property ps)) < fuel)%nat ->
    propertyList fuel
      (Written.separated (map Written.property ps) ++ Punctuator "}" :: rest)
    = Some (ps, rest).
Proof.
  induction ps as [|p ps IH]; intros fuel rest Hvalues Hfuel.
  - destruct fuel; [simpl in Hfuel; lia|]. reflexivity.
  - apply Forall_cons_iff in Hvalues. destruct Hvalues as [[Hp Hk] Hps].
    destruct p as [k [|object path]]; [contradiction|].
    cbn [key] in Hk.
    destruct fuel as [|fuel]; [lia|].
    destruct ps as [|p' ps'].
    + simpl. rewrite Hk. simpl.
      rewrite (memberAccesses_written path "}" rest eq_refl). reflexivity.
    + assert (Hne : map Written.property (p' :: ps') <> []) by discriminate.
      remember (p' :: ps') as ps eqn:Eps. clear Eps p' ps'.
      cbn [map] in *. rewrite (separated_cons _ _ Hne) in *.
      unfold Written.property at 1 in Hfuel. unfold Written.property at 1.
      cbn [key value Written.path] in *.
      rewrite List.length_app in Hfuel. cbn [List.length] in Hfuel.
      rewrite <- ?app_assoc. cbn [app propertyList Ascii.eqb Bool.eqb].
      rewrite Hk. cbn [andb].
      rewrite <- ?app_assoc. cbn [app].
      rewrite (memberAccesses_written path "," _ eq_refl).
      cbn [Ascii.eqb Bool.eqb].
      rewrite (IH fuel rest Hps); [reflexivity|lia].
Qed.

(** The entries of the import object are read back from their tokens. *)
Lemma entryList_written (es : list Entry) :
  forall (fuel : nat) (rest : list Token),
    Forall (fun e => isPropertyKey (moduleKey e) = true
                     /\ Forall (fun p => value p <> []
                                          /\ isPropertyKey (key p) = true)
                               (properties e)) es ->
    (List.length (Written.separated (map Written.entry es)) < fuel)%nat ->
    entryList fuel
      (Written.separated (map Written.entry es) ++ Punctuator "}" :: rest)
    = Some (es, rest).
Proof.
  induction es as [|e es IH]; intros fuel rest Hvalues Hfuel.
  - destruct fuel; [simpl in Hfuel; lia|]. reflexivity.
  - apply Forall_cons_iff in Hvalues. destruct Hvalues as [[Hk He] Hes].
    destruct e as [k ps]. cbn [properties moduleKey] in He, Hk.
    destruct fuel as [|fuel]; [lia|].
    destruct es as [|e' es'].
    + cbn [map Written.separated] in *. unfold Written.entry in *.
      cbn [moduleKey properties] in *.
      cbn [List.length] in Hfuel. rewrite List.length_app in Hfuel.
      cbn [app entryList Ascii.eqb Bool.eqb andb].
      rewrite Hk. cbn [andb].
      rewrite <- ?app_assoc. cbn [app]. cbn [List.length] in Hfuel.
      rewrite propertyList_written; [|exact He | lia].
      cbn [Ascii.eqb Bool.eqb]. reflexivity.
    + assert (Hne : map Written.entry (e' :: es') <> []) by discriminate.
      remember (e' :: es') as es eqn:Ees. clear Ees e' es'.
      cbn [map] in *. rewrite (separated_cons _ _ Hne) in *.
      unfold Written.entry at 1 in Hfuel. unfold Written.entry at 1.
      cbn [moduleKey properties] in *.
      cbn [List.length app] in Hfuel. rewrite !List.length_app in Hfuel.
      cbn [List.length] in Hfuel.
      cbn [app entryList Ascii.eqb Bool.eqb andb].
      rewrite Hk. cbn [andb].
      rewrite <- ?app_assoc. cbn [app].
      rewrite propertyList_written; [|exact He | lia].
      cbn [app Ascii.eqb Bool.eqb].
      rewrite (IH fuel rest Hes); [reflexivity|lia].
Qed.

(** The import declarations are read back, up to what is none. *)
Lemma importDeclarations_written (found : list Import) (tail : list Token) :
  importDeclarations tail = ([], tail) ->
  forallb (fun i => negb (isReserved (binding i))) found = true ->
  importDeclarations (flat_map Written.import found ++ tail)
  = (found, tail).
Proof.
  intros Htail.
  induction found as [|[b spec] found IH]; intros H; [exact Htail|].
  simpl in H. apply andb_true_iff in H. destruct H as [Hb Hfound].
  cbn [flat_map Written.import binding specifier app importDeclarations
       tokenEqb].
  rewrite Hb. cbn [String.eqb Ascii.eqb Bool.eqb andb].
  rewrite <- ?app_assoc. rewrite (IH Hfound). reflexivity.
Qed.

(** The export declarations are read back. *)
Lemma exportDeclarations_written (xs : list Export) :
  forall fuel : nat,
    forallb (fun x => negb (isReserved (exported x))) xs = true ->
    Forall (fun x => initializer x <> []) xs ->
    (List.length xs < fuel)%nat ->
    exportDeclarations fuel (flat_map Written.export xs) = Some xs.
Proof.
  induction xs as [|[x [|object path]] xs IH]; intros fuel Hnames Hvalues Hfuel.
  - destruct fuel; [simpl in Hfuel; lia|]. reflexivity.
  - apply Forall_cons_iff in Hvalues. destruct Hvalues as [[] _]. reflexivity.
  - apply Forall_cons_iff in Hvalues. destruct Hvalues as [_ Hvalues].
    simpl in Hnames. apply andb_true_iff in Hnames.
    destruct Hnames as [Hx Hnames].
    destruct fuel as [|fuel]; [lia|]. simpl in Hfuel.
    cbn [flat_map Written.export exported initializer Written.path app
         exportDeclarations tokenEqb].
    rewrite Hx. cbn [String.eqb Ascii.eqb Bool.eqb andb negb].
    rewrite <- ?app_assoc. cbn [app].
    rewrite (memberAccesses_written path ";" _ eq_refl).
    cbn [Ascii.eqb Bool.eqb].
    rewrite (IH fuel Hnames Hvalues); [reflexivity|lia].
Qed.

(** The statements of a shim are read back from the tokens they are
    written with. *)
Lemma parse_written (s : Shim) :
  forallb (fun i => negb (isReserved (binding i))) (namespaceImports s)
  = true ->
  Forall (fun e => isPropertyKey (moduleKey e) = true
                   /\ Forall (fun p => value p <> []
                                        /\ isPropertyKey (key p) = true)
                             (properties e))
         (importObject s) ->
  forallb (fun x => negb (isReserved (exported x))) (reExports s) = true ->
  Forall (fun x => initializer x <> []) (reExports s) ->
  distinct (declared s) = true ->
  parse (Written.shim s) = Some s.
Proof.
  intros Himports Hobject Hnames Hvalues Hdistinct.
  destruct s as [found entries wasmUrl exports].
  cbn [namespaceImports importObject url reExports] in *.
  unfold parse, Written.shim.
  cbn [namespaceImports importObject url reExports].
  set (fuel := S (List.length _)).
  assert (Hentries :
    (List.length (Written.separated (map Written.entry entries)) < fuel)%nat).
  { subst fuel. rewrite !List.length_app. lia. }
  assert (Hexports : (List.length exports < fuel)%nat).
  { subst fuel. rewrite !List.length_app.
    assert (H : (List.length exports
                 <= List.length (flat_map Written.export exports))%nat).
    { clear. induction exports as [|x xs IH]; simpl; [lia|].
      rewrite List.length_app. lia. }
    lia. }
  clearbody fuel.
  rewrite <- ?app_assoc.
  rewrite importDeclarations_written by first [reflexivity | exact Himports].
  rewrite expect_app. cbn [app].
  rewrite entryList_written by assumption.
  cbn [app Ascii.eqb Bool.eqb expect tokenEqb].
  rewrite exportDeclarations_written by assumption.
  rewrite Hdistinct. reflexivity.
Qed.

End Parsing.

Section Reading.
Import Reader.

Lemma behind_append (prefix s : string) :
  behind prefix (prefix +:+ s) = Some s.
Proof.
  induction prefix as [|c prefix IH]; [destruct s; reflexivity|].
  change (String c prefix +:+ s) with (String c (prefix +:+ s)).
  simpl. rewrite Ascii.eqb_refl. exact IH.
Qed.

(** The text behind the loader is cut into the tokens of the statements
    that the specification asks for. *)
Lemma tokens_generated (imports : list ImportGroup) (exports : list string)
    (wasmUrl : string) :
  forallb (fun g => isQuotable (from g) && forallb isName (names g)) imports
  = true ->
  isQuotable wasmUrl = true ->
  forallb isName exports = true ->
  exists body,
    generateWasmInitCode imports exports wasmUrl = loader +:+ body
    /\ tokens body = Some (Written.shim (shimOf imports exports wasmUrl)).
Proof.
  intros Himports Hurl Hexports.
  assert (Hfrom : forallb (fun g => isQuotable (from g)) imports = true).
  { rewrite forallb_forall in *. intros g Hg.
    specialize (Himports g Hg). apply andb_true_iff in Himports. tauto. }
  eexists. split.
  { unfold generateWasmInitCode, loader, JsString.join. cbv zeta.
    rewrite !append_assoc. reflexivity. }
  unfold tokens.
  assert (Hrun : lexes Between
    ("  // Import dependency modules" +:+ JsString.lf +:+ "  "
     +:+ String.concat JsString.lf (JsString.mapi importLine imports)
     +:+ JsString.lf +:+ JsString.lf
     +:+ "  // Initialize WASM module, passing in external imports"
     +:+ JsString.lf +:+ "  const wasmModule = await initWasm({"
     +:+ JsString.lf +:+ "    "
     +:+ String.concat ("," +:+ JsString.lf)
           (JsString.mapi importEntry imports)
     +:+ JsString.lf +:+ "  }, '" +:+ wasmUrl +:+ "');" +:+ JsString.lf
     +:+ JsString.lf +:+ "  // Export WASM functions" +:+ JsString.lf
     +:+ "  " +:+ String.concat JsString.lf (map exportLine exports)
     +:+ JsString.lf)
    (Written.shim (shimOf imports exports wasmUrl)) Between).
  { eapply lexes_eq.
    - do 3 (eapply lexes_app; [lex_text|]).
      eapply lexes_app; [apply lexes_importLines, Hfrom|].
      do 7 (eapply lexes_app; [lex_text|]).
      eapply lexes_app; [apply lexes_importEntries, Himports|].
      do 2 (eapply lexes_app; [lex_text|]).
      eapply lexes_app; [apply lexes_InLiteral, Hurl|].
      do 6 (eapply lexes_app; [lex_text|]).
      eapply lexes_app; [apply lexes_exportLines, Hexports|].
      lex_text.
    - unfold Written.shim, shimOf, Written.call.
      cbn [namespaceImports importObject url reExports app].
      rewrite ?app_nil_r, <- ?app_assoc. reflexivity. }
  unfold lexes in Hrun. rewrite Hrun. cbn [finish].
  rewrite app_nil_r. reflexivity.
Qed.

Lemma bindings_not_reserved (imports : list ImportGroup) (i0 : nat) :
  forallb (fun i => negb (isReserved (binding i)))
          (JsString.mapi_from namespaceImportOf i0 imports)
  = true.
Proof.
  revert i0. induction imports as [|g rest IH]; intros i0; [reflexivity|].
  cbn [JsString.mapi_from forallb namespaceImportOf binding].
  rewrite bindingOf_not_reserved. apply IH.
Qed.

Lemma entries_have_values (imports : list ImportGroup) (i0 : nat) :
  forallb (fun g => isPropertyKey (from g)
                    && forallb isPropertyKey (names g)) imports = true ->
  Forall (fun e => isPropertyKey (moduleKey e) = true
                   /\ Forall (fun p => value p <> []
                                       /\ isPropertyKey (key p) = true)
                             (properties e))
         (JsString.mapi_from entryOf i0 imports).
Proof.
  revert i0. induction imports as [|g rest IH]; intros i0 H; constructor;
    simpl in H; apply andb_true_iff in H; destruct H as [Hg Hrest].
  - apply andb_true_iff in Hg. destruct Hg as [Hfrom Hnames].
    split; [exact Hfrom|].
    apply List.Forall_forall. intros p Hp. simpl in Hp.
    apply List.in_map_iff in Hp. destruct Hp as (name & <- & Hname).
    split; [discriminate|]. simpl.
    rewrite forallb_forall in Hnames. apply Hnames, Hname.
  - apply IH, Hrest.
Qed.

End Reading.
Section HookFacts.

Variable platform : Rollup.Platform.
Variable p : Plugin.

(** [resolveId] on a [.wasm] specifier that resolves to a file. *)
Lemma resolveId_wasm (source : string) (importer : option string)
    (w : Rollup.World) (ref : nat) (r : Rollup.ResolvedId) (n : N) :
  JsString.endsWith source ".wasm" = true ->
  Rollup.this_resolve platform source importer (Some true)
    = Returned (Some ref) ->
  Rollup.heap w !! ref = Some r ->
  Rollup.fs_statSync_size platform (Rollup.id r) = Returned n ->
  resolveId platform p source importer w
  = (Returned (ResolveId (Rollup.id r)),
     {| Rollup.heap :=
          if exceedsLimit p (JsNumber.ofN n)
          then <[ref := withWasmPath r (hashedFileName (Rollup.id r))]>
                 (Rollup.heap w)
          else Rollup.heap w;
        Rollup.events :=
          (Rollup.events w
           ++ [Rollup.Resolve source importer (Some true);
               Rollup.StatSync (Rollup.id r)])%list |}).
Proof.
  intros Hwasm Hres Hheap Hstat. run_hook.
  rewrite Hwasm; simpl. rewrite Hres, Hheap; simpl. rewrite Hstat; simpl.
  destruct (exceedsLimit p (JsNumber.ofN n)); log_normal; reflexivity.
Qed.

(** What a [load] that returns a shim has done. *)
Lemma load_success (id : string) (w w' : Rollup.World) (code : string) :
  load platform p id w = (Returned (Some code), w') ->
  JsString.endsWith id ".wasm" = true
  /\ exists n bytes m info,
      Rollup.fs_statSync_size platform id = Returned n
      /\ Rollup.fs_readFile platform id = Returned bytes
      /\ Rollup.WebAssembly_compile platform bytes = Returned m
      /\ introspect m = Returned info
      /\ Rollup.heap w' = Rollup.heap w
      /\ ((shouldInline p (JsNumber.ofN n) = true
           /\ code = generateWasmInitCode (imports info) (exports info)
                       ("data:application/wasm;base64," +:+ Base64.encode bytes)
           /\ Rollup.events w'
              = (Rollup.events w
                 ++ [Rollup.StatSync id; Rollup.ReadFile id None;
                     Rollup.Compile bytes;
                     Rollup.ReadFile id (Some "base64")])%list)
          \/ (shouldInline p (JsNumber.ofN n) = false
              /\ exists ref r,
                  Rollup.this_resolve platform id None None
                    = Returned (Some ref)
                  /\ Rollup.heap w !! ref = Some r
                  /\ Rollup.this_emitFile platform
                       (orElse (wasmPath r) (Path.basename id None)) bytes
                     = Returned tt
                  /\ code = generateWasmInitCode (imports info) (exports info)
                              (orElse (wasmPath r) (Path.basename id None))
                  /\ Rollup.events w'
                     = (Rollup.events w
                        ++ [Rollup.StatSync id; Rollup.ReadFile id None;
                            Rollup.Compile bytes;
                            Rollup.Resolve id None None;
                            Rollup.ReadFile id None;
                            Rollup.EmitFile
                              (orElse (wasmPath r) (Path.basename id None))
                              bytes])%list)).
Proof.
  run_hook.
  destruct (JsString.endsWith id ".wasm"); simpl; [|discriminate].
  destruct (Rollup.fs_statSync_size platform id) as [n|e] eqn:Hstat; simpl;
    [|discriminate].
  destruct (Rollup.fs_readFile platform id) as [bytes|e] eqn:Hread; simpl.
  2: { destruct (shouldInline p (JsNumber.ofN n)); simpl;
       try destruct (Rollup.parseSettlesFirst platform); discriminate. }
  destruct (Rollup.WebAssembly_compile platform bytes) as [m|e] eqn:Hc; simpl.
  2: { destruct (shouldInline p (JsNumber.ofN n)); simpl; discriminate. }
  destruct (introspect m) as [info|e] eqn:Hi; simpl.
  2: { destruct (shouldInline p (JsNumber.ofN n)); simpl; discriminate. }
  intros H. split; [reflexivity|]. exists n, bytes, m, info.
  do 4 (split; [first [reflexivity | assumption]|]).
  destruct (shouldInline p (JsNumber.ofN n)) eqn:Hin; simpl in H.
  - injection H as <- <-. split; [reflexivity|]. left.
    repeat split. log_normal. reflexivity.
  - destruct (Rollup.this_resolve platform id None None) as [[ref|]|e] eqn:Hr;
      simpl in H; try discriminate.
    destruct (Rollup.heap w !! ref) as [r|] eqn:Hh; simpl in H;
      try discriminate.
    destruct (Rollup.this_emitFile platform _ bytes) as [[]|e] eqn:He;
      simpl in H; try discriminate.
    injection H as <- <-. split; [reflexivity|]. right.
    split; [reflexivity|]. exists ref, r.
    repeat split; try assumption. log_normal. reflexivity.
Qed.

(** A [load] that throws has reported the error it throws, and only
    that one. *)
Lemma load_failure (id : string) (w w' : Rollup.World) (message : string) :
  load platform p id w = (Thrown message, w') ->
  Rollup.reported w' = (Rollup.reported w ++ [message])%list.
Proof.
  run_hook.
  destruct (JsString.endsWith id ".wasm"); simpl; [|discriminate].
  destruct (Rollup.fs_statSync_size platform id) as [n|e]; simpl.
  2: { intros H; injection H as <- <-. rewrite !reported_record, ?app_nil_r.
       reflexivity. }
  destruct (shouldInline p (JsNumber.ofN n)); simpl;
    destruct (Rollup.fs_readFile platform id) as [bytes|e]; simpl;
    try destruct (Rollup.WebAssembly_compile platform bytes) as [m|e]; simpl;
    try destruct (introspect m) as [info|e]; simpl;
    try destruct (Rollup.parseSettlesFirst platform); simpl;
    try destruct (Rollup.this_resolve platform id None None) as [[ref|]|e];
    simpl;
    try destruct (Rollup.heap w !! ref) as [r|]; simpl;
    try destruct (Rollup.this_emitFile platform _ _) as [[]|e]; simpl;
    intros H; try discriminate H; injection H as <- <-;
    rewrite !reported_record; simpl; rewrite ?app_nil_r; reflexivity.
Qed.

End HookFacts.

(** A [load] whose decision is to inline never calls [emitFile]. *)
Lemma load_inline_emits_nothing (platform : Rollup.Platform) (p : Plugin)
    (id : string) (w : Rollup.World) :
  (forall n, Rollup.fs_statSync_size platform id = Returned n ->
             shouldInline p (JsNumber.ofN n) = true) ->
  Rollup.emitted (snd (load platform p id w)) = Rollup.emitted w.
Proof.
  intros Hinline. run_hook.
  destruct (JsString.endsWith id ".wasm"); simpl; [|reflexivity].
  destruct (Rollup.fs_statSync_size platform id) as [n|e]; simpl.
  2: { rewrite !emitted_record; simpl. rewrite ?app_nil_r. reflexivity. }
  rewrite (Hinline n eq_refl); simpl.
  destruct (Rollup.fs_readFile platform id) as [bytes|e]; simpl;
    try destruct (Rollup.WebAssembly_compile platform bytes) as [m|e]; simpl;
    try destruct (introspect m) as [info|e]; simpl;
    try destruct (Rollup.parseSettlesFirst platform); simpl;
    rewrite !emitted_record; simpl; rewrite ?app_nil_r; reflexivity.
Qed.

Lemma emitted_events (w w' : Rollup.World) (es : list Rollup.Event) :
  Rollup.events w' = (Rollup.events w ++ es)%list ->
  Rollup.emitted w'
  = (Rollup.emitted w
     ++ Rollup.emitted {| Rollup.heap := Rollup.heap w;
                          Rollup.events := es |})%list.
Proof.
  intros H. unfold Rollup.emitted. rewrite H, omap_app. reflexivity.
Qed.

Lemma fileReads_events (path : string) (w w' : Rollup.World)
    (es : list Rollup.Event) :
  Rollup.events w' = (Rollup.events w ++ es)%list ->
  Rollup.fileReads path w'
  = (Rollup.fileReads path w
     ++ Rollup.fileReads path {| Rollup.heap := Rollup.heap w;
                                 Rollup.events := es |})%list.
Proof.
  intros H. unfold Rollup.fileReads. rewrite H, omap_app. reflexivity.
Qed.

Lemma wasmPath_withWasmPath (r : Rollup.ResolvedId) (fileName : string) :
  wasmPath (withWasmPath r fileName) = Some fileName.
Proof. unfold wasmPath, withWasmPath; simpl. apply lookup_insert_eq. Qed.

(** Under a positive limit, [load]'s decision to emit and [resolveId]'s
    guard agree. *)
Lemma external_exceedsLimit (p : Plugin) (n : N) :
  shouldInline p (JsNumber.ofN n) = false ->
  JsNumber.gt (maxFileSize p) JsNumber.zero = true ->
  exceedsLimit p (JsNumber.ofN n) = true.
Proof.
  unfold shouldInline, exceedsLimit. intros Hext Hpos.
  rewrite Hpos, (JsNumberFacts.gt_zero_strictEq _ Hpos) in *. simpl.
  apply orb_false_iff in Hext. destruct Hext as [Hle _].
  apply JsNumberFacts.le_false_gt; auto using JsNumberFacts.ofN_not_NaN,
    JsNumberFacts.gt_zero_not_NaN.
Qed.

(** The sample's plugins are what [wasmPlugin] constructs. *)
Lemma sample_plugins_constructed :
  wasmPlugin {| opt_maxFileSize := JsUndefined; opt_targetEnv := JsUndefined |}
  = Returned Sample.nodeDefault
  /\ wasmPlugin {| opt_maxFileSize := JsUndefined;
                   opt_targetEnv := JsString "browser" |}
     = Returned Sample.browserDefault
  /\ wasmPlugin {| opt_maxFileSize := JsNumber (JsNumber.ofZ 16);
                   opt_targetEnv := JsString "node" |}
     = Returned Sample.nodeSmallLimit
  /\ wasmPlugin {| opt_maxFileSize := JsNumber (JsNumber.ofZ 16);
                   opt_targetEnv := JsString "browser" |}
     = Returned Sample.browserSmallLimit
  /\ wasmPlugin {| opt_maxFileSize := JsNumber (JsNumber.ofZ 0);
                   opt_targetEnv := JsString "browser" |}
     = Returned Sample.browserNeverInline.
Proof. repeat split. Qed.

(** ** The claims *)

(** C1.  The placement decision is the function [placement] of the file
    size and the configuration, and [load] acts on it: a [load] that
    returns a shim has called [emitFile] for nothing when the decision is
    [Inline], and once when it is [External].  For [targetEnv = "node"]
    the decision is [Inline] for every size, and no [load] of such a
    plugin calls [emitFile]; for [targetEnv = "browser"] and
    [maxFileSize === 0] it is [External] for every size; for
    [targetEnv = "browser"] and [maxFileSize > 0] it is [Inline] exactly
    when [fileSizeBytes <= maxFileSize]. *)
Theorem placement_decision (platform : Rollup.Platform) (p : Plugin)
    (fileSizeBytes : N) :
  let size := JsNumber.ofN fileSizeBytes in
  (forall id w w' code,
      load platform p id w = (Returned (Some code), w') ->
      Rollup.fs_statSync_size platform id = Returned fileSizeBytes ->
      match placement p size with
      | Inline => Rollup.emitted w' = Rollup.emitted w
      | External =>
          exists fileName bytes,
            Rollup.emitted w'
            = (Rollup.emitted w ++ [(fileName, bytes)])%list
      end)
  /\ (targetEnv p = "node" ->
      placement p size = Inline
      /\ forall id w,
           Rollup.emitted (snd (load platform p id w)) = Rollup.emitted w)
  /\ (targetEnv p = "browser" ->
      JsNumber.strictEq (maxFileSize p) JsNumber.zero = true ->
      placement p size = External)
  /\ (targetEnv p = "browser" ->
      JsNumber.gt (maxFileSize p) JsNumber.zero = true ->
      (placement p size = Inline
       <-> JsNumber.le size (maxFileSize p) = true)).
Proof.
  intros size. unfold placement. split; [|split; [|split]].
  - intros id w w' code Hload Hstat.
    destruct (load_success platform p id w w' code Hload)
      as (_ & n & bytes & m & info & Hstat' & _ & _ & _ & _ & Hcases).
    rewrite Hstat in Hstat'. injection Hstat' as <-. fold size in Hcases.
    destruct Hcases as [(Hin & _ & Hev) | (Hin & ref & r & _ & _ & _ & _ & Hev)];
      rewrite Hin.
    + rewrite (emitted_events w w' _ Hev). apply app_nil_r.
    + eexists _, _. rewrite (emitted_events w w' _ Hev). reflexivity.
  - intros Hnode. split.
    + rewrite shouldInline_node by assumption. reflexivity.
    + intros id w. apply load_inline_emits_nothing.
      intros n _. apply shouldInline_node. assumption.
  - intros Henv Hzero. unfold shouldInline. rewrite Henv, Hzero. reflexivity.
  - intros Henv Hpos. unfold shouldInline.
    rewrite Henv, (JsNumberFacts.gt_zero_strictEq _ Hpos).
    simpl. rewrite orb_false_r.
    destruct (JsNumber.le size (maxFileSize p)); split; congruence.
Qed.

Lemma placement_decision_witness :
  placement Sample.nodeSmallLimit (JsNumber.ofN 47) = Inline
  /\ placement Sample.browserNeverInline (JsNumber.ofN 47) = External
  /\ (placement Sample.browserDefault (JsNumber.ofN 47) = Inline
      <-> JsNumber.le (JsNumber.ofN 47) (maxFileSize Sample.browserDefault)
          = true).
Proof.
  split; [|split].
  - destruct (placement_decision Sample.platform Sample.nodeSmallLimit 47)
      as (_ & H & _).
    apply H. reflexivity.
  - destruct (placement_decision Sample.platform Sample.browserNeverInline 47)
      as (_ & _ & H & _).
    apply H; reflexivity.
  - destruct (placement_decision Sample.platform Sample.browserDefault 47)
      as (_ & _ & _ & H).
    apply H; reflexivity.
Defined.

(** C2.  For a binary the engine compiles, [parseWasm] returns the imports
    grouped by declaring module: the groups are those of [groupByModule],
    their [from] values are the module names in first-seen order and
    pairwise distinct, and the [names] of a group are the names imported
    from its module in declaration order, repetitions kept; every import
    pair's module has its group.  Import pairs
    [(m1,a), (m1,b), (m2,c)] with [m1 <> m2] give
    [{from: m1, names: [a, b]}, {from: m2, names: [c]}]. *)
Theorem parseWasm_groups_imports (platform : Rollup.Platform)
    (wasmFilePath : string) (bytes : list Byte.byte)
    (wasmModule : WebAssembly.CompiledModule) (w : Rollup.World) :
  Rollup.fs_readFile platform wasmFilePath = Returned bytes ->
  Rollup.WebAssembly_compile platform bytes = Returned wasmModule ->
  let descriptors := WebAssembly.imports wasmModule in
  exists info,
    fst (parseWasm platform wasmFilePath w) = Returned info
    /\ imports info = groupByModule descriptors
    /\ map from (imports info) = firstSeen (map WebAssembly.module descriptors)
    /\ List.NoDup (map from (imports info))
    /\ List.Forall (fun g => names g = namesFrom (from g) descriptors)
                   (imports info)
    /\ List.Forall (fun d => In (WebAssembly.module d)
                                (map from (imports info)))
                   descriptors
    /\ exports info
       = map WebAssembly.exportName (WebAssembly.exports wasmModule)
    /\ (forall m1 m2 a b c k1 k2 k3,
          m1 <> m2 ->
          descriptors
          = [ {| WebAssembly.module := m1; WebAssembly.name := a;
                 WebAssembly.kind := k1 |};
              {| WebAssembly.module := m1; WebAssembly.name := b;
                 WebAssembly.kind := k2 |};
              {| WebAssembly.module := m2; WebAssembly.name := c;
                 WebAssembly.kind := k3 |} ] ->
          imports info = [ {| from := m1; names := [a; b] |};
                           {| from := m2; names := [c] |} ]).
Proof.
  intros Hread Hcompile descriptors.
  exists {| imports := groupByModule descriptors;
            exports := map WebAssembly.exportName
                           (WebAssembly.exports wasmModule) |}.
  split.
  { unfold parseWasm, tryCatch, bind, readFile, compile, perform.
    rewrite Hread; simpl. rewrite Hcompile; simpl.
    rewrite introspect_groups. reflexivity. }
  simpl. split; [reflexivity|].
  assert (Hfrom : map from (groupByModule descriptors)
                  = firstSeen (map WebAssembly.module descriptors)).
  { unfold groupByModule. rewrite List.map_map. simpl. apply List.map_id. }
  split; [exact Hfrom|].
  split; [rewrite Hfrom; apply NoDup_firstSeen|].
  split.
  { unfold groupByModule. apply List.Forall_forall. intros g Hg.
    apply List.in_map_iff in Hg. destruct Hg as (k & <- & _). reflexivity. }
  split.
  { apply List.Forall_forall. intros d Hd. rewrite Hfrom.
    apply In_firstSeen, List.in_map, Hd. }
  split; [reflexivity|].
  intros m1 m2 a b c k1 k2 k3 Hne ->.
  assert (E12 : String.eqb m1 m2 = false) by (apply String.eqb_neq; congruence).
  assert (E21 : String.eqb m2 m1 = false) by (apply String.eqb_neq; congruence).
  unfold groupByModule, namesFrom.
  repeat (cbn; rewrite ?String.eqb_refl, ?E12, ?E21).
  reflexivity.
Qed.

Lemma parseWasm_groups_imports_witness :
  exists info,
    fst (parseWasm Sample.platform Sample.id Sample.world) = Returned info
    /\ imports info = [ {| from := "m1"; names := ["a"; "b"] |};
                        {| from := "m2"; names := ["c"] |} ]
    /\ exports info = ["add"].
Proof.
  destruct (parseWasm_groups_imports Sample.platform Sample.id Sample.bytes
              Sample.compiled Sample.world eq_refl eq_refl)
    as (info & Hrun & _ & _ & _ & _ & _ & Hexports & Hexample).
  exists info. split; [exact Hrun|]. split; [|exact Hexports].
  apply (Hexample "m1" "m2" "a" "b" "c" "function" "function" "function").
  - discriminate.
  - reflexivity.
Defined.

(** C3, as the code has it.  Take [imports], [exports] and [wasmUrl]
    that the generator can write as they are: no module name and no URL
    with a single quote, a backslash or a line break; imported names that
    are names (ASCII letters, digits, [_] and [$], no digit first); no
    module name and no imported name [__proto__]; export names that are
    such names and no reserved words, no two the same and none the same
    as a binding of the shim itself ([initWasm], [wasmModule],
    [import<i>]).  Then the generated source, read behind
    its loader as an engine reads it, holds one namespace import per
    import group, in the order of [imports], the group at index [i] bound
    to [import<i>], no two groups to the same binding; a call of the
    loader with an import object whose keys are the groups' [from]
    strings in that order, each declared name mapped to the member of the
    same name of its group's binding, and with the URL; and one export
    per name of [exports], in that order, of the member of that name of
    the instance's exports. *)
Theorem shim_statements (imports : list ImportGroup) (exports : list string)
    (wasmUrl : string) :
  wellFormed imports exports wasmUrl = true ->
  exists s : Reader.Shim,
    Reader.read (generateWasmInitCode imports exports wasmUrl) = Some s
    /\ Reader.namespaceImports s = JsString.mapi namespaceImportOf imports
    /\ map Reader.specifier (Reader.namespaceImports s) = map from imports
    /\ List.NoDup (map Reader.binding (Reader.namespaceImports s))
    /\ Reader.importObject s = JsString.mapi entryOf imports
    /\ map Reader.moduleKey (Reader.importObject s) = map from imports
    /\ Reader.url s = wasmUrl
    /\ Reader.reExports s = map reExportOf exports
    /\ map Reader.exported (Reader.reExports s) = exports.
Proof.
  unfold wellFormed. intros H.
  apply andb_true_iff in H. destruct H as [H Hdistinct].
  apply andb_true_iff in H. destruct H as [H Hexports].
  apply andb_true_iff in H. destruct H as [Hgroups Hurl].
  assert (Hkeys : forallb (fun g => Reader.isPropertyKey (from g)
                                    && forallb Reader.isPropertyKey (names g))
                          imports = true
                  /\ forallb (fun g => Reader.isQuotable (from g)
                                       && forallb Reader.isName (names g))
                             imports = true).
  { rewrite !forallb_forall in *.
    split; intros g Hg; specialize (Hgroups g Hg);
      apply andb_true_iff in Hgroups; destruct Hgroups as [Hfrom Hall];
      apply andb_true_iff in Hfrom; destruct Hfrom as [Hquotable Hkey];
      rewrite forallb_forall in Hall;
      apply andb_true_iff; (split; [assumption|]);
      apply forallb_forall; intros name Hname;
      specialize (Hall name Hname); apply andb_true_iff in Hall; tauto. }
  destruct Hkeys as [Hkeys Himports].
  assert (Hnames : forallb Reader.isName exports = true
                   /\ forallb (fun name => negb (Reader.isReserved name))
                              exports = true).
  { rewrite !forallb_forall in *.
    split; intros name Hname; specialize (Hexports name Hname);
      apply andb_true_iff in Hexports; tauto. }
  destruct Hnames as [Hnames Hfree].
  destruct (tokens_generated imports exports wasmUrl Himports Hurl Hnames)
    as (body & Hsource & Htokens).
  exists (shimOf imports exports wasmUrl).
  split.
  { unfold Reader.read. rewrite Hsource, behind_append, Htokens.
    apply parse_written; unfold shimOf;
      cbn [Reader.namespaceImports Reader.importObject Reader.reExports].
    - apply bindings_not_reserved.
    - apply entries_have_values, Hkeys.
    - rewrite forallb_forall in *. intros x Hx.
      apply List.in_map_iff in Hx. destruct Hx as (name & <- & Hname).
      apply (Hfree name Hname).
    - apply List.Forall_forall. intros x Hx.
      apply List.in_map_iff in Hx. destruct Hx as (name & <- & _).
      discriminate.
    - unfold Reader.declared, JsString.mapi.
      cbn [Reader.namespaceImports Reader.reExports].
      rewrite bindings_mapi_from, List.map_map.
      cbn [reExportOf Reader.exported]. rewrite List.map_id.
      exact Hdistinct. }
  unfold shimOf; cbn.
  split; [reflexivity|].
  split; [apply map_mapi_from_const; reflexivity|].
  split; [apply NoDup_bindings|].
  split; [reflexivity|].
  split; [apply map_mapi_from_const; reflexivity|].
  split; [reflexivity|].
  split; [reflexivity|].
  rewrite List.map_map; cbn; apply List.map_id.
Qed.

Lemma shim_statements_witness :
  exists s : Reader.Shim,
    Reader.read
      (generateWasmInitCode
         [ {| from := "m1"; names := ["a"; "b"] |};
           {| from := "m2"; names := ["c"] |} ]
         ["add"] "sample.wasm")
    = Some s
    /\ Reader.namespaceImports s
       = [ {| Reader.binding := "import0"; Reader.specifier := "m1" |};
           {| Reader.binding := "import1"; Reader.specifier := "m2" |} ]
    /\ Reader.importObject s
       = [ {| Reader.moduleKey := "m1";
              Reader.properties :=
                [ {| Reader.key := "a"; Reader.value := ["import0"; "a"] |};
                  {| Reader.key := "b"; Reader.value := ["import0"; "b"] |} ]
           |};
           {| Reader.moduleKey := "m2";
              Reader.properties :=
                [ {| Reader.key := "c"; Reader.value := ["import1"; "c"] |} ]
           |} ]
    /\ Reader.url s = "sample.wasm"
    /\ Reader.reExports s
       = [ {| Reader.exported := "add";
              Reader.initializer := ["wasmModule"; "add"] |} ].
Proof.
  destruct (shim_statements
              [ {| from := "m1"; names := ["a"; "b"] |};
                {| from := "m2"; names := ["c"] |} ]
              ["add"] "sample.wasm" eq_refl)
    as (s & Hread & Himports & _ & _ & Hobject & _ & Hurl & Hexports & _).
  exists s. split; [exact Hread|].
  split; [exact Himports|]. split; [exact Hobject|].
  split; [exact Hurl | exact Hexports].
Defined.

(** C3, as the claim has it, fails where a name cannot be written as it
    is.  The imported name [runtime.wasmExit] is mapped to
    [import0.runtime.wasmExit], the member [wasmExit] of the member
    [runtime] of the binding, and not to the member of the same name of
    the binding.  With the export name [my-export], [delete] or
    [wasmModule], with two exports of one name, and with the module name
    or the URL [it's], what is generated is no module that could be read;
    under the module name [__proto__] the import object is given no
    property. *)
Lemma names_are_written_unescaped :
  (exists s : Reader.Shim,
      Reader.read
        (generateWasmInitCode
           [ {| from := "gojs"; names := ["runtime.wasmExit"] |} ] []
           "main.wasm")
      = Some s
      /\ Reader.importObject s
         = [ {| Reader.moduleKey := "gojs";
                Reader.properties :=
                  [ {| Reader.key := "runtime.wasmExit";
                       Reader.value := ["import0"; "runtime"; "wasmExit"] |} ]
             |} ]
      /\ JsString.mapi entryOf
           [ {| from := "gojs"; names := ["runtime.wasmExit"] |} ]
         = [ {| Reader.moduleKey := "gojs";
                Reader.properties :=
                  [ {| Reader.key := "runtime.wasmExit";
                       Reader.value := ["import0"; "runtime.wasmExit"] |} ]
             |} ])
  /\ Reader.read (generateWasmInitCode [] ["my-export"] "main.wasm") = None
  /\ Reader.read (generateWasmInitCode [] ["delete"] "main.wasm") = None
  /\ Reader.read (generateWasmInitCode [] ["wasmModule"] "main.wasm") = None
  /\ Reader.read (generateWasmInitCode [] ["run"; "run"] "main.wasm") = None
  /\ Reader.read (generateWasmInitCode [] [] "it's") = None
  /\ Reader.read
       (generateWasmInitCode [ {| from := "it's"; names := ["f"] |} ] []
                             "main.wasm")
     = None
  /\ Reader.read
       (generateWasmInitCode [ {| from := "__proto__"; names := ["f"] |} ] []
                             "main.wasm")
     = None.
Proof.
  split.
  - eexists. split; [vm_compute; reflexivity|].
    split; vm_compute; reflexivity.
  - repeat split; vm_compute; reflexivity.
Qed.

(** C4, as the code has it.  Take a resolve+load cycle whose decision is
    [External] and which returns a shim.  [resolveId] has derived the
    name ["<base name without .wasm>-<hash>.wasm"], where [hash] is the
    first 8 hexadecimal digits of the MD5 digest of the resolved path, and
    has stored it as [meta.wasmPath] of the resolution object it was
    handed, exactly if [maxFileSize > 0].  [load] asks [this.resolve]
    anew and registers the asset under [meta.wasmPath] of the object it
    is answered with, and under the plain base name of the path where
    that is missing or empty: so the asset bears the derived name if
    [maxFileSize > 0] and [load] is answered with the object that
    [resolveId] wrote to, and otherwise the name that the other object
    carries, or the base name.  No name depends on the file's bytes. *)
Theorem asset_file_name (platform : Rollup.Platform) (p : Plugin)
    (source : string) (importer : option string) (w w' : Rollup.World)
    (ref : nat) (r : Rollup.ResolvedId) (n : N) (code : string) :
  Rollup.this_resolve platform source importer (Some true)
    = Returned (Some ref) ->
  Rollup.heap w !! ref = Some r ->
  Rollup.fs_statSync_size platform (Rollup.id r) = Returned n ->
  placement p (JsNumber.ofN n) = External ->
  resolveThenLoad platform p source importer w = (Returned (Some code), w') ->
  exists ref' r' bytes hash info,
    Rollup.this_resolve platform (Rollup.id r) None None
      = Returned (Some ref')
    /\ Rollup.heap w !! ref' = Some r'
    /\ Rollup.fs_readFile platform (Rollup.id r) = Returned bytes
    /\ hash = JsString.slice0 8 (Md5.hexDigest (Rollup.id r))
    /\ String.length hash = 8%nat
    /\ isHex hash = true
    /\ let derived := Path.basename (Rollup.id r) (Some ".wasm")
                      +:+ "-" +:+ hash +:+ ".wasm" in
       let assetFileName :=
         if Nat.eqb ref' ref && JsNumber.gt (maxFileSize p) JsNumber.zero
         then derived
         else orElse (wasmPath r') (Path.basename (Rollup.id r) None) in
       Rollup.heap w' !! ref
       = Some (if JsNumber.gt (maxFileSize p) JsNumber.zero
               then withWasmPath r derived else r)
       /\ Rollup.emitted w'
          = (Rollup.emitted w ++ [(assetFileName, bytes)])%list
       /\ code = generateWasmInitCode (imports info) (exports info)
                                      assetFileName.
Proof.
  intros Hres Hheap Hstat Hext Hcycle.
  unfold resolveThenLoad, bind in Hcycle.
  destruct (JsString.endsWith source ".wasm") eqn:Hwasm.
  2: { unfold resolveId in Hcycle. rewrite Hwasm in Hcycle.
       simpl in Hcycle. discriminate Hcycle. }
  rewrite (resolveId_wasm platform p source importer w ref r n
             Hwasm Hres Hheap Hstat) in Hcycle.
  destruct (load_success platform p _ _ _ _ Hcycle)
    as (_ & n' & bytes & m & info & Hstat' & Hread & _ & _ & Hsame & Hcases).
  rewrite Hstat in Hstat'. injection Hstat' as <-.
  unfold placement in Hext.
  destruct (shouldInline p (JsNumber.ofN n)) eqn:Hin; [discriminate|].
  destruct Hcases
    as [(Habsurd & _) | (_ & ref' & r1 & Hr & Hh & _ & Hcode & Hev)];
    [discriminate|].
  destruct (Md5Facts.hexDigest_prefix (Rollup.id r)) as [Hlen Hhex].
  assert (Hguard : exceedsLimit p (JsNumber.ofN n)
                   = JsNumber.gt (maxFileSize p) JsNumber.zero).
  { destruct (JsNumber.gt (maxFileSize p) JsNumber.zero) eqn:Hpos.
    - apply (external_exceedsLimit p n Hin Hpos).
    - unfold exceedsLimit. rewrite Hpos. reflexivity. }
  simpl in Hh, Hsame. rewrite Hguard in Hh, Hsame.
  fold (hashedFileName (Rollup.id r)).
  assert (Hobject :
    exists r',
      Rollup.heap w !! ref' = Some r'
      /\ orElse (wasmPath r1) (Path.basename (Rollup.id r) None)
         = if Nat.eqb ref' ref && JsNumber.gt (maxFileSize p) JsNumber.zero
           then hashedFileName (Rollup.id r)
           else orElse (wasmPath r') (Path.basename (Rollup.id r) None)).
  { destruct (Nat.eqb_spec ref' ref) as [-> | Hne]; simpl.
    - exists r. split; [exact Hheap|].
      destruct (JsNumber.gt (maxFileSize p) JsNumber.zero).
      + rewrite lookup_insert_eq in Hh. injection Hh as <-.
        rewrite wasmPath_withWasmPath. apply hashedFileName_truthy.
      + rewrite Hheap in Hh. injection Hh as <-. reflexivity.
    - exists r1. split; [|reflexivity].
      destruct (JsNumber.gt (maxFileSize p) JsNumber.zero);
        [rewrite lookup_insert_ne in Hh by congruence|]; exact Hh. }
  destruct Hobject as (r' & Hheap' & Hname).
  exists ref', r', bytes,
    (JsString.slice0 8 (Md5.hexDigest (Rollup.id r))), info.
  do 6 (split; [first [assumption | reflexivity]|]).
  cbv zeta. fold (hashedFileName (Rollup.id r)).
  simpl in Hcode, Hev. simpl in Hname. simpl.
  rewrite Hname in Hev, Hcode.
  split; [|split; [|exact Hcode]].
  - rewrite Hsame.
    destruct (JsNumber.gt (maxFileSize p) JsNumber.zero);
      [apply lookup_insert_eq | exact Hheap].
  - unfold Rollup.emitted. rewrite Hev. simpl.
    rewrite !omap_app. simpl. rewrite app_nil_r. reflexivity.
Qed.

Lemma asset_file_name_witness :
  exists bytes hash,
    Rollup.fs_readFile Sample.platform Sample.id = Returned bytes
    /\ hash = JsString.slice0 8 (Md5.hexDigest Sample.id)
    /\ String.length hash = 8%nat
    /\ isHex hash = true
    /\ Rollup.emitted
         (snd (resolveThenLoad Sample.platform Sample.browserSmallLimit
                 Sample.source Sample.importer Sample.world))
       = [("sample" +:+ "-" +:+ hash +:+ ".wasm", bytes)].
Proof.
  destruct (resolveThenLoad Sample.platform Sample.browserSmallLimit
              Sample.source Sample.importer Sample.world)
    as [[[code|]|message] w'] eqn:Hcycle;
    try (vm_compute in Hcycle; discriminate Hcycle).
  destruct (asset_file_name Sample.platform Sample.browserSmallLimit
              Sample.source Sample.importer Sample.world w' 0%nat
              {| Rollup.id := Sample.id; Rollup.meta := None |} 47%N code
              eq_refl eq_refl eq_refl eq_refl Hcycle)
    as (ref' & r' & bytes & hash & info & Hres & _ & Hread & Hhash & Hlen
        & Hhex & _ & Hemitted & _).
  injection Hres as <-.
  exists bytes, hash. repeat split; assumption.
Defined.

(** C4, as the claim has it, fails on the sample in two ways.  Built for
    the browser with [maxFileSize = 0] the decision is [External] and the
    asset is registered as [sample.wasm], a name without any hash.  And
    built with [maxFileSize = 16] by a bundler that answers [load] with
    another object than the one it handed to [resolveId], the decision is
    [External], [resolveId] has stored [sample-87c56fb4.wasm] on its
    object, and the asset is registered as [sample.wasm] all the same. *)
Lemma external_asset_has_no_hash :
  hashedFileName Sample.id = "sample-87c56fb4.wasm"
  /\ (placement Sample.browserNeverInline (JsNumber.ofN 47) = External
      /\ exists code w',
          resolveThenLoad Sample.platform Sample.browserNeverInline
            Sample.source Sample.importer Sample.world
          = (Returned (Some code), w')
          /\ Rollup.emitted w' = [("sample.wasm", Sample.bytes)])
  /\ (placement Sample.browserSmallLimit (JsNumber.ofN 47) = External
      /\ exists code w',
          resolveThenLoad separateObjectsPlatform Sample.browserSmallLimit
            Sample.source Sample.importer separateObjectsWorld
          = (Returned (Some code), w')
          /\ (wasmPath <$> Rollup.heap w' !! 0%nat)
             = Some (Some "sample-87c56fb4.wasm")
          /\ Rollup.emitted w' = [("sample.wasm", Sample.bytes)]).
Proof.
  split; [vm_compute; reflexivity|]. split.
  - split; [reflexivity|].
    eexists _, _. split; vm_compute; reflexivity.
  - split; [reflexivity|].
    eexists _, _. split; [vm_compute; reflexivity|].
    split; vm_compute; reflexivity.
Qed.

(** C5, as the code has it.  [resolveId] derives the asset file name, and
    stores it as [meta.wasmPath] of the resolution object, exactly when
    [maxFileSize > 0] and the file is larger than [maxFileSize], whatever
    [targetEnv] is; so it does so for the node target too, where the
    decision is [Inline] and the name is never used.  [load] calls
    [emitFile] for nothing when the decision is [Inline]; when it is
    [External] and [load] returns a shim, the last thing [load] has done
    is to register the file's bytes under the very name the shim holds. *)
Theorem asset_name_derivation (platform : Rollup.Platform) (p : Plugin) :
  (forall source importer w ref r n,
      JsString.endsWith source ".wasm" = true ->
      Rollup.this_resolve platform source importer (Some true)
        = Returned (Some ref) ->
      Rollup.heap w !! ref = Some r ->
      Rollup.fs_statSync_size platform (Rollup.id r) = Returned n ->
      exists w1,
        resolveId platform p source importer w
        = (Returned (ResolveId (Rollup.id r)), w1)
        /\ (Rollup.heap w1 !! ref) ≫= wasmPath
           = if exceedsLimit p (JsNumber.ofN n)
             then Some (hashedFileName (Rollup.id r))
             else wasmPath r)
  /\ (forall id w n,
        Rollup.fs_statSync_size platform id = Returned n ->
        placement p (JsNumber.ofN n) = Inline ->
        Rollup.emitted (snd (load platform p id w)) = Rollup.emitted w)
  /\ (forall id w w' code n,
        load platform p id w = (Returned (Some code), w') ->
        Rollup.fs_statSync_size platform id = Returned n ->
        placement p (JsNumber.ofN n) = External ->
        exists fileName bytes info before,
          Rollup.fs_readFile platform id = Returned bytes
          /\ Rollup.events w'
             = (before ++ [Rollup.EmitFile fileName bytes])%list
          /\ Rollup.emitted w'
             = (Rollup.emitted w ++ [(fileName, bytes)])%list
          /\ code = generateWasmInitCode (imports info) (exports info)
                                         fileName).
Proof.
  split; [|split].
  - intros source importer w ref r n Hwasm Hres Hheap Hstat.
    eexists. split.
    + apply (resolveId_wasm platform p source importer w ref r n);
        assumption.
    + simpl. destruct (exceedsLimit p (JsNumber.ofN n)).
      * rewrite lookup_insert_eq. simpl. apply wasmPath_withWasmPath.
      * rewrite Hheap. reflexivity.
  - intros id w n Hstat Hinline. apply load_inline_emits_nothing.
    intros n' Hstat'. rewrite Hstat in Hstat'. injection Hstat' as <-.
    unfold placement in Hinline.
    destruct (shouldInline p (JsNumber.ofN n)); [reflexivity|discriminate].
  - intros id w w' code n Hload Hstat Hext.
    destruct (load_success platform p id w w' code Hload)
      as (_ & n' & bytes & m & info & Hstat' & Hread & _ & _ & _ & Hcases).
    rewrite Hstat in Hstat'. injection Hstat' as <-.
    unfold placement in Hext.
    destruct Hcases
      as [(Hin & _) | (_ & ref & r & _ & _ & _ & Hcode & Hev)];
      [rewrite Hin in Hext; discriminate|].
    exists (orElse (wasmPath r) (Path.basename id None)), bytes, info.
    eexists. split; [exact Hread|]. split; [|split; [|exact Hcode]].
    + rewrite Hev.
      change [Rollup.StatSync id; Rollup.ReadFile id None;
              Rollup.Compile bytes; Rollup.Resolve id None None;
              Rollup.ReadFile id None;
              Rollup.EmitFile (orElse (wasmPath r) (Path.basename id None))
                              bytes]
        with ([Rollup.StatSync id; Rollup.ReadFile id None;
               Rollup.Compile bytes; Rollup.Resolve id None None;
               Rollup.ReadFile id None]
              ++ [Rollup.EmitFile
                    (orElse (wasmPath r) (Path.basename id None)) bytes])%list.
      rewrite app_assoc. reflexivity.
    + rewrite (emitted_events w w' _ Hev). reflexivity.
Qed.

Lemma asset_name_derivation_witness :
  (exists w1,
      resolveId Sample.platform Sample.browserSmallLimit Sample.source
                Sample.importer Sample.world
      = (Returned (ResolveId Sample.id), w1)
      /\ (Rollup.heap w1 !! 0%nat) ≫= wasmPath
         = Some (hashedFileName Sample.id))
  /\ Rollup.emitted
       (snd (load Sample.platform Sample.browserDefault Sample.id
                  Sample.world))
     = []
  /\ (exists code w' before,
        load Sample.platform Sample.browserSmallLimit Sample.id Sample.world
        = (Returned (Some code), w')
        /\ Rollup.events w'
           = (before ++ [Rollup.EmitFile "sample.wasm" Sample.bytes])%list).
Proof.
  destruct (asset_name_derivation Sample.platform Sample.browserSmallLimit)
    as (Hresolve & _ & Hexternal).
  destruct (asset_name_derivation Sample.platform Sample.browserDefault)
    as (_ & Hinline & _).
  split; [|split].
  - apply (Hresolve Sample.source Sample.importer Sample.world 0%nat
             {| Rollup.id := Sample.id; Rollup.meta := None |} 47%N);
      reflexivity.
  - apply (Hinline Sample.id Sample.world 47%N); reflexivity.
  - destruct (load Sample.platform Sample.browserSmallLimit Sample.id
                   Sample.world) as [[[code|]|message] w'] eqn:Hload;
      try (vm_compute in Hload; discriminate Hload).
    destruct (Hexternal Sample.id Sample.world w' code 47%N Hload
                eq_refl eq_refl)
      as (fileName & bytes & info & before & Hread & Hev & Hemitted & _).
    exists code, w', before. split; [reflexivity|].
    injection Hread as <-.
    assert (HfileName : fileName = "sample.wasm").
    { assert (Hw : Rollup.emitted w' = [("sample.wasm", Sample.bytes)]).
      { replace w'
          with (snd (load Sample.platform Sample.browserSmallLimit Sample.id
                          Sample.world)) by (rewrite Hload; reflexivity).
        vm_compute. reflexivity. }
      rewrite Hw in Hemitted. injection Hemitted as ->. reflexivity. }
    rewrite <- HfileName. exact Hev.
Defined.

(** C5, as the claim has it, fails on the sample: built for the node
    target with a limit of 16 bytes, the decision for the 47-byte sample
    is [Inline], and yet [resolveId] has derived an asset file name and
    stored it on the resolution object. *)
Lemma node_cycle_derives_a_name :
  Rollup.fs_statSync_size Sample.platform Sample.id = Returned 47%N
  /\ placement Sample.nodeSmallLimit (JsNumber.ofN 47) = Inline
  /\ exists w1,
       resolveId Sample.platform Sample.nodeSmallLimit Sample.source
                 Sample.importer Sample.world
       = (Returned (ResolveId Sample.id), w1)
       /\ (Rollup.heap w1 !! 0%nat) ≫= wasmPath
          = Some "sample-87c56fb4.wasm".
Proof.
  split; [reflexivity|]. split; [reflexivity|].
  eexists. split; vm_compute; reflexivity.
Qed.

(** C6.  When the file can be read, [createBase64UriForWasm] returns
    ["data:application/wasm;base64,"] followed by a payload, and
    base64-decoding the payload gives back the file's bytes, byte for
    byte.  The same holds of the URL inside the shim of every [load] whose
    decision is [Inline]. *)
Theorem inline_uri_round_trip (platform : Rollup.Platform)
    (filePath : string) (bytes : list Byte.byte) :
  Rollup.fs_readFile platform filePath = Returned bytes ->
  (forall w, exists payload,
      fst (createBase64UriForWasm platform filePath w)
      = Returned ("data:application/wasm;base64," +:+ payload)
      /\ payload = Base64.encode bytes
      /\ Base64.decode payload = Some bytes)
  /\ (forall p w w' code n,
        load platform p filePath w = (Returned (Some code), w') ->
        Rollup.fs_statSync_size platform filePath = Returned n ->
        placement p (JsNumber.ofN n) = Inline ->
        exists info payload,
          code = generateWasmInitCode (imports info) (exports info)
                   ("data:application/wasm;base64," +:+ payload)
          /\ Base64.decode payload = Some bytes).
Proof.
  intros Hread. split.
  - intros w. exists (Base64.encode bytes).
    unfold createBase64UriForWasm, tryCatch, bind, readFileBase64, perform,
      ret.
    rewrite Hread. simpl.
    repeat split. apply Base64Facts.decode_encode.
  - intros p w w' code n Hload Hstat Hinline.
    destruct (load_success platform p filePath w w' code Hload)
      as (_ & n' & bytes' & m & info & Hstat' & Hread' & _ & _ & _ & Hcases).
    rewrite Hstat in Hstat'. injection Hstat' as <-.
    rewrite Hread in Hread'. injection Hread' as <-.
    unfold placement in Hinline.
    destruct Hcases as [(_ & Hcode & _) | (Hext & _)];
      [|rewrite Hext in Hinline; discriminate].
    exists info, (Base64.encode bytes).
    split; [exact Hcode|apply Base64Facts.decode_encode].
Qed.

Lemma inline_uri_round_trip_witness :
  exists payload,
    fst (createBase64UriForWasm Sample.platform Sample.id Sample.world)
    = Returned ("data:application/wasm;base64," +:+ payload)
    /\ payload = Base64.encode Sample.bytes
    /\ Base64.decode payload = Some Sample.bytes.
Proof.
  apply (inline_uri_round_trip Sample.platform Sample.id Sample.bytes).
  reflexivity.
Defined.

(** C7, as the code has it.  A [load] that returns a shim has read the
    file exactly twice: once in [parseWasm] and once more for the
    delivery, as base64 text in [createBase64UriForWasm] when the decision
    is [Inline], as bytes for [emitFile] when it is [External]; in the
    latter case the second read follows the compilation, and the
    registration follows the read.  The two steps work on separate reads,
    not on one shared buffer. *)
Theorem load_reads_file_twice (platform : Rollup.Platform) (p : Plugin)
    (id : string) (w w' : Rollup.World) (code : string) :
  load platform p id w = (Returned (Some code), w') ->
  exists n bytes,
    Rollup.fs_statSync_size platform id = Returned n
    /\ Rollup.fs_readFile platform id = Returned bytes
    /\ Rollup.fileReads id w'
       = (Rollup.fileReads id w
          ++ [None; match placement p (JsNumber.ofN n) with
                    | Inline => Some "base64"
                    | External => None
                    end])%list
    /\ List.length (Rollup.fileReads id w')
       = (List.length (Rollup.fileReads id w) + 2)%nat
    /\ (placement p (JsNumber.ofN n) = External ->
        exists fileName,
          Rollup.events w'
          = (Rollup.events w
             ++ [Rollup.StatSync id; Rollup.ReadFile id None;
                 Rollup.Compile bytes; Rollup.Resolve id None None;
                 Rollup.ReadFile id None;
                 Rollup.EmitFile fileName bytes])%list).
Proof.
  intros Hload.
  destruct (load_success platform p id w w' code Hload)
    as (_ & n & bytes & m & info & Hstat & Hread & _ & _ & _ & Hcases).
  exists n, bytes. split; [exact Hstat|]. split; [exact Hread|].
  assert (Hreads :
            Rollup.fileReads id w'
            = (Rollup.fileReads id w
               ++ [None; match placement p (JsNumber.ofN n) with
                         | Inline => Some "base64"
                         | External => None
                         end])%list).
  { unfold placement.
    destruct Hcases
      as [(Hin & _ & Hev) | (Hin & ref & r & _ & _ & _ & _ & Hev)];
      rewrite Hin, (fileReads_events id w w' _ Hev);
      unfold Rollup.fileReads; simpl; rewrite String.eqb_refl; reflexivity. }
  split; [exact Hreads|]. split.
  - rewrite Hreads, List.length_app. reflexivity.
  - unfold placement. intros Hext.
    destruct Hcases
      as [(Hin & _) | (_ & ref & r & _ & _ & _ & _ & Hev)].
    + rewrite Hin in Hext. discriminate Hext.
    + eexists. exact Hev.
Qed.

Lemma load_reads_file_twice_witness :
  exists code w',
    load Sample.platform Sample.browserSmallLimit Sample.id Sample.world
    = (Returned (Some code), w')
    /\ Rollup.fileReads Sample.id w' = [None; None].
Proof.
  destruct (load Sample.platform Sample.browserSmallLimit Sample.id
                 Sample.world) as [[[code|]|message] w'] eqn:Hload;
    try (vm_compute in Hload; discriminate Hload).
  exists code, w'. split; [reflexivity|].
  destruct (load_reads_file_twice Sample.platform Sample.browserSmallLimit
              Sample.id Sample.world w' code Hload)
    as (n & bytes & Hstat & _ & Hreads & _).
  injection Hstat as <-. exact Hreads.
Defined.

(** C7, as the claim has it, fails on the sample: loaded inline, the file
    is read twice, once as bytes and once as base64 text. *)
Lemma sample_is_read_twice :
  exists code w',
    load Sample.platform Sample.nodeDefault Sample.id Sample.world
    = (Returned (Some code), w')
    /\ Rollup.fileReads Sample.id w' = [None; Some "base64"]
    /\ List.length (Rollup.fileReads Sample.id w') = 2%nat.
Proof.
  eexists _, _. split; [vm_compute; reflexivity|].
  split; vm_compute; reflexivity.
Qed.

(** C8.  When the bytes of the file are not a module the engine compiles,
    [parseWasm] throws an error whose message wraps the engine's; [load]
    returns no shim and calls [emitFile] for nothing, and the plugin
    context's [error] is called exactly once, with a message that wraps
    the cause in turn. *)
Theorem malformed_binary_is_reported (platform : Rollup.Platform)
    (p : Plugin) (id : string) (bytes : list Byte.byte) (cause : string)
    (w : Rollup.World) :
  JsString.endsWith id ".wasm" = true ->
  Rollup.fs_readFile platform id = Returned bytes ->
  Rollup.WebAssembly_compile platform bytes = Thrown cause ->
  fst (parseWasm platform id w)
  = Thrown ("Failed to parse WASM file: " +:+ cause)
  /\ exists message,
       fst (load platform p id w) = Thrown message
       /\ Rollup.reported (snd (load platform p id w))
          = (Rollup.reported w ++ [message])%list
       /\ Rollup.emitted (snd (load platform p id w)) = Rollup.emitted w
       /\ (forall n, Rollup.fs_statSync_size platform id = Returned n ->
             message = "Failed to load WASM: Failed to parse WASM file: "
                       +:+ cause).
Proof.
  intros Hwasm Hread Hcompile. split.
  { unfold parseWasm, tryCatch, bind, readFile, compile, perform, throw.
    rewrite Hread; simpl. rewrite Hcompile; simpl. reflexivity. }
  run_hook. rewrite Hwasm; simpl.
  destruct (Rollup.fs_statSync_size platform id) as [n|e]; simpl.
  - rewrite Hread; simpl. rewrite Hcompile; simpl.
    exists ("Failed to load WASM: Failed to parse WASM file: " +:+ cause).
    destruct (shouldInline p (JsNumber.ofN n)); simpl;
      rewrite !reported_record, !emitted_record; simpl;
      rewrite ?app_nil_r; auto.
  - exists ("Failed to load WASM: " +:+ e).
    rewrite !reported_record, !emitted_record; simpl.
    rewrite ?app_nil_r. repeat split. intros n. discriminate.
Qed.

Lemma malformed_binary_is_reported_witness :
  fst (parseWasm Sample.brokenPlatform Sample.brokenId Sample.world)
  = Thrown ("Failed to parse WASM file: "
            +:+ "WebAssembly.compile(): expected 4 bytes, fell off end")
  /\ exists message,
       fst (load Sample.brokenPlatform Sample.browserDefault Sample.brokenId
                 Sample.world) = Thrown message
       /\ Rollup.reported
            (snd (load Sample.brokenPlatform Sample.browserDefault
                       Sample.brokenId Sample.world))
          = [message].
Proof.
  destruct (malformed_binary_is_reported Sample.brokenPlatform
              Sample.browserDefault Sample.brokenId
              [Byte.x00; Byte.x61; Byte.x73; Byte.x6d]
              "WebAssembly.compile(): expected 4 bytes, fell off end"
              Sample.world eq_refl eq_refl eq_refl)
    as (Hparse & message & Hload & Hreported & _).
  split; [exact Hparse|]. exists message. split; [exact Hload|exact Hreported].
Defined.

(** [wasmPlugin()] constructs the plugin of the defaults. *)
Lemma wasmPlugin_defaults :
  wasmPlugin {| opt_maxFileSize := JsUndefined; opt_targetEnv := JsUndefined |}
  = Returned {| pluginName := "rollup-plugin-wasm";
                maxFileSize := JsNumber.ofZ 14336;
                targetEnv := "node" |}.
Proof. reflexivity. Qed.

(** Unless [maxFileSize] is [NaN], [wasmPlugin] throws exactly when
    [targetEnv] is neither of the two names or [maxFileSize] is not a
    number that is at least zero. *)
Lemma wasmPlugin_validates (options : WasmPluginOptions) :
  let size := withDefault (JsNumber (JsNumber.ofZ 14336))
                          (opt_maxFileSize options) in
  let env := withDefault (JsString "node") (opt_targetEnv options) in
  size <> JsNumber JsNumber.NaN ->
  (exists message, wasmPlugin options = Thrown message)
  <-> ~ (validTargetEnv env /\ nonNegativeNumber size).
Proof.
  intros size env HNaN. unfold wasmPlugin. fold size env.
  unfold validTargetEnv, nonNegativeNumber.
  destruct env as [| | |x|s|]; simpl;
    try (split; [intros _ [[H|H] _]; discriminate H | eauto]).
  assert (Hs : (s =? "node") || (s =? "browser") = true
               <-> JsString s = JsString "node"
                   \/ JsString s = JsString "browser").
  { rewrite orb_true_iff, !String.eqb_eq. split.
    - intros [-> | ->]; auto.
    - intros [H | H]; injection H as ->; auto. }
  destruct ((s =? "node") || (s =? "browser")) eqn:Hvalid.
  2: { rewrite <- negb_orb, Hvalid. simpl. split; [|eauto].
       intros _ [H _]. apply Hs in H. discriminate H. }
  rewrite <- negb_orb, Hvalid. simpl.
  assert (Henv : JsString s = JsString "node"
                 \/ JsString s = JsString "browser") by (apply Hs; reflexivity).
  destruct size as [| | |x|t|]; simpl;
    try (split; [intros _ [_ (y & H & _)]; discriminate H | eauto]).
  assert (Hx : x <> JsNumber.NaN) by congruence.
  pose proof (JsNumberFacts.le_zero_negb_lt x Hx) as Hle.
  destruct (JsNumber.lt x JsNumber.zero); simpl in *.
  - split; [|eauto]. intros _ [_ (y & H & Hy)]. injection H as <-.
    congruence.
  - split; [intros [message H]; discriminate H|].
    intros H. exfalso. apply H. split; [exact Henv|]. exists x. auto.
Qed.

(** C9, at the input where the code and the claim part ways:
    [wasmPlugin({ maxFileSize: NaN })] constructs a plugin, although [NaN]
    is not a number that is at least zero. *)
Theorem wasmPlugin_accepts_NaN :
  wasmPlugin {| opt_maxFileSize := JsNumber JsNumber.NaN;
                opt_targetEnv := JsUndefined |}
  = Returned {| pluginName := "rollup-plugin-wasm";
                maxFileSize := JsNumber.NaN;
                targetEnv := "node" |}
  /\ ~ nonNegativeNumber (JsNumber JsNumber.NaN).
Proof.
  split; [reflexivity|].
  intros (x & H & Hle). injection H as <-. discriminate Hle.
Qed.

(** C10.  A specifier or id that does not end in [.wasm] makes both hooks
    return [null], and neither touches the world: nothing is resolved,
    read, emitted or reported. *)
Theorem non_wasm_is_ignored (platform : Rollup.Platform) (p : Plugin)
    (source : string) (importer : option string) (w : Rollup.World) :
  JsString.endsWith source ".wasm" = false ->
  resolveId platform p source importer w = (Returned ResolveNull, w)
  /\ load platform p source w = (Returned None, w).
Proof.
  intros H. unfold resolveId, load. rewrite H. split; reflexivity.
Qed.

Lemma non_wasm_is_ignored_witness :
  resolveId Sample.platform Sample.browserNeverInline "./index.js"
            Sample.importer Sample.world
  = (Returned ResolveNull, Sample.world)
  /\ load Sample.platform Sample.browserNeverInline "./index.js" Sample.world
     = (Returned None, Sample.world).
Proof.
  apply (non_wasm_is_ignored Sample.platform Sample.browserNeverInline
           "./index.js" Sample.importer Sample.world).
  reflexivity.
Defined.

(** ** Further properties of the code *)

(** *** The configuration *)

Lemma gt_negb_le (x y : JsNumber.number) :
  x <> JsNumber.NaN -> y <> JsNumber.NaN ->
  JsNumber.gt x y = negb (JsNumber.le x y).
Proof.
  unfold JsNumber.le, JsNumber.gt, SFleb, SFltb, JsNumber.NaN. intros Hx Hy.
  rewrite (JsNumberFacts.compare_antisym x y).
  destruct (SFcompare x y) as [[]|] eqn:E; simpl; try reflexivity.
  destruct x, y; simpl in E; congruence.
Qed.

(** What [wasmPlugin] has checked when it returns. *)
Lemma wasmPlugin_Returned (options : WasmPluginOptions) (p : Plugin) :
  wasmPlugin options = Returned p ->
  exists x env,
    withDefault (JsNumber (JsNumber.ofZ 14336)) (opt_maxFileSize options)
    = JsNumber x
    /\ withDefault (JsString "node") (opt_targetEnv options) = JsString env
    /\ (env = "node" \/ env = "browser")
    /\ JsNumber.lt x JsNumber.zero = false
    /\ p = {| pluginName := "rollup-plugin-wasm";
              maxFileSize := x;
              targetEnv := env |}.
Proof.
  unfold wasmPlugin.
  destruct (withDefault (JsString "node") (opt_targetEnv options))
    as [| | |y|env|]; simpl; try discriminate.
  destruct (String.eqb env "node") eqn:Hnode; simpl.
  - destruct (withDefault _ (opt_maxFileSize options)) as [| | |x|t|];
      simpl; try discriminate.
    destruct (JsNumber.lt x JsNumber.zero) eqn:Hlt; simpl; try discriminate.
    intros H; injection H as <-. exists x, env.
    apply String.eqb_eq in Hnode. auto 10.
  - destruct (String.eqb env "browser") eqn:Hbrowser; simpl; try discriminate.
    destruct (withDefault _ (opt_maxFileSize options)) as [| | |x|t|];
      simpl; try discriminate.
    destruct (JsNumber.lt x JsNumber.zero) eqn:Hlt; simpl; try discriminate.
    intros H; injection H as <-. exists x, env.
    apply String.eqb_eq in Hbrowser. auto 10.
Qed.

(** X1.  [wasmPlugin(options)] returns a plugin exactly when, after the
    two defaults have stood in for [undefined], [targetEnv] is the string
    ["node"] or ["browser"] and [maxFileSize] is a number for which
    [maxFileSize < 0] is false; the plugin then carries these two values
    as they were given and the name ["rollup-plugin-wasm"]. *)
Theorem wasmPlugin_constructs (options : WasmPluginOptions) (p : Plugin) :
  wasmPlugin options = Returned p
  <-> exists x env,
        withDefault (JsNumber (JsNumber.ofZ 14336)) (opt_maxFileSize options)
        = JsNumber x
        /\ withDefault (JsString "node") (opt_targetEnv options)
           = JsString env
        /\ (env = "node" \/ env = "browser")
        /\ JsNumber.lt x JsNumber.zero = false
        /\ p = {| pluginName := "rollup-plugin-wasm";
                  maxFileSize := x;
                  targetEnv := env |}.
Proof.
  split; [apply wasmPlugin_Returned|].
  intros (x & env & Hsize & Henv & Hvalid & Hlt & ->).
  unfold wasmPlugin. rewrite Hsize, Henv. simpl. rewrite Hlt.
  destruct Hvalid as [-> | ->]; reflexivity.
Qed.

(** X2.  The two checks of [wasmPlugin] are made in the order of the
    source: a [targetEnv] that is neither name is reported as such
    whatever [maxFileSize] is, and the message about [maxFileSize] is
    thrown for a valid [targetEnv] only.  No other error is thrown. *)
Theorem wasmPlugin_checks_targetEnv_first (options : WasmPluginOptions)
    (message : string) :
  wasmPlugin options = Thrown message ->
  let env := withDefault (JsString "node") (opt_targetEnv options) in
  (~ validTargetEnv env /\ message = "targetEnv must be node or browser")
  \/ (validTargetEnv env
      /\ message = "maxFileSize must be a non-negative number").
Proof.
  unfold wasmPlugin, validTargetEnv.
  destruct (withDefault (JsString "node") (opt_targetEnv options))
    as [| | |y|env|]; simpl;
    try (intros H; injection H as <-; left; split;
         [intros [E | E]; discriminate E | reflexivity]).
  destruct (String.eqb env "node") eqn:Hnode; simpl.
  - apply String.eqb_eq in Hnode. subst env.
    destruct (_ || _);
      [|destruct (withDefault _ (opt_maxFileSize options))];
      intros H; try discriminate H; injection H as <-; right; auto.
  - destruct (String.eqb env "browser") eqn:Hbrowser; simpl.
    + apply String.eqb_eq in Hbrowser. subst env.
      destruct (_ || _);
        [|destruct (withDefault _ (opt_maxFileSize options))];
        intros H; try discriminate H; injection H as <-; right; auto.
    + intros H; injection H as <-. left. split; [|reflexivity].
      apply String.eqb_neq in Hnode, Hbrowser.
      intros [E | E]; injection E as ->; congruence.
Qed.

Lemma wasmPlugin_checks_targetEnv_first_witness :
  (~ validTargetEnv JsNull
   /\ "targetEnv must be node or browser" = "targetEnv must be node or browser")
  \/ (validTargetEnv JsNull
      /\ "targetEnv must be node or browser"
         = "maxFileSize must be a non-negative number").
Proof.
  apply (wasmPlugin_checks_targetEnv_first
           {| opt_maxFileSize := JsString "14336"; opt_targetEnv := JsNull |}
           "targetEnv must be node or browser").
  reflexivity.
Defined.

(** *** The placement decision and the guard of [resolveId] *)

(** X3.  For every plugin that [wasmPlugin] constructs, [load] inlines a
    file exactly when [targetEnv] is ["node"], or [maxFileSize] is greater
    than zero and the size is at most [maxFileSize].  A limit that is
    zero, negative zero or [NaN] therefore inlines nothing under
    ["browser"]. *)
Theorem inline_iff_positive_limit (options : WasmPluginOptions) (p : Plugin)
    (size : JsNumber.number) :
  wasmPlugin options = Returned p ->
  shouldInline p size
  = String.eqb (targetEnv p) "node"
    || (JsNumber.gt (maxFileSize p) JsNumber.zero
        && JsNumber.le size (maxFileSize p)).
Proof.
  intros H. apply wasmPlugin_Returned in H.
  destruct H as (x & env & _ & _ & _ & Hlt & ->).
  unfold shouldInline; simpl. rewrite orb_comm. f_equal.
  destruct x as [s | s | | s m e]; try destruct s; try discriminate Hlt;
    try reflexivity.
  destruct size as [s | s | | s m e]; try destruct s; reflexivity.
Qed.

Lemma inline_iff_positive_limit_witness :
  shouldInline {| pluginName := "rollup-plugin-wasm";
                  maxFileSize := JsNumber.NaN;
                  targetEnv := "browser" |} (JsNumber.ofN 47)
  = String.eqb "browser" "node"
    || (JsNumber.gt JsNumber.NaN JsNumber.zero
        && JsNumber.le (JsNumber.ofN 47) JsNumber.NaN).
Proof.
  apply (inline_iff_positive_limit
           {| opt_maxFileSize := JsNumber JsNumber.NaN;
              opt_targetEnv := JsString "browser" |}).
  reflexivity.
Defined.

(** X4.  Where [targetEnv] is not ["node"], the two hooks agree: the
    guard under which [resolveId] derives a file name,
    [maxFileSize > 0 && stats.size > maxFileSize], holds exactly when
    [maxFileSize > 0] and [load] does not inline a file of that size. *)
Theorem hooks_agree_in_browser (p : Plugin) (fileSizeBytes : N) :
  String.eqb (targetEnv p) "node" = false ->
  exceedsLimit p (JsNumber.ofN fileSizeBytes)
  = JsNumber.gt (maxFileSize p) JsNumber.zero
    && negb (shouldInline p (JsNumber.ofN fileSizeBytes)).
Proof.
  intros Hbrowser. unfold exceedsLimit, shouldInline.
  rewrite Hbrowser, orb_false_r.
  destruct (JsNumber.gt (maxFileSize p) JsNumber.zero) eqn:Hpos;
    [|reflexivity].
  rewrite (JsNumberFacts.gt_zero_strictEq _ Hpos). simpl.
  apply gt_negb_le;
    auto using JsNumberFacts.ofN_not_NaN, JsNumberFacts.gt_zero_not_NaN.
Qed.

Lemma hooks_agree_in_browser_witness :
  exceedsLimit Sample.browserSmallLimit (JsNumber.ofN 47)
  = JsNumber.gt (maxFileSize Sample.browserSmallLimit) JsNumber.zero
    && negb (shouldInline Sample.browserSmallLimit (JsNumber.ofN 47)).
Proof.
  apply (hooks_agree_in_browser Sample.browserSmallLimit 47).
  reflexivity.
Defined.

(** *** [resolveId] *)

Lemma withWasmPath_idem (r : Rollup.ResolvedId) (fileName : string) :
  withWasmPath (withWasmPath r fileName) fileName = withWasmPath r fileName.
Proof.
  unfold withWasmPath; simpl. f_equal. f_equal. apply insert_insert_eq.
Qed.

Lemma metaProperty_withWasmPath (r : Rollup.ResolvedId) (fileName key : string) :
  key <> "wasmPath" ->
  metaProperty (withWasmPath r fileName) key = metaProperty r key.
Proof.
  intros Hkey. unfold metaProperty, withWasmPath; simpl.
  rewrite lookup_insert_ne by congruence.
  destruct (Rollup.meta r); simpl; [reflexivity|apply lookup_empty].
Qed.

(** X5.  What a [resolveId] that returns has done.  It returns [null] for
    a specifier that does not end in [.wasm], without a call; it returns
    [undefined] when [this.resolve] answers with no object, after that
    one call; and an id it returns is the [id] of the object that
    [this.resolve] answered with, after [fs.statSync] has found the file
    of that id. *)
Theorem resolveId_returns_the_resolved_id (platform : Rollup.Platform)
    (p : Plugin) (source : string) (importer : option string)
    (w w' : Rollup.World) (result : ResolveIdResult) :
  resolveId platform p source importer w = (Returned result, w') ->
  match result with
  | ResolveNull => JsString.endsWith source ".wasm" = false /\ w' = w
  | ResolveUndefined =>
      JsString.endsWith source ".wasm" = true
      /\ resolve platform source importer (Some true) w = (Returned None, w')
  | ResolveId id =>
      JsString.endsWith source ".wasm" = true
      /\ exists ref r n,
          Rollup.this_resolve platform source importer (Some true)
          = Returned (Some ref)
          /\ Rollup.heap w !! ref = Some r
          /\ id = Rollup.id r
          /\ Rollup.fs_statSync_size platform id = Returned n
          /\ Rollup.events w'
             = (Rollup.events w
                ++ [Rollup.Resolve source importer (Some true);
                    Rollup.StatSync id])%list
  end.
Proof.
  run_hook.
  destruct (JsString.endsWith source ".wasm"); simpl.
  2: { intros H; injection H as <- <-. auto. }
  destruct (Rollup.this_resolve platform source importer (Some true))
    as [[ref|]|e] eqn:Hres; simpl; try discriminate.
  2: { intros H; injection H as <- <-. auto. }
  destruct (Rollup.heap w !! ref) as [r|] eqn:Hheap; simpl.
  2: { intros H; injection H as <- <-. auto. }
  destruct (Rollup.fs_statSync_size platform (Rollup.id r)) as [n|e] eqn:Hstat;
    simpl; try discriminate.
  destruct (exceedsLimit p (JsNumber.ofN n)); simpl;
    intros H; injection H as <- <-; (split; [reflexivity|]);
    exists ref, r, n; repeat split; try assumption; log_normal; reflexivity.
Qed.

Lemma resolveId_returns_the_resolved_id_witness :
  JsString.endsWith Sample.source ".wasm" = true
  /\ exists ref r n,
      Rollup.this_resolve Sample.platform Sample.source Sample.importer
                          (Some true)
      = Returned (Some ref)
      /\ Rollup.heap Sample.world !! ref = Some r
      /\ Sample.id = Rollup.id r
      /\ Rollup.fs_statSync_size Sample.platform Sample.id = Returned n
      /\ Rollup.events
           (snd (resolveId Sample.platform Sample.browserSmallLimit
                           Sample.source Sample.importer Sample.world))
         = ([]
            ++ [Rollup.Resolve Sample.source Sample.importer (Some true);
                Rollup.StatSync Sample.id])%list.
Proof.
  apply (resolveId_returns_the_resolved_id Sample.platform
           Sample.browserSmallLimit Sample.source Sample.importer
           Sample.world
           (snd (resolveId Sample.platform Sample.browserSmallLimit
                           Sample.source Sample.importer Sample.world))
           (ResolveId Sample.id)).
  reflexivity.
Defined.

(** X6.  Whatever [resolveId] is called with and however it ends, it
    creates and removes no resolution object, leaves the [id] of every
    one as it was and, of the properties of [meta], changes none but
    [wasmPath]; its calls are at most one [this.resolve] and one
    [fs.statSync], so it reads and compiles no file, emits nothing and
    reports nothing. *)
Theorem resolveId_frame (platform : Rollup.Platform) (p : Plugin)
    (source : string) (importer : option string) (w : Rollup.World) :
  let w' := snd (resolveId platform p source importer w) in
  (forall ref,
      match Rollup.heap w !! ref, Rollup.heap w' !! ref with
      | Some r, Some r' =>
          Rollup.id r' = Rollup.id r
          /\ forall key, key <> "wasmPath" ->
                         metaProperty r' key = metaProperty r key
      | None, None => True
      | _, _ => False
      end)
  /\ (Rollup.events w' = Rollup.events w
      \/ Rollup.events w'
         = (Rollup.events w
            ++ [Rollup.Resolve source importer (Some true)])%list
      \/ exists id,
          Rollup.events w'
          = (Rollup.events w
             ++ [Rollup.Resolve source importer (Some true);
                 Rollup.StatSync id])%list).
Proof.
  assert (Hsame : forall h : gmap nat Rollup.ResolvedId, forall ref,
             match h !! ref, h !! ref with
             | Some r, Some r' =>
                 Rollup.id r' = Rollup.id r
                 /\ forall key, key <> "wasmPath" ->
                                metaProperty r' key = metaProperty r key
             | None, None => True
             | _, _ => False
             end).
  { intros h ref. destruct (h !! ref); auto. }
  run_hook.
  destruct (JsString.endsWith source ".wasm"); simpl;
    [|split; [apply Hsame|auto]].
  destruct (Rollup.this_resolve platform source importer (Some true))
    as [[ref|]|e]; simpl; try (split; [apply Hsame|auto]).
  destruct (Rollup.heap w !! ref) as [r|] eqn:Hheap; simpl;
    try (split; [apply Hsame|auto]).
  destruct (Rollup.fs_statSync_size platform (Rollup.id r)) as [n|e]; simpl.
  2: { split; [apply Hsame|]. right; right. exists (Rollup.id r).
       log_normal. reflexivity. }
  destruct (exceedsLimit p (JsNumber.ofN n)); simpl.
  2: { split; [apply Hsame|]. right; right. exists (Rollup.id r).
       log_normal. reflexivity. }
  split.
  - intros ref'. destruct (decide (ref' = ref)) as [-> | Hne].
    + rewrite Hheap, lookup_insert_eq. split; [reflexivity|].
      intros key Hkey. apply metaProperty_withWasmPath, Hkey.
    + rewrite lookup_insert_ne by congruence. apply Hsame.
  - right; right. exists (Rollup.id r). log_normal. reflexivity.
Qed.

(** X7.  [resolveId] has no [try]: when it throws, the error is the one
    that [this.resolve] or [fs.statSync] threw, with its message as it
    was; no resolution object has been changed and [this.error] has not
    been called. *)
Theorem resolveId_failure (platform : Rollup.Platform) (p : Plugin)
    (source : string) (importer : option string) (w w' : Rollup.World)
    (message : string) :
  resolveId platform p source importer w = (Thrown message, w') ->
  Rollup.heap w' = Rollup.heap w
  /\ Rollup.reported w' = Rollup.reported w
  /\ (Rollup.this_resolve platform source importer (Some true)
      = Thrown message
      \/ exists ref r,
          Rollup.this_resolve platform source importer (Some true)
          = Returned (Some ref)
          /\ Rollup.heap w !! ref = Some r
          /\ Rollup.fs_statSync_size platform (Rollup.id r)
             = Thrown message).
Proof.
  run_hook.
  destruct (JsString.endsWith source ".wasm"); simpl; try discriminate.
  destruct (Rollup.this_resolve platform source importer (Some true))
    as [[ref|]|e] eqn:Hres; simpl; try discriminate.
  - destruct (Rollup.heap w !! ref) as [r|] eqn:Hheap; simpl;
      try discriminate.
    destruct (Rollup.fs_statSync_size platform (Rollup.id r)) as [n|e]
      eqn:Hstat; simpl.
    + destruct (exceedsLimit p (JsNumber.ofN n)); discriminate.
    + intros H; injection H as <- <-. split; [reflexivity|].
      split; [rewrite !reported_record; simpl; rewrite ?app_nil_r; reflexivity|].
      right. exists ref, r. auto.
  - intros H; injection H as <- <-. split; [reflexivity|].
    split; [rewrite !reported_record; simpl; rewrite ?app_nil_r; reflexivity|].
    left. reflexivity.
Qed.

Lemma resolveId_failure_witness :
  Rollup.heap (snd (resolveId Sample.platform Sample.browserSmallLimit
                              Sample.source Sample.importer staleWorld))
  = Rollup.heap staleWorld
  /\ Rollup.reported
       (snd (resolveId Sample.platform Sample.browserSmallLimit
                       Sample.source Sample.importer staleWorld))
     = Rollup.reported staleWorld
  /\ (Rollup.this_resolve Sample.platform Sample.source Sample.importer
                          (Some true)
      = Thrown "ENOENT: no such file or directory"
      \/ exists ref r,
          Rollup.this_resolve Sample.platform Sample.source Sample.importer
                              (Some true)
          = Returned (Some ref)
          /\ Rollup.heap staleWorld !! ref = Some r
          /\ Rollup.fs_statSync_size Sample.platform (Rollup.id r)
             = Thrown "ENOENT: no such file or directory").
Proof.
  apply (resolveId_failure Sample.platform Sample.browserSmallLimit
           Sample.source Sample.importer staleWorld
           (snd (resolveId Sample.platform Sample.browserSmallLimit
                           Sample.source Sample.importer staleWorld))
           "ENOENT: no such file or directory").
  reflexivity.
Defined.

(** X8.  [resolveId] is idempotent: called again with the same arguments
    on the world that the first call left, it ends the same way and
    leaves every resolution object as the first call left it (the name
    under [meta.wasmPath] is derived from the id alone and is written
    over itself). *)
Theorem resolveId_idempotent (platform : Rollup.Platform) (p : Plugin)
    (source : string) (importer : option string) (w : Rollup.World) :
  let first := resolveId platform p source importer w in
  let second := resolveId platform p source importer (snd first) in
  fst second = fst first
  /\ Rollup.heap (snd second) = Rollup.heap (snd first).
Proof.
  run_hook.
  destruct (JsString.endsWith source ".wasm"); simpl; [|auto].
  destruct (Rollup.this_resolve platform source importer (Some true))
    as [[ref|]|e]; simpl; auto.
  destruct (Rollup.heap w !! ref) as [r|] eqn:Hheap; simpl.
  2: { rewrite Hheap. simpl. auto. }
  destruct (Rollup.fs_statSync_size platform (Rollup.id r)) as [n|e] eqn:Hstat;
    simpl.
  2: { rewrite Hheap; simpl. rewrite Hstat; simpl. auto. }
  destruct (exceedsLimit p (JsNumber.ofN n)) eqn:Hexceeds; simpl.
  - rewrite lookup_insert_eq; simpl. rewrite Hstat; simpl.
    rewrite Hexceeds; simpl. split; [reflexivity|].
    rewrite withWasmPath_idem. apply insert_insert_eq.
  - rewrite Hheap; simpl. rewrite Hstat; simpl. rewrite Hexceeds; simpl.
    auto.
Qed.

(** *** [load] *)

(** X9.  A [load] of an id that ends in [.wasm] never returns [null]: it
    returns a shim, having reported nothing, or it throws, and then it
    has called [this.error] exactly once, with the message it throws,
    which begins with [Failed to load WASM: ].  Either way it has changed
    no resolution object. *)
Theorem load_reports_every_failure (platform : Rollup.Platform) (p : Plugin)
    (id : string) (w : Rollup.World) :
  JsString.endsWith id ".wasm" = true ->
  let w' := snd (load platform p id w) in
  Rollup.heap w' = Rollup.heap w
  /\ match fst (load platform p id w) with
     | Returned (Some _) => Rollup.reported w' = Rollup.reported w
     | Returned None => False
     | Thrown message =>
         Rollup.reported w' = (Rollup.reported w ++ [message])%list
         /\ exists cause, message = "Failed to load WASM: " +:+ cause
     end.
Proof.
  intros Hwasm. run_hook. rewrite Hwasm; simpl.
  destruct (Rollup.fs_statSync_size platform id) as [n|e]; simpl.
  2: { rewrite !reported_record; simpl. rewrite ?app_nil_r. eauto. }
  destruct (shouldInline p (JsNumber.ofN n)); simpl;
    destruct (Rollup.fs_readFile platform id) as [bytes|e]; simpl;
    try destruct (Rollup.WebAssembly_compile platform bytes) as [m|e]; simpl;
    try destruct (introspect m) as [info|e]; simpl;
    try destruct (Rollup.parseSettlesFirst platform); simpl;
    try destruct (Rollup.this_resolve platform id None None) as [[ref|]|e];
    simpl;
    try destruct (Rollup.heap w !! ref) as [r|]; simpl;
    try destruct (Rollup.this_emitFile platform _ _) as [[]|e]; simpl;
    rewrite !reported_record; simpl; rewrite ?app_nil_r; eauto.
Qed.

Lemma load_reports_every_failure_witness :
  Rollup.heap (snd (load unreadablePlatform Sample.browserDefault Sample.id
                         Sample.world))
  = Rollup.heap Sample.world
  /\ Rollup.reported (snd (load unreadablePlatform Sample.browserDefault
                                Sample.id Sample.world))
     = ["Failed to load WASM: Failed to parse WASM file: EACCES: permission denied"].
Proof.
  destruct (load_reports_every_failure unreadablePlatform
              Sample.browserDefault Sample.id Sample.world eq_refl)
    as (Hheap & Hreported & _).
  split; [exact Hheap | exact Hreported].
Defined.

(** The reads that a log holds, one call later. *)
Lemma readsSoFar_record (e : Rollup.Event) (w : Rollup.World) :
  Unstable.readsSoFar (Rollup.record e w)
  = match e with
    | Rollup.ReadFile _ _ => S (Unstable.readsSoFar w)
    | _ => Unstable.readsSoFar w
    end.
Proof.
  unfold Unstable.readsSoFar, Rollup.record; simpl.
  rewrite List.filter_app, List.length_app.
  destruct e; simpl; lia.
Qed.

(** Over a file system that never changes, the [load] of [Unstable] is
    [load]. *)
Lemma load_stable (platform : Rollup.Platform) (p : Plugin) (id : string)
    (w : Rollup.World) :
  Unstable.load platform (fun _ => Rollup.fs_readFile platform) p id w
  = load platform p id w.
Proof. reflexivity. Qed.

(** X10.  [load] returns a shim exactly when the id ends in [.wasm],
    [fs.statSync] finds the file, the read of [parseWasm] succeeds, the
    engine compiles the bytes of that read, the second read of the file
    (the one of [createBase64UriForWasm], or the one for the asset) succeeds
    as well and, where the file is not inlined, [this.resolve] answers
    with an object and [this.emitFile] accepts the bytes of the second
    read.  The file system may answer the two reads differently; the loop
    that groups the imports adds no way to fail. *)
Theorem load_returns_iff (platform : Rollup.Platform)
    (reads : nat -> string -> Outcome (list Byte.byte)) (p : Plugin)
    (id : string) (w : Rollup.World) :
  (exists code w',
      Unstable.load platform reads p id w = (Returned (Some code), w'))
  <-> JsString.endsWith id ".wasm" = true
      /\ exists n wasmBinary m source,
          Rollup.fs_statSync_size platform id = Returned n
          /\ reads (Unstable.readsSoFar w) id = Returned wasmBinary
          /\ Rollup.WebAssembly_compile platform wasmBinary = Returned m
          /\ reads (S (Unstable.readsSoFar w)) id = Returned source
          /\ (shouldInline p (JsNumber.ofN n) = true
              \/ exists ref r,
                  Rollup.this_resolve platform id None None
                  = Returned (Some ref)
                  /\ Rollup.heap w !! ref = Some r
                  /\ Rollup.this_emitFile platform
                       (orElse (wasmPath r) (Path.basename id None)) source
                     = Returned tt).
Proof.
  split.
  - intros (code & w' & H). revert H. run_unstable.
    destruct (JsString.endsWith id ".wasm"); simpl; [|discriminate].
    split; [reflexivity|]. revert H.
    destruct (Rollup.fs_statSync_size platform id) as [n|e]; simpl;
      [|discriminate].
    rewrite !readsSoFar_record.
    destruct (reads (Unstable.readsSoFar w) id) as [wasmBinary|e]; simpl.
    2: { destruct (shouldInline p (JsNumber.ofN n)); simpl;
         rewrite ?readsSoFar_record;
         try destruct (reads (S (Unstable.readsSoFar w)) id); simpl;
         try destruct (Rollup.parseSettlesFirst platform); discriminate. }
    destruct (Rollup.WebAssembly_compile platform wasmBinary) as [m|e]
      eqn:Hcompile; simpl.
    2: { destruct (shouldInline p (JsNumber.ofN n)); simpl;
         rewrite ?readsSoFar_record;
         try destruct (reads (S (Unstable.readsSoFar w)) id); simpl;
         try destruct (Rollup.parseSettlesFirst platform); discriminate. }
    rewrite introspect_groups; simpl.
    destruct (shouldInline p (JsNumber.ofN n)) eqn:Hin; simpl.
    + rewrite !readsSoFar_record.
      destruct (reads (S (Unstable.readsSoFar w)) id) as [source|e]
        eqn:Hagain; simpl; [|discriminate].
      intros _. exists n, wasmBinary, m, source. auto 10.
    + destruct (Rollup.this_resolve platform id None None)
        as [[ref|]|e] eqn:Hres; simpl; try discriminate.
      destruct (Rollup.heap w !! ref) as [r|] eqn:Hheap; simpl;
        [|discriminate].
      rewrite !readsSoFar_record.
      destruct (reads (S (Unstable.readsSoFar w)) id) as [source|e]
        eqn:Hagain; simpl; [|discriminate].
      destruct (Rollup.this_emitFile platform _ source) as [[]|e] eqn:Hemit;
        simpl; [|discriminate].
      intros _. exists n, wasmBinary, m, source.
      do 4 (split; [first [reflexivity | assumption]|]).
      right. exists ref, r. auto.
  - intros (Hwasm & n & wasmBinary & m & source & Hstat & Hread & Hcompile
            & Hagain & Hcase).
    run_unstable. rewrite Hwasm; simpl. rewrite Hstat; simpl.
    rewrite !readsSoFar_record, Hread; simpl. rewrite Hcompile; simpl.
    rewrite introspect_groups; simpl.
    destruct (shouldInline p (JsNumber.ofN n)) eqn:Hin; simpl.
    + rewrite !readsSoFar_record, Hagain; simpl. eauto.
    + destruct Hcase as [Hcase | (ref & r & Hres & Hheap & Hemit)];
        [discriminate Hcase|].
      rewrite Hres, Hheap; simpl.
      rewrite !readsSoFar_record, Hagain; simpl.
      simpl in Hemit. rewrite Hemit; simpl. eauto.
Qed.

(** X11.  The shim that [load] returns is [generateWasmInitCode] of the
    compiled module's imports, grouped by module in first-seen order, of
    its export names in the order of the export section, and of one URL:
    the data URI of the file's bytes when nothing has been emitted, and
    otherwise the very file name under which the file's bytes have just
    been emitted. *)
Theorem load_shim_contents (platform : Rollup.Platform) (p : Plugin)
    (id : string) (w w' : Rollup.World) (code : string) :
  load platform p id w = (Returned (Some code), w') ->
  exists bytes m wasmUrl,
    Rollup.fs_readFile platform id = Returned bytes
    /\ Rollup.WebAssembly_compile platform bytes = Returned m
    /\ code = generateWasmInitCode
                (groupByModule (WebAssembly.imports m))
                (map WebAssembly.exportName (WebAssembly.exports m))
                wasmUrl
    /\ ((wasmUrl = "data:application/wasm;base64," +:+ Base64.encode bytes
         /\ Rollup.emitted w' = Rollup.emitted w)
        \/ Rollup.emitted w'
           = (Rollup.emitted w ++ [(wasmUrl, bytes)])%list).
Proof.
  intros H. apply load_success in H.
  destruct H as (_ & n & bytes & m & info & _ & Hread & Hcompile & Hinfo
                 & _ & Hcase).
  rewrite introspect_groups in Hinfo. injection Hinfo as <-.
  exists bytes, m.
  destruct Hcase as [(_ & -> & Hev)
                    | (_ & ref & r & _ & _ & _ & -> & Hev)]; simpl.
  - exists ("data:application/wasm;base64," +:+ Base64.encode bytes).
    do 3 (split; [first [assumption | reflexivity]|]). left.
    split; [reflexivity|].
    rewrite (emitted_events _ _ _ Hev). simpl. apply app_nil_r.
  - exists (orElse (wasmPath r) (Path.basename id None)).
    do 3 (split; [first [assumption | reflexivity]|]). right.
    rewrite (emitted_events _ _ _ Hev). reflexivity.
Qed.

Lemma load_shim_contents_witness :
  exists bytes m wasmUrl,
    Rollup.fs_readFile Sample.platform Sample.id = Returned bytes
    /\ Rollup.WebAssembly_compile Sample.platform bytes = Returned m
    /\ generateWasmInitCode
         [ {| from := "m1"; names := ["a"; "b"] |};
           {| from := "m2"; names := ["c"] |} ]
         ["add"] "sample.wasm"
       = generateWasmInitCode
           (groupByModule (WebAssembly.imports m))
           (map WebAssembly.exportName (WebAssembly.exports m))
           wasmUrl
    /\ ((wasmUrl = "data:application/wasm;base64," +:+ Base64.encode bytes
         /\ Rollup.emitted
              (snd (load Sample.platform Sample.browserNeverInline Sample.id
                         Sample.world))
            = Rollup.emitted Sample.world)
        \/ Rollup.emitted
             (snd (load Sample.platform Sample.browserNeverInline Sample.id
                        Sample.world))
           = (Rollup.emitted Sample.world ++ [(wasmUrl, bytes)])%list).
Proof.
  apply (load_shim_contents Sample.platform Sample.browserNeverInline
           Sample.id Sample.world).
  reflexivity.
Defined.

(** X12.  What can make [load] throw, over a file system that may
    answer each read differently.  The message is [Failed to load WASM: ]
    followed by a cause, and the cause is the error of [fs.statSync]; or
    the error of [parseWasm]'s read or the engine's error on the bytes of
    that read, wrapped by [parseWasm]; or, when the file is inlined, the
    error of the second read, wrapped by [createBase64UriForWasm] (with
    [parseWasm] failing too only where the encoding rejects first); or,
    for a file that is not inlined and has been parsed, the error of
    [this.resolve], the failure to read [meta] off the [null] it answered
    with, the error of the second read as it is, or the error of
    [this.emitFile]. *)
Theorem load_failure_causes (platform : Rollup.Platform)
    (reads : nat -> string -> Outcome (list Byte.byte)) (p : Plugin)
    (id : string) (w w' : Rollup.World) (message : string) :
  Unstable.load platform reads p id w = (Thrown message, w') ->
  exists cause,
    message = "Failed to load WASM: " +:+ cause
    /\ (Rollup.fs_statSync_size platform id = Thrown cause
        \/ (exists c,
              reads (Unstable.readsSoFar w) id = Thrown c
              /\ cause = "Failed to parse WASM file: " +:+ c)
        \/ (exists wasmBinary c,
              reads (Unstable.readsSoFar w) id = Returned wasmBinary
              /\ Rollup.WebAssembly_compile platform wasmBinary = Thrown c
              /\ cause = "Failed to parse WASM file: " +:+ c)
        \/ (exists n c,
              Rollup.fs_statSync_size platform id = Returned n
              /\ shouldInline p (JsNumber.ofN n) = true
              /\ reads (S (Unstable.readsSoFar w)) id = Thrown c
              /\ cause = "Failed to read WASM file: " +:+ c
              /\ (Rollup.parseSettlesFirst platform = false
                  \/ exists wasmBinary m,
                      reads (Unstable.readsSoFar w) id = Returned wasmBinary
                      /\ Rollup.WebAssembly_compile platform wasmBinary
                         = Returned m))
        \/ (exists n wasmBinary m,
              Rollup.fs_statSync_size platform id = Returned n
              /\ shouldInline p (JsNumber.ofN n) = false
              /\ reads (Unstable.readsSoFar w) id = Returned wasmBinary
              /\ Rollup.WebAssembly_compile platform wasmBinary = Returned m
              /\ (Rollup.this_resolve platform id None None = Thrown cause
                  \/ (fst (resolve platform id None None w) = Returned None
                      /\ cause
                         = "Cannot read properties of null (reading 'meta')")
                  \/ exists ref r,
                      Rollup.this_resolve platform id None None
                      = Returned (Some ref)
                      /\ Rollup.heap w !! ref = Some r
                      /\ (reads (S (Unstable.readsSoFar w)) id = Thrown cause
                          \/ exists source,
                              reads (S (Unstable.readsSoFar w)) id
                              = Returned source
                              /\ Rollup.this_emitFile platform
                                   (orElse (wasmPath r)
                                           (Path.basename id None))
                                   source
                                 = Thrown cause)))).
Proof.
  run_unstable.
  destruct (JsString.endsWith id ".wasm"); simpl; [|discriminate].
  destruct (Rollup.fs_statSync_size platform id) as [n|e] eqn:Hstat; simpl.
  2: { intros H; injection H as <- _. eexists. split; [reflexivity|].
       left. reflexivity. }
  rewrite !readsSoFar_record.
  destruct (reads (Unstable.readsSoFar w) id) as [wasmBinary|c] eqn:Hread;
    simpl.
  - destruct (Rollup.WebAssembly_compile platform wasmBinary) as [m|c]
      eqn:Hcompile; simpl.
    + rewrite introspect_groups; simpl.
      destruct (shouldInline p (JsNumber.ofN n)) eqn:Hin; simpl.
      * rewrite !readsSoFar_record.
        destruct (reads (S (Unstable.readsSoFar w)) id) as [source|c]
          eqn:Hagain; simpl; [discriminate|].
        intros H; injection H as <- _. eexists. split; [reflexivity|].
        do 3 right. left. exists n, c.
        do 4 (split; [first [reflexivity | assumption]|]).
        right. exists wasmBinary, m. auto.
      * destruct (Rollup.this_resolve platform id None None)
          as [[ref|]|e] eqn:Hres; simpl.
        -- destruct (Rollup.heap w !! ref) as [r|] eqn:Hheap; simpl.
           ++ rewrite !readsSoFar_record.
              destruct (reads (S (Unstable.readsSoFar w)) id) as [source|c]
                eqn:Hagain; simpl.
              ** destruct (Rollup.this_emitFile platform _ source)
                   as [[]|e] eqn:Hemit; simpl; [discriminate|].
                 intros H; injection H as <- _. eexists.
                 split; [reflexivity|].
                 do 4 right. exists n, wasmBinary, m.
                 do 4 (split; [first [reflexivity | assumption]|]).
                 right; right. exists ref, r.
                 do 2 (split; [first [reflexivity | assumption]|]).
                 right. exists source. auto.
              ** intros H; injection H as <- _. eexists.
                 split; [reflexivity|].
                 do 4 right. exists n, wasmBinary, m.
                 do 4 (split; [first [reflexivity | assumption]|]).
                 right; right. exists ref, r. auto.
           ++ intros H; injection H as <- _. eexists. split; [reflexivity|].
              do 4 right. exists n, wasmBinary, m.
              do 4 (split; [first [reflexivity | assumption]|]).
              right; left. auto.
        -- intros H; injection H as <- _. eexists. split; [reflexivity|].
           do 4 right. exists n, wasmBinary, m.
           do 4 (split; [first [reflexivity | assumption]|]).
           right; left. auto.
        -- intros H; injection H as <- _. eexists. split; [reflexivity|].
           do 4 right. exists n, wasmBinary, m.
           do 4 (split; [first [reflexivity | assumption]|]).
           left. reflexivity.
    + destruct (shouldInline p (JsNumber.ofN n)) eqn:Hin; simpl.
      * rewrite !readsSoFar_record.
        destruct (reads (S (Unstable.readsSoFar w)) id) as [source|c']
          eqn:Hagain; simpl.
        -- intros H; injection H as <- _. eexists. split; [reflexivity|].
           right; right; left. exists wasmBinary, c. auto.
        -- destruct (Rollup.parseSettlesFirst platform) eqn:Hfirst; simpl;
             intros H; injection H as <- _; eexists;
             (split; [reflexivity|]).
           ++ right; right; left. exists wasmBinary, c. auto.
           ++ do 3 right. left. exists n, c'. auto 10.
      * intros H; injection H as <- _. eexists. split; [reflexivity|].
        right; right; left. exists wasmBinary, c. auto.
  - destruct (shouldInline p (JsNumber.ofN n)) eqn:Hin; simpl.
    + rewrite !readsSoFar_record.
      destruct (reads (S (Unstable.readsSoFar w)) id) as [source|c']
        eqn:Hagain; simpl.
      * intros H; injection H as <- _. eexists. split; [reflexivity|].
        right; left. exists c. auto.
      * destruct (Rollup.parseSettlesFirst platform) eqn:Hfirst; simpl;
          intros H; injection H as <- _; eexists; (split; [reflexivity|]).
        -- right; left. exists c. auto.
        -- do 3 right. left. exists n, c'. auto 10.
    + intros H; injection H as <- _. eexists. split; [reflexivity|].
      right; left. exists c. auto.
Qed.

(** The sample, not inlined, vanishes after [parseWasm] has read it: the
    error of the read for the asset is reported as it is. *)
Lemma load_failure_causes_witness :
  exists cause,
    "Failed to load WASM: ENOENT: no such file or directory"
    = "Failed to load WASM: " +:+ cause
    /\ (Rollup.fs_statSync_size Sample.platform Sample.id = Thrown cause
        \/ (exists c,
              Unstable.vanishing (Unstable.readsSoFar Sample.world) Sample.id
              = Thrown c
              /\ cause = "Failed to parse WASM file: " +:+ c)
        \/ (exists wasmBinary c,
              Unstable.vanishing (Unstable.readsSoFar Sample.world) Sample.id
              = Returned wasmBinary
              /\ Rollup.WebAssembly_compile Sample.platform wasmBinary
                 = Thrown c
              /\ cause = "Failed to parse WASM file: " +:+ c)
        \/ (exists n c,
              Rollup.fs_statSync_size Sample.platform Sample.id = Returned n
              /\ shouldInline Sample.browserSmallLimit (JsNumber.ofN n)
                 = true
              /\ Unstable.vanishing (S (Unstable.readsSoFar Sample.world))
                   Sample.id
                 = Thrown c
              /\ cause = "Failed to read WASM file: " +:+ c
              /\ (Rollup.parseSettlesFirst Sample.platform = false
                  \/ exists wasmBinary m,
                      Unstable.vanishing (Unstable.readsSoFar Sample.world)
                        Sample.id
                      = Returned wasmBinary
                      /\ Rollup.WebAssembly_compile Sample.platform
                           wasmBinary
                         = Returned m))
        \/ (exists n wasmBinary m,
              Rollup.fs_statSync_size Sample.platform Sample.id = Returned n
              /\ shouldInline Sample.browserSmallLimit (JsNumber.ofN n)
                 = false
              /\ Unstable.vanishing (Unstable.readsSoFar Sample.world)
                   Sample.id
                 = Returned wasmBinary
              /\ Rollup.WebAssembly_compile Sample.platform wasmBinary
                 = Returned m
              /\ (Rollup.this_resolve Sample.platform Sample.id None None
                  = Thrown cause
                  \/ (fst (resolve Sample.platform Sample.id None None
                                   Sample.world)
                      = Returned None
                      /\ cause
                         = "Cannot read properties of null (reading 'meta')")
                  \/ exists ref r,
                      Rollup.this_resolve Sample.platform Sample.id None None
                      = Returned (Some ref)
                      /\ Rollup.heap Sample.world !! ref = Some r
                      /\ (Unstable.vanishing
                            (S (Unstable.readsSoFar Sample.world)) Sample.id
                          = Thrown cause
                          \/ exists source,
                              Unstable.vanishing
                                (S (Unstable.readsSoFar Sample.world))
                                Sample.id
                              = Returned source
                              /\ Rollup.this_emitFile Sample.platform
                                   (orElse (wasmPath r)
                                           (Path.basename Sample.id None))
                                   source
                                 = Thrown cause)))).
Proof.
  apply (load_failure_causes Sample.platform Unstable.vanishing
           Sample.browserSmallLimit Sample.id Sample.world
           (snd (Unstable.load Sample.platform Unstable.vanishing
                               Sample.browserSmallLimit Sample.id
                               Sample.world))).
  reflexivity.
Defined.

(** X13.  Whatever [load] is called with and however it ends, it calls
    [this.emitFile] at most once, and only for a file that it does not
    inline, after the file has been read and compiled and [this.resolve]
    has answered; the asset it hands over is made of the file's bytes as
    read, under [meta.wasmPath] of the resolution or, where that is
    missing or empty, under the base name of the id. *)
Theorem load_emits_at_most_once (platform : Rollup.Platform) (p : Plugin)
    (id : string) (w : Rollup.World) :
  let w' := snd (load platform p id w) in
  Rollup.emitted w' = Rollup.emitted w
  \/ exists n bytes m ref r,
      Rollup.fs_statSync_size platform id = Returned n
      /\ shouldInline p (JsNumber.ofN n) = false
      /\ Rollup.fs_readFile platform id = Returned bytes
      /\ Rollup.WebAssembly_compile platform bytes = Returned m
      /\ Rollup.this_resolve platform id None None = Returned (Some ref)
      /\ Rollup.heap w !! ref = Some r
      /\ Rollup.emitted w'
         = (Rollup.emitted w
            ++ [(orElse (wasmPath r) (Path.basename id None), bytes)])%list.
Proof.
  run_hook.
  destruct (JsString.endsWith id ".wasm"); simpl; [|auto].
  destruct (Rollup.fs_statSync_size platform id) as [n|e]; simpl.
  2: { left. rewrite !emitted_record; simpl. rewrite ?app_nil_r.
       reflexivity. }
  destruct (shouldInline p (JsNumber.ofN n)) eqn:Hin; simpl;
    destruct (Rollup.fs_readFile platform id) as [bytes|e]; simpl;
    try destruct (Rollup.WebAssembly_compile platform bytes) as [m|e]
      eqn:Hcompile; simpl;
    try rewrite introspect_groups; simpl;
    try destruct (Rollup.parseSettlesFirst platform); simpl;
    try destruct (Rollup.this_resolve platform id None None) as [[ref|]|e];
    simpl;
    try destruct (Rollup.heap w !! ref) as [r|] eqn:Hheap; simpl;
    try destruct (Rollup.this_emitFile platform _ _) as [[]|e]; simpl;
    rewrite !emitted_record; simpl; rewrite ?app_nil_r;
    try (left; reflexivity);
    right; exists n, bytes, m, ref, r; rewrite <- ?app_assoc; auto 10.
Qed.

(** *** [parseWasm] *)

(** X14.  [parseWasm] throws only when the file cannot be read or the
    engine rejects its bytes, and the message is then
    [Failed to parse WASM file: ] followed by the message of that error;
    a file that cannot be read is not handed to the engine. *)
Theorem parseWasm_failure (platform : Rollup.Platform)
    (wasmFilePath : string) (w w' : Rollup.World) (message : string) :
  parseWasm platform wasmFilePath w = (Thrown message, w') ->
  (exists cause,
      Rollup.fs_readFile platform wasmFilePath = Thrown cause
      /\ message = "Failed to parse WASM file: " +:+ cause
      /\ w' = Rollup.record (Rollup.ReadFile wasmFilePath None) w)
  \/ (exists wasmBinary cause,
        Rollup.fs_readFile platform wasmFilePath = Returned wasmBinary
        /\ Rollup.WebAssembly_compile platform wasmBinary = Thrown cause
        /\ message = "Failed to parse WASM file: " +:+ cause
        /\ w' = Rollup.record (Rollup.Compile wasmBinary)
                  (Rollup.record (Rollup.ReadFile wasmFilePath None) w)).
Proof.
  unfold parseWasm, tryCatch, bind, readFile, compile, perform, throw.
  destruct (Rollup.fs_readFile platform wasmFilePath) as [wasmBinary|c]
    eqn:Hread; simpl.
  - destruct (Rollup.WebAssembly_compile platform wasmBinary) as [m|c]
      eqn:Hcompile; simpl.
    + rewrite introspect_groups. discriminate.
    + intros H; injection H as <- <-. right. exists wasmBinary, c. auto.
  - intros H; injection H as <- <-. left. exists c. auto.
Qed.

Lemma parseWasm_failure_witness :
  (exists cause,
      Rollup.fs_readFile Sample.platform "/project/pkg/gone.wasm"
      = Thrown cause
      /\ "Failed to parse WASM file: ENOENT: no such file or directory"
         = "Failed to parse WASM file: " +:+ cause
      /\ snd (parseWasm Sample.platform "/project/pkg/gone.wasm" Sample.world)
         = Rollup.record (Rollup.ReadFile "/project/pkg/gone.wasm" None)
                         Sample.world)
  \/ (exists wasmBinary cause,
        Rollup.fs_readFile Sample.platform "/project/pkg/gone.wasm"
        = Returned wasmBinary
        /\ Rollup.WebAssembly_compile Sample.platform wasmBinary
           = Thrown cause
        /\ "Failed to parse WASM file: ENOENT: no such file or directory"
           = "Failed to parse WASM file: " +:+ cause
        /\ snd (parseWasm Sample.platform "/project/pkg/gone.wasm"
                          Sample.world)
           = Rollup.record (Rollup.Compile wasmBinary)
               (Rollup.record (Rollup.ReadFile "/project/pkg/gone.wasm" None)
                              Sample.world)).
Proof.
  apply (parseWasm_failure Sample.platform "/project/pkg/gone.wasm"
           Sample.world).
  reflexivity.
Defined.

Section Conservation.

Variable ds : list WebAssembly.ModuleImportDescriptor.

Lemma filter_ne_absent (k : string) (keys : list string) :
  ~ In k keys ->
  List.filter (fun k' => negb (String.eqb k' k)) keys = keys.
Proof.
  induction keys as [|a keys IH]; simpl; [reflexivity|].
  intros H. destruct (String.eqb_spec a k) as [-> | Hne]; [tauto|].
  simpl. f_equal. apply IH. tauto.
Qed.

(** The pairs under the keys of a list are those under [k] and those
    under the other keys. *)
Lemma groupPairs_split (k : string) (keys : list string) :
  List.NoDup keys ->
  In k keys \/ namesFrom k ds = [] ->
  Permutation
    (groupPairs
       (map (fun k' => {| from := k'; names := namesFrom k' ds |}) keys))
    (map (fun name => (k, name)) (namesFrom k ds)
     ++ groupPairs
          (map (fun k' => {| from := k'; names := namesFrom k' ds |})
               (List.filter (fun k' => negb (String.eqb k' k)) keys)))%list.
Proof.
  induction keys as [|a keys IH]; intros Hnodup Hk.
  - destruct Hk as [[] | ->]. reflexivity.
  - apply List.NoDup_cons_iff in Hnodup. destruct Hnodup as [Ha Hnodup].
    simpl. destruct (String.eqb_spec a k) as [-> | Hne]; simpl.
    + rewrite (filter_ne_absent k keys Ha). reflexivity.
    + unfold groupPairs in *; simpl.
      rewrite IH; [|assumption|destruct Hk as [[E | Hin] | E]; auto;
                                 congruence].
      apply Permutation_app_swap_app.
  Qed.

End Conservation.

Lemma namesFrom_cons_other (k : string) (d : WebAssembly.ModuleImportDescriptor)
    (ds : list WebAssembly.ModuleImportDescriptor) :
  WebAssembly.module d <> k -> namesFrom k (d :: ds) = namesFrom k ds.
Proof.
  intros Hne. unfold namesFrom; simpl.
  destruct (String.eqb_spec (WebAssembly.module d) k); [contradiction|].
  reflexivity.
Qed.

(** Grouping keeps every import pair, once. *)
Lemma groupByModule_pairs (ds : list WebAssembly.ModuleImportDescriptor) :
  Permutation (groupPairs (groupByModule ds)) (importPairs ds).
Proof.
  induction ds as [|d ds IH]; [reflexivity|].
  unfold groupByModule in *; simpl.
  set (k := WebAssembly.module d).
  set (keys := firstSeen (map WebAssembly.module ds)) in *.
  unfold groupPairs at 1; simpl. fold k.
  unfold namesFrom at 1; simpl. fold k. rewrite String.eqb_refl; simpl.
  apply Permutation_cons; [reflexivity|].
  fold (namesFrom k ds).
  rewrite <- IH.
  rewrite (groupPairs_split ds k keys).
  - apply Permutation_app_head. unfold groupPairs.
    rewrite !List.map_map. simpl.
    erewrite List.map_ext_in; [reflexivity|].
    intros k' Hk'. simpl. apply List.filter_In in Hk'.
    destruct Hk' as [_ Hne]. apply negb_true_iff, String.eqb_neq in Hne.
    rewrite namesFrom_cons_other by (subst k; congruence). reflexivity.
  - apply NoDup_firstSeen.
  - destruct (List.in_dec string_dec k (map WebAssembly.module ds)) as [Hin | Hout].
    + left. apply In_firstSeen, Hin.
    + right. apply namesFrom_absent, Hout.
Qed.

(** No group of [groupByModule] is without a name. *)
Lemma groupByModule_nonempty (ds : list WebAssembly.ModuleImportDescriptor) :
  List.Forall (fun g => names g <> []) (groupByModule ds).
Proof.
  apply List.Forall_forall. intros g Hg. unfold groupByModule in Hg.
  apply List.in_map_iff in Hg. destruct Hg as (k & <- & Hk). simpl.
  apply In_firstSeen, List.in_map_iff in Hk. destruct Hk as (d & <- & Hd).
  unfold namesFrom. clear -Hd.
  induction ds as [|d' ds IH]; simpl in *; [contradiction|].
  destruct Hd as [-> | Hd].
  - rewrite String.eqb_refl. discriminate.
  - destruct (String.eqb _ _); [discriminate|auto].
Qed.

(** X15.  [parseWasm] loses and invents nothing: the pairs of a module
    and a name under its groups are the import pairs of the compiled
    module, each as often as the binary declares it (so their number is
    the number of imports); no group is without a name; and there is one
    export name per export of the module. *)
Theorem parseWasm_conserves_imports (platform : Rollup.Platform)
    (wasmFilePath : string) (w w' : Rollup.World) (info : WasmInfo) :
  parseWasm platform wasmFilePath w = (Returned info, w') ->
  exists wasmBinary wasmModule,
    Rollup.fs_readFile platform wasmFilePath = Returned wasmBinary
    /\ Rollup.WebAssembly_compile platform wasmBinary = Returned wasmModule
    /\ Permutation (groupPairs (imports info))
                   (importPairs (WebAssembly.imports wasmModule))
    /\ List.length (groupPairs (imports info))
       = List.length (WebAssembly.imports wasmModule)
    /\ List.Forall (fun g => names g <> []) (imports info)
    /\ List.length (exports info)
       = List.length (WebAssembly.exports wasmModule).
Proof.
  unfold parseWasm, tryCatch, bind, readFile, compile, perform, throw.
  destruct (Rollup.fs_readFile platform wasmFilePath) as [wasmBinary|c]
    eqn:Hread; simpl; [|discriminate].
  destruct (Rollup.WebAssembly_compile platform wasmBinary) as [m|c]
    eqn:Hcompile; simpl; [|discriminate].
  rewrite introspect_groups. intros H; injection H as <- _.
  exists wasmBinary, m. simpl.
  split; [reflexivity|]. split; [exact Hcompile|].
  split; [apply groupByModule_pairs|].
  split.
  { rewrite (Permutation_length (groupByModule_pairs _)).
    unfold importPairs. apply List.length_map. }
  split; [apply groupByModule_nonempty|apply List.length_map].
Qed.

Lemma parseWasm_conserves_imports_witness :
  exists wasmBinary wasmModule,
    Rollup.fs_readFile Sample.platform Sample.id = Returned wasmBinary
    /\ Rollup.WebAssembly_compile Sample.platform wasmBinary
       = Returned wasmModule
    /\ Permutation
         (groupPairs [ {| from := "m1"; names := ["a"; "b"] |};
                       {| from := "m2"; names := ["c"] |} ])
         (importPairs (WebAssembly.imports wasmModule))
    /\ List.length
         (groupPairs [ {| from := "m1"; names := ["a"; "b"] |};
                       {| from := "m2"; names := ["c"] |} ])
       = List.length (WebAssembly.imports wasmModule)
    /\ List.Forall (fun g => names g <> [])
                   [ {| from := "m1"; names := ["a"; "b"] |};
                     {| from := "m2"; names := ["c"] |} ]
    /\ 1%nat = List.length (WebAssembly.exports wasmModule).
Proof.
  apply (parseWasm_conserves_imports Sample.platform Sample.id Sample.world
           (snd (parseWasm Sample.platform Sample.id Sample.world))
           {| imports := [ {| from := "m1"; names := ["a"; "b"] |};
                           {| from := "m2"; names := ["c"] |} ];
              exports := ["add"] |}).
  reflexivity.
Defined.

(** *** [createBase64UriForWasm] and the data URI *)

(** X16.  [createBase64UriForWasm] throws only when the file cannot be
    read, and the message is then [Failed to read WASM file: ] followed
    by the message of the read error; the one call it has made is that
    read, with the encoding [base64]. *)
Theorem createBase64UriForWasm_failure (platform : Rollup.Platform)
    (filePath : string) (w w' : Rollup.World) (message : string) :
  createBase64UriForWasm platform filePath w = (Thrown message, w') ->
  exists cause,
    Rollup.fs_readFile platform filePath = Thrown cause
    /\ message = "Failed to read WASM file: " +:+ cause
    /\ w' = Rollup.record (Rollup.ReadFile filePath (Some "base64")) w.
Proof.
  unfold createBase64UriForWasm, tryCatch, bind, readFileBase64, perform,
    ret, throw.
  destruct (Rollup.fs_readFile platform filePath) as [bytes|c]; simpl;
    [discriminate|].
  intros H; injection H as <- <-. exists c. auto.
Qed.

Lemma createBase64UriForWasm_failure_witness :
  exists cause,
    Rollup.fs_readFile unreadablePlatform Sample.id = Thrown cause
    /\ "Failed to read WASM file: EACCES: permission denied"
       = "Failed to read WASM file: " +:+ cause
    /\ snd (createBase64UriForWasm unreadablePlatform Sample.id Sample.world)
       = Rollup.record (Rollup.ReadFile Sample.id (Some "base64"))
                       Sample.world.
Proof.
  apply (createBase64UriForWasm_failure unreadablePlatform Sample.id
           Sample.world).
  reflexivity.
Defined.

(** What [createBase64UriForWasm] has read when it returns. *)
Lemma createBase64UriForWasm_Returned (platform : Rollup.Platform)
    (filePath : string) (w w' : Rollup.World) (uri : string) :
  createBase64UriForWasm platform filePath w = (Returned uri, w') ->
  exists bytes,
    Rollup.fs_readFile platform filePath = Returned bytes
    /\ uri = "data:application/wasm;base64," +:+ Base64.encode bytes.
Proof.
  unfold createBase64UriForWasm, tryCatch, bind, readFileBase64, perform,
    ret, throw.
  destruct (Rollup.fs_readFile platform filePath) as [bytes|c]; simpl;
    [|discriminate].
  intros H; injection H as <- _. exists bytes. auto.
Qed.

Lemma length_append (s t : string) :
  String.length (s +:+ t) = (String.length s + String.length t)%nat.
Proof.
  induction s as [|c s IH]; [reflexivity|].
  change (String c s +:+ t) with (String c (s +:+ t)). simpl. congruence.
Qed.

Lemma list_ascii_of_string_append (s t : string) :
  list_ascii_of_string (s +:+ t)
  = (list_ascii_of_string s ++ list_ascii_of_string t)%list.
Proof.
  induction s as [|c s IH]; [reflexivity|].
  change (String c s +:+ t) with (String c (s +:+ t)). simpl. congruence.
Qed.

(** Induction on a list of bytes, three at a time. *)
Lemma bytes_ind3 (P : list Byte.byte -> Prop) :
  P [] -> (forall a, P [a]) -> (forall a b, P [a; b]) ->
  (forall a b c rest, P rest -> P (a :: b :: c :: rest)) ->
  forall bytes, P bytes.
Proof.
  intros H0 H1 H2 H3 bytes.
  enough (H : forall n bs, (List.length bs < n)%nat -> P bs)
    by (apply (H (S (List.length bytes))); lia).
  induction n as [|n IH]; intros bs Hn; [lia|].
  destruct bs as [|a [|b [|c rest]]]; auto.
  apply H3, IH. simpl in Hn. lia.
Qed.

(** Base64 writes four characters for every three bytes begun. *)
Lemma encode_length (bytes : list Byte.byte) :
  String.length (Base64.encode bytes)
  = (4 * ((List.length bytes + 2) / 3))%nat.
Proof.
  induction bytes as [| a | a b | a b c rest IH] using bytes_ind3.
  - reflexivity.
  - cbn [Base64.encode].
    destruct (Base64.split3 a Byte.x00 Byte.x00) as [[[s0 s1] s2] s3].
    reflexivity.
  - cbn [Base64.encode].
    destruct (Base64.split3 a b Byte.x00) as [[[s0 s1] s2] s3].
    reflexivity.
  - cbn [Base64.encode].
    destruct (Base64.split3 a b c) as [[[s0 s1] s2] s3].
    cbn [String.length List.length]. rewrite IH.
    replace (S (S (S (List.length rest))) + 2)%nat
      with (List.length rest + 2 + 1 * 3)%nat by lia.
    rewrite Nat.div_add by lia. lia.
Qed.

(** X17.  The data URI of a file of [n] bytes is 29 characters of prefix
    and four characters for every three bytes begun:
    [29 + 4 * ceil(n / 3)] characters, whatever the bytes are. *)
Theorem data_uri_length (platform : Rollup.Platform) (filePath : string)
    (w w' : Rollup.World) (uri : string) :
  createBase64UriForWasm platform filePath w = (Returned uri, w') ->
  exists bytes,
    Rollup.fs_readFile platform filePath = Returned bytes
    /\ String.length uri
       = (29 + 4 * ((List.length bytes + 2) / 3))%nat.
Proof.
  intros H. apply createBase64UriForWasm_Returned in H.
  destruct H as (bytes & Hread & ->). exists bytes.
  split; [exact Hread|].
  rewrite length_append, encode_length. reflexivity.
Qed.

Lemma data_uri_length_witness :
  exists bytes,
    Rollup.fs_readFile Sample.platform Sample.id = Returned bytes
    /\ String.length
         ("data:application/wasm;base64," +:+ Base64.encode Sample.bytes)
       = (29 + 4 * ((List.length bytes + 2) / 3))%nat.
Proof.
  apply (data_uri_length Sample.platform Sample.id Sample.world
           (snd (createBase64UriForWasm Sample.platform Sample.id
                                        Sample.world))).
  reflexivity.
Defined.

Lemma encodeSextet_isDataUriChar (s : Base64.sextet) :
  isDataUriChar (Base64.encodeSextet s) = true.
Proof.
  destruct s as [[[[[b5 b4] b3] b2] b1] b0].
  destruct b5, b4, b3, b2, b1, b0; vm_compute; reflexivity.
Qed.

Lemma encode_isDataUriChar (bytes : list Byte.byte) :
  forallb isDataUriChar (list_ascii_of_string (Base64.encode bytes)) = true.
Proof.
  induction bytes as [| a | a b | a b c rest IH] using bytes_ind3.
  - reflexivity.
  - cbn [Base64.encode].
    destruct (Base64.split3 a Byte.x00 Byte.x00) as [[[s0 s1] s2] s3].
    cbn [list_ascii_of_string forallb].
    rewrite !encodeSextet_isDataUriChar. reflexivity.
  - cbn [Base64.encode].
    destruct (Base64.split3 a b Byte.x00) as [[[s0 s1] s2] s3].
    cbn [list_ascii_of_string forallb].
    rewrite !encodeSextet_isDataUriChar. reflexivity.
  - cbn [Base64.encode].
    destruct (Base64.split3 a b c) as [[[s0 s1] s2] s3].
    cbn [list_ascii_of_string forallb].
    rewrite !encodeSextet_isDataUriChar, IH. reflexivity.
Qed.

(** No character of a data URI ends or escapes out of a string literal
    in single quotes. *)
Lemma isDataUriChar_quotable (c : ascii) :
  isDataUriChar c = true ->
  c <> "'"%char /\ c <> "\"%char
  /\ c <> ascii_of_nat 10 /\ c <> ascii_of_nat 13.
Proof.
  destruct c as [b0 b1 b2 b3 b4 b5 b6 b7].
  destruct b0, b1, b2, b3, b4, b5, b6, b7; vm_compute;
    intros H; try discriminate H; repeat split; discriminate.
Qed.

(** X18.  A data URI that [createBase64UriForWasm] returns is made of the
    letters and digits of the base64 alphabet and of [+ / = : ; ,] only.
    It holds no single quote, no backslash and no line break, so the
    template of [generateWasmInitCode], which writes the URL between
    single quotes, yields a string literal of exactly that URL. *)
Theorem data_uri_is_quotable (platform : Rollup.Platform) (filePath : string)
    (w w' : Rollup.World) (uri : string) :
  createBase64UriForWasm platform filePath w = (Returned uri, w') ->
  forallb isDataUriChar (list_ascii_of_string uri) = true
  /\ forall c, In c (list_ascii_of_string uri) ->
       c <> "'"%char /\ c <> "\"%char
       /\ c <> ascii_of_nat 10 /\ c <> ascii_of_nat 13.
Proof.
  intros H. apply createBase64UriForWasm_Returned in H.
  destruct H as (bytes & _ & ->).
  assert (Hall : forallb isDataUriChar
                   (list_ascii_of_string
                      ("data:application/wasm;base64,"
                       +:+ Base64.encode bytes)) = true).
  { rewrite list_ascii_of_string_append, forallb_app, encode_isDataUriChar.
    reflexivity. }
  split; [exact Hall|].
  intros c Hc. apply isDataUriChar_quotable.
  rewrite forallb_forall in Hall. apply Hall, Hc.
Qed.

Lemma data_uri_is_quotable_witness :
  forallb isDataUriChar
    (list_ascii_of_string
       ("data:application/wasm;base64," +:+ Base64.encode Sample.bytes))
  = true
  /\ forall c,
       In c (list_ascii_of_string
               ("data:application/wasm;base64,"
                +:+ Base64.encode Sample.bytes)) ->
       c <> "'"%char /\ c <> "\"%char
       /\ c <> ascii_of_nat 10 /\ c <> ascii_of_nat 13.
Proof.
  apply (data_uri_is_quotable Sample.platform Sample.id Sample.world
           (snd (createBase64UriForWasm Sample.platform Sample.id
                                        Sample.world))).
  reflexivity.
Defined.

(** *** The loader [initWasm] *)

(** The expression [/^data:.*?base64,/] takes the prefix that
    [createBase64UriForWasm] writes, and no more. *)
Lemma base64Content_data_uri (payload : string) :
  Loader.base64Content ("data:application/wasm;base64," +:+ payload)
  = payload.
Proof. reflexivity. Qed.

Lemma charCodes_binaryString (bytes : list Byte.byte) :
  Loader.charCodes (Loader.binaryString bytes) = bytes.
Proof.
  unfold Loader.charCodes, Loader.binaryString.
  rewrite list_ascii_of_string_of_list_ascii, List.map_map.
  rewrite <- (List.map_id bytes) at 2. apply List.map_ext.
  intros b. apply byte_of_ascii_of_byte.
Qed.

(** X19.  From the build to the running bundle: the loader, given the
    data URI that [createBase64UriForWasm] built from a file, cuts the
    prefix off with its regular expression, is left with the base64 text
    of the file, and, where the environment has [Buffer] or [atob] and
    these decode base64, hands [WebAssembly.instantiate] exactly the bytes
    of the file; its outcome is that call's, an error wrapped.  Where the
    environment has neither decoder it throws
    [WASM initialization failed: No available base64 decoder]. *)
Theorem loader_round_trip {ImportObject Exports : Type}
    (platform : Rollup.Platform) (filePath : string)
    (content : list Byte.byte) (w : Rollup.World)
    (env : Loader.Environment ImportObject Exports)
    (imports : ImportObject) :
  Rollup.fs_readFile platform filePath = Returned content ->
  Loader.decodes env content ->
  exists wasmUrl,
    fst (createBase64UriForWasm platform filePath w) = Returned wasmUrl
    /\ Loader.base64Content wasmUrl = Base64.encode content
    /\ Loader.initWasm env imports wasmUrl
       = match Loader.Buffer_from env, Loader.atob env with
         | None, None =>
             Thrown "WASM initialization failed: No available base64 decoder"
         | _, _ =>
             Loader.rethrow
               (Loader.WebAssembly_instantiate env content imports)
         end.
Proof.
  intros Hread [Hbuffer Hatob].
  exists ("data:application/wasm;base64," +:+ Base64.encode content).
  split.
  { unfold createBase64UriForWasm, tryCatch, bind, readFileBase64, perform,
      ret.
    rewrite Hread. reflexivity. }
  split; [apply base64Content_data_uri|].
  unfold Loader.initWasm, Loader.instantiate.
  rewrite base64Content_data_uri.
  change (Loader.startsWith
            ("data:application/wasm;base64," +:+ Base64.encode content)
            "data:") with true.
  cbv iota. unfold Loader.bytes.
  destruct (Loader.Buffer_from env) as [from|].
  - rewrite (Hbuffer from eq_refl). reflexivity.
  - destruct (Loader.atob env) as [atob'|]; [|reflexivity].
    rewrite (Hatob atob' eq_refl), charCodes_binaryString. reflexivity.
Qed.

Lemma loader_round_trip_witness :
  exists wasmUrl,
    fst (createBase64UriForWasm Sample.platform Sample.id Sample.world)
    = Returned wasmUrl
    /\ Loader.base64Content wasmUrl = Base64.encode Sample.bytes
    /\ Loader.initWasm SampleLoader.node tt wasmUrl = Returned ["add"].
Proof.
  apply (loader_round_trip Sample.platform Sample.id Sample.bytes
           Sample.world SampleLoader.node tt).
  - reflexivity.
  - split.
    + intros from H. injection H as <-. vm_compute. reflexivity.
    + intros atob' H. discriminate H.
Defined.

(** X20.  What can make the loader throw.  The message is
    [WASM initialization failed: ] followed by a cause.  For a URL that
    begins with [data:] the cause is the lack of a decoder, the error of
    [atob], or the error of [WebAssembly.instantiate] on the decoded
    bytes; for any other URL it is the error of [fetch], of
    [WebAssembly.instantiateStreaming], of [arrayBuffer()], or of
    [WebAssembly.instantiate] on the fetched bytes. *)
Theorem loader_failure_causes {ImportObject Exports : Type}
    (env : Loader.Environment ImportObject Exports) (imports : ImportObject)
    (wasmUrl message : string) :
  Loader.initWasm env imports wasmUrl = Thrown message ->
  exists cause,
    message = "WASM initialization failed: " +:+ cause
    /\ ((Loader.startsWith wasmUrl "data:" = true
         /\ (Loader.bytes env (Loader.base64Content wasmUrl) = Thrown cause
             \/ exists decoded,
                 Loader.bytes env (Loader.base64Content wasmUrl)
                 = Returned decoded
                 /\ Loader.WebAssembly_instantiate env decoded imports
                    = Thrown cause))
        \/ (Loader.startsWith wasmUrl "data:" = false
            /\ (Loader.fetch env wasmUrl = Thrown cause
                \/ exists response,
                    Loader.fetch env wasmUrl = Returned response
                    /\ ((exists instantiateStreaming,
                            Loader.WebAssembly_instantiateStreaming env
                            = Some instantiateStreaming
                            /\ instantiateStreaming response imports
                               = Thrown cause)
                        \/ Loader.arrayBuffer response = Thrown cause
                        \/ exists buffer,
                            Loader.arrayBuffer response = Returned buffer
                            /\ Loader.WebAssembly_instantiate env buffer
                                 imports
                               = Thrown cause)))).
Proof.
  unfold Loader.initWasm, Loader.instantiate, Loader.rethrow.
  destruct (Loader.startsWith wasmUrl "data:").
  - destruct (Loader.bytes env (Loader.base64Content wasmUrl))
      as [decoded|c] eqn:Hbytes.
    + destruct (Loader.WebAssembly_instantiate env decoded imports)
        as [e|c] eqn:Hinst; [discriminate|].
      intros H; injection H as <-. exists c. split; [reflexivity|].
      left. split; [reflexivity|]. right. exists decoded. auto.
    + intros H; injection H as <-. exists c. auto.
  - destruct (Loader.fetch env wasmUrl) as [response|c] eqn:Hfetch.
    2: { intros H; injection H as <-. exists c. auto. }
    assert (Hbuffer :
      forall message',
        match
          match Loader.arrayBuffer response with
          | Returned buffer =>
              Loader.WebAssembly_instantiate env buffer imports
          | Thrown message => Thrown message
          end
        with
        | Returned a => Returned a
        | Thrown message =>
            Thrown ("WASM initialization failed: " +:+ message)
        end = Thrown message' ->
        exists cause,
          message' = "WASM initialization failed: " +:+ cause
          /\ (Loader.arrayBuffer response = Thrown cause
              \/ exists buffer,
                  Loader.arrayBuffer response = Returned buffer
                  /\ Loader.WebAssembly_instantiate env buffer imports
                     = Thrown cause)).
    { intros message'.
      destruct (Loader.arrayBuffer response) as [buffer|c].
      - destruct (Loader.WebAssembly_instantiate env buffer imports)
          as [e|c] eqn:Hinst; [discriminate|].
        intros H; injection H as <-. exists c. split; [reflexivity|].
        right. exists buffer. auto.
      - intros H; injection H as <-. exists c. auto. }
    cbv zeta.
    destruct (Loader.WebAssembly_instantiateStreaming env)
      as [instantiateStreaming|] eqn:Hstreaming.
    + destruct (Loader.startsWith _ "application/wasm").
      * destruct (instantiateStreaming response imports) as [e|c] eqn:Hinst;
          [discriminate|].
        intros H; injection H as <-. exists c. split; [reflexivity|].
        right. split; [reflexivity|]. right. exists response.
        split; [reflexivity|]. left. exists instantiateStreaming. auto.
      * intros H. apply Hbuffer in H. destruct H as (cause & -> & Hcause).
        exists cause. split; [reflexivity|]. right. split; [reflexivity|].
        right. exists response. auto.
    + intros H. apply Hbuffer in H. destruct H as (cause & -> & Hcause).
      exists cause. split; [reflexivity|]. right. split; [reflexivity|].
      right. exists response. auto.
Qed.

Lemma loader_failure_causes_witness :
  exists cause,
    "WASM initialization failed: No available base64 decoder"
    = "WASM initialization failed: " +:+ cause
    /\ ((Loader.startsWith "data:application/wasm;base64,AGFzbQ==" "data:"
         = true
         /\ (Loader.bytes SampleLoader.bare
               (Loader.base64Content "data:application/wasm;base64,AGFzbQ==")
             = Thrown cause
             \/ exists decoded,
                 Loader.bytes SampleLoader.bare
                   (Loader.base64Content
                      "data:application/wasm;base64,AGFzbQ==")
                 = Returned decoded
                 /\ Loader.WebAssembly_instantiate SampleLoader.bare decoded
                      tt
                    = Thrown cause))
        \/ (Loader.startsWith "data:application/wasm;base64,AGFzbQ==" "data:"
            = false
            /\ (Loader.fetch SampleLoader.bare
                  "data:application/wasm;base64,AGFzbQ=="
                = Thrown cause
                \/ exists response,
                    Loader.fetch SampleLoader.bare
                      "data:application/wasm;base64,AGFzbQ=="
                    = Returned response
                    /\ ((exists instantiateStreaming,
                            Loader.WebAssembly_instantiateStreaming
                              SampleLoader.bare
                            = Some instantiateStreaming
                            /\ instantiateStreaming response tt
                               = Thrown cause)
                        \/ Loader.arrayBuffer response = Thrown cause
                        \/ exists buffer,
                            Loader.arrayBuffer response = Returned buffer
                            /\ Loader.WebAssembly_instantiate
                                 SampleLoader.bare buffer tt
                               = Thrown cause)))).
Proof.
  apply (loader_failure_causes SampleLoader.bare tt
           "data:application/wasm;base64,AGFzbQ=="
           "WASM initialization failed: No available base64 decoder").
  reflexivity.
Defined.

(** X21.  The loader takes one of its two paths and leaves the other
    alone: for a URL that begins with [data:] its outcome is the same in
    any two environments that have the same decoders and the same
    [WebAssembly.instantiate], whatever [fetch] and
    [WebAssembly.instantiateStreaming] are (nothing is fetched); and for
    any other URL it is the same in any two environments that have the
    same [fetch] and the same two ways to instantiate, whatever the
    decoders are (nothing is decoded). *)
Theorem loader_takes_one_path {ImportObject Exports : Type}
    (env env' : Loader.Environment ImportObject Exports)
    (imports : ImportObject) (wasmUrl : string) :
  Loader.WebAssembly_instantiate env = Loader.WebAssembly_instantiate env' ->
  (if Loader.startsWith wasmUrl "data:"
   then Loader.Buffer_from env = Loader.Buffer_from env'
        /\ Loader.atob env = Loader.atob env'
   else Loader.fetch env = Loader.fetch env'
        /\ Loader.WebAssembly_instantiateStreaming env
           = Loader.WebAssembly_instantiateStreaming env') ->
  Loader.initWasm env imports wasmUrl = Loader.initWasm env' imports wasmUrl.
Proof.
  intros Hinst Hpath.
  unfold Loader.initWasm, Loader.instantiate, Loader.bytes.
  destruct (Loader.startsWith wasmUrl "data:");
    destruct Hpath as [H1 H2]; rewrite Hinst, H1, H2; reflexivity.
Qed.

Lemma loader_takes_one_path_witness :
  Loader.initWasm SampleLoader.node tt
    ("data:application/wasm;base64," +:+ Base64.encode Sample.bytes)
  = Loader.initWasm SampleLoader.nodeWithFetch tt
      ("data:application/wasm;base64," +:+ Base64.encode Sample.bytes).
Proof.
  apply (loader_takes_one_path SampleLoader.node SampleLoader.nodeWithFetch tt
           ("data:application/wasm;base64," +:+ Base64.encode Sample.bytes)).
  - reflexivity.
  - vm_compute. split; reflexivity.
Defined.
